(** * H-Pulse Mirage: the policy-optimisation engine

    A shallow embedding of the engine's Python code:

    - [app/core/ppo_agent.py]: [PPOPolicy], [PPOAgent] (advantage
      estimation, save/load) and [CharacterEnvironment];
    - [app/ai/utils.py], [app/ai/environment.py], [app/pvp_arena/pvp_env.py]:
      [build_state], [compute_reward], [MirageEnv], [PvPArenaEnv];
    - [app/routers/simulation_router.py]: the agent cache
      [get_agent_for_character].

    Python floats are modelled by exact numbers: rationals [Q] where the
    code only adds, multiplies, divides and compares (those definitions
    compute), reals [R] where [exp] and [tanh] occur (the network).
    Rounding, overflow and underflow of the machine formats are outside the
    model.  Exceptions are values: every operation that can raise returns a
    [res], and an operation on an object returns the object as it is left
    when the exception escapes.  Calls to the random generator take the
    drawn number as an argument. *)

From Stdlib Require Import QArith Reals Psatz ZArith.
From stdpp Require Import gmap strings list fin_maps functions pretty.

(** ** Python prelude *)

Module Py.

Inductive exn : Type :=
| IndexError
| KeyError (key : string)
| UnboundLocalError (name : string)
| ZeroDivisionError
| RuntimeError           (* torch: shape mismatch *)
| FileNotFoundError
| UnpicklingError
| TypeError.

Inductive res (A : Type) : Type :=
| Ok (a : A)
| Raise (e : exn).
Arguments Ok {A} a.
Arguments Raise {A} e.

Definition bind {A B} (m : res A) (k : A -> res B) : res B :=
  match m with
  | Ok a => k a
  | Raise e => Raise e
  end.

Definition is_ok {A} (m : res A) : bool :=
  match m with Ok _ => true | Raise _ => false end.

(** [l[i]] on a list: indices [-len <= i < 0] count from the end, anything
    outside [-len <= i < len] raises [IndexError]. *)
Definition index {A} (l : list A) (i : Z) : res A :=
  let n := Z.of_nat (length l) in
  let j := if (i <? 0)%Z then (n + i)%Z else i in
  if ((0 <=? j) && (j <? n))%Z
  then match l !! Z.to_nat j with
       | Some a => Ok a
       | None => Raise IndexError
       end
  else Raise IndexError.

(** [d[k]] on a dict. *)
Definition getitem {V} (d : gmap string V) (k : string) : res V :=
  match d !! k with
  | Some v => Ok v
  | None => Raise (KeyError k)
  end.

(** [d.get(k, default)]. *)
Definition get {V} (d : gmap string V) (k : string) (default : V) : V :=
  match d !! k with
  | Some v => v
  | None => default
  end.

(** The builtin [max(a, b)] keeps [a] unless [b > a]; [min(a, b)] keeps
    [a] unless [b < a]. *)
Definition max (a b : Q) : Q := if Qlt_le_dec a b then b else a.
Definition min (a b : Q) : Q := if Qlt_le_dec b a then b else a.

(** Truth value of a float: only zero is false. *)
Definition truthy (x : Q) : bool := negb (Qeq_bool x 0).

(** [a < b], [a > b], [a <= b], [a >= b] on floats. *)
Definition ltb (a b : Q) : bool := if Qlt_le_dec a b then true else false.
Definition gtb (a b : Q) : bool := ltb b a.
Definition leb (a b : Q) : bool := negb (gtb a b).

(** [float(b)] of a bool, as in [1.0 - dones[t]]. *)
Definition of_bool (b : bool) : Q := if b then 1 else 0.

(** [l[i] = v] on a list. *)
Definition setitem {A} (l : list A) (i : Z) (v : A) : res (list A) :=
  let n := Z.of_nat (length l) in
  let j := if (i <? 0)%Z then (n + i)%Z else i in
  if ((0 <=? j) && (j <? n))%Z
  then Ok (<[Z.to_nat j := v]> l)
  else Raise IndexError.

(** Statements that only write to an object with fields [S]: an
    assignment [field = e], a guarded statement [if c: body], an
    [if c: .. else: ..], and a sequence of statements. *)
Definition stmt (S : Type) : Type := S -> S.

Definition assign {S V} (set : V -> S -> S) (e : S -> V) : stmt S :=
  fun s => set (e s) s.

Definition when {S} (c : bool) (body : stmt S) : stmt S :=
  fun s => if c then body s else s.

Definition if_else {S} (c : bool) (body1 body2 : stmt S) : stmt S :=
  fun s => if c then body1 s else body2 s.

Definition block {S} (l : list (stmt S)) : stmt S :=
  fun s => foldl (fun s f => f s) s l.

(** [f] keeps the invariant [I]. *)
Definition preserves {S} (I : S -> Prop) (f : stmt S) : Prop :=
  forall s, I s -> I (f s).

(** [f] does not change what [proj] reads. *)
Definition frames {S V} (proj : S -> V) (f : stmt S) : Prop :=
  forall s, proj (f s) = proj s.

(** Methods of an object with state [S]: the state afterwards, and the
    value returned or the exception raised.  A raise keeps the state
    written so far. *)
Definition M (S A : Type) : Type := S -> S * res A.

Definition m_ret {S A} (a : A) : M S A := fun s => (s, Ok a).

Definition m_bind {S A B} (m : M S A) (k : A -> M S B) : M S B :=
  fun s => match m s with
           | (s', Ok a) => k a s'
           | (s', Raise e) => (s', Raise e)
           end.

Definition lift {S A} (r : res A) : M S A := fun s => (s, r).
Definition gets {S A} (f : S -> A) : M S A := fun s => (s, Ok (f s)).
Definition reads {S A} (f : S -> res A) : M S A := fun s => (s, f s).
Definition modify {S} (f : S -> S) : M S unit := fun s => (f s, Ok tt).

End Py.

Import Py.

#[global] Instance res_ret : MRet res := @Ok.
#[global] Instance res_bind : MBind res := fun A B k m => Py.bind m k.
#[global] Instance M_ret S : MRet (M S) := fun A a => m_ret a.
#[global] Instance M_bind S : MBind (M S) := fun A B k m => m_bind m k.

(** ** Tensors and layers ([torch.nn]) over the reals *)

Module Torch.

Local Open Scope R_scope.

Definition vec := list R.
Definition mat := list (list R).


(** [nn.Linear(in_features, out_features)]: [weight] has one row per
    output, [bias] one entry per output. *)
Record Linear : Type := {
  in_features : nat;
  out_features : nat;
  weight : mat;
  bias : vec
}.

(** The tensors of a layer have the shapes its constructor gives them. *)
Definition shaped (L : Linear) : bool :=
  (length (weight L) =? out_features L)%nat
  && (length (bias L) =? out_features L)%nat
  && forallb (fun r => (length r =? in_features L)%nat) (weight L).




End Torch.

(** ** [class PPOPolicy] and [class PPOAgent] *)

Module PPO.

Import Torch.

(** The parameters of the network, under the names of its [state_dict]:
    [shared_layers.0], [shared_layers.2], [actor_head.0], [critic_head.0]. *)
Record PPOPolicy : Type := {
  shared_layers_0 : Linear;
  shared_layers_2 : Linear;
  actor_head_0 : Linear;
  critic_head_0 : Linear
}.

(** The initial tensors of a layer are drawn at random by [nn.Linear]; the
    draw for the [k]-th layer of a module is an argument. *)
Record init_draw : Type := {
  draw_weight : nat -> mat;
  draw_bias : nat -> vec
}.

Definition Linear_init (i o : nat) (rnd : init_draw) (k : nat) : Linear :=
  {| in_features := i; out_features := o;
     weight := draw_weight rnd k; bias := draw_bias rnd k |}.

Definition default_hidden_dim : nat := 64.

Definition PPOPolicy_init (state_dim action_dim hidden_dim : nat)
    (rnd : init_draw) : PPOPolicy :=
  {| shared_layers_0 := Linear_init state_dim hidden_dim rnd 0;
     shared_layers_2 := Linear_init hidden_dim hidden_dim rnd 1;
     actor_head_0 := Linear_init hidden_dim action_dim rnd 2;
     critic_head_0 := Linear_init hidden_dim 1 rnd 3 |}.


(** Shapes of the parameter tensors, as [load_state_dict] compares them. *)
Definition shape (L : Linear) : nat * nat := (out_features L, in_features L).

Definition same_shape (L1 L2 : Linear) : bool :=
  bool_decide (shape L1 = shape L2).

(** [module.load_state_dict(sd)] (strict): every tensor of [sd] is copied
    into the parameter of the same name; a tensor of another shape is an
    error. *)
Definition load_linear (self sd : Linear) : res Linear :=
  if same_shape self sd
  then Ok {| in_features := in_features self;
             out_features := out_features self;
             weight := weight sd; bias := bias sd |}
  else Raise RuntimeError.

Definition load_state_dict (self sd : PPOPolicy) : res PPOPolicy :=
  l0 ← load_linear (shared_layers_0 self) (shared_layers_0 sd);
  l2 ← load_linear (shared_layers_2 self) (shared_layers_2 sd);
  la ← load_linear (actor_head_0 self) (actor_head_0 sd);
  lc ← load_linear (critic_head_0 self) (critic_head_0 sd);
  Ok {| shared_layers_0 := l0; shared_layers_2 := l2;
        actor_head_0 := la; critic_head_0 := lc |}.

(** The state of [optim.Adam]: learning rate, step count and the two
    moment estimates per parameter tensor.  It is only stored and restored
    here. *)
Record Adam : Type := {
  lr : Q;
  adam_step : nat;
  exp_avg : list vec;
  exp_avg_sq : list vec
}.

Definition Adam_init (lr : Q) : Adam :=
  {| lr := lr; adam_step := 0; exp_avg := []; exp_avg_sq := [] |}.

Record PPOAgent : Type := {
  policy : PPOPolicy;
  optimizer : Adam;
  state_dim : nat;
  action_dim : nat;
  gamma : Q;
  clip_ratio : Q;
  max_grad_norm : Q;
  value_coef : Q;
  entropy_coef : Q
}.

(** [PPOAgent.__init__] with every keyword argument. *)
Definition PPOAgent_init (state_dim action_dim hidden_dim : nat)
    (lr gamma clip_ratio max_grad_norm value_coef entropy_coef : Q)
    (rnd : init_draw) : PPOAgent :=
  {| policy := PPOPolicy_init state_dim action_dim hidden_dim rnd;
     optimizer := Adam_init lr;
     state_dim := state_dim;
     action_dim := action_dim;
     gamma := gamma;
     clip_ratio := clip_ratio;
     max_grad_norm := max_grad_norm;
     value_coef := value_coef;
     entropy_coef := entropy_coef |}.

(** [PPOAgent(state_dim=.., action_dim=..)]: the defaults of the signature. *)
Definition PPOAgent_default (state_dim action_dim : nat) (rnd : init_draw)
    : PPOAgent :=
  PPOAgent_init state_dim action_dim default_hidden_dim
    (3 # 10000) (99 # 100) (2 # 10) (5 # 10) (5 # 10) (1 # 100) rnd.

(** *** [compute_returns_and_advantages] *)

Local Open Scope Q_scope.

(** The variables the loop carries from one iteration to the next. *)
Record gae_vars : Type := {
  returns : list Q;
  advantages : list Q;
  gae : Q
}.

(** One pass through the body of the [for t in reversed(range(..))] loop. *)
Definition gae_body (rewards values : list Q) (next_value : Q)
    (dones : list bool) (gamma gae_lambda : Q) (st : gae_vars) (t : Z)
    : res gae_vars :=
  '(next_non_terminal, next_return) ←
    (if (t =? Z.of_nat (length rewards) - 1)%Z
     then d ← index dones (-1); Ok (1 - of_bool d, next_value)
     else d ← index dones (t + 1); r0 ← index (returns st) 0;
          Ok (1 - of_bool d, r0));
  r ← index rewards t;
  v ← index values t;
  let delta := r + gamma * next_value * next_non_terminal - v in
  let gae := delta + gamma * gae_lambda * next_non_terminal * gae st in
  Ok {| returns := (gae + v) :: returns st;
        advantages := gae :: advantages st;
        gae := gae |}.

Fixpoint for_each {S : Type} (body : S -> Z -> res S) (ts : list Z) (st : S)
    : res S :=
  match ts with
  | [] => Ok st
  | t :: ts' => st' ← body st t; for_each body ts' st'
  end.

(** [reversed(range(n))]. *)
Definition reversed_range (n : nat) : list Z :=
  rev (map Z.of_nat (seq 0 n)).

(** [gamma or self.gamma]: [None] and [0.0] both fall back to the agent's
    own discount. *)
Definition gamma_or (gamma : option Q) (self_gamma : Q) : Q :=
  match gamma with
  | Some g => if truthy g then g else self_gamma
  | None => self_gamma
  end.

Definition compute_returns_and_advantages (self : PPOAgent)
    (rewards values : list Q) (next_value : Q) (dones : list bool)
    (gamma : option Q) (gae_lambda : Q) : res (list Q * list Q) :=
  let gamma := gamma_or gamma (PPO.gamma self) in
  st ← for_each (gae_body rewards values next_value dones gamma gae_lambda)
        (reversed_range (length rewards))
        {| returns := []; advantages := []; gae := 0 |};
  Ok (returns st, advantages st).

End PPO.

(** ** The network in float32

    The program runs the network in [torch.float32].  A float is taken as
    the real it denotes, and every operation gives the float nearest to
    the exact result (ties to the even significand): 24 significant bits,
    subnormals down to [2^-149], underflow to zero below them.  Overflow,
    infinities and NaN are not modelled.  The exponential and the
    hyperbolic tangent are taken correctly rounded. *)

Module Float32.

Import Torch PPO.

Local Open Scope R_scope.

Definition floor (x : R) : Z := (up x - 1)%Z.

(** The integer nearest to [x], the even one of two equally near. *)
Definition nearest_even (x : R) : Z :=
  let f := floor x in
  if Rlt_dec (x - IZR f) (/ 2) then f
  else if Rlt_dec (/ 2) (x - IZR f) then (f + 1)%Z
  else if Z.even f then f else (f + 1)%Z.

(** The exponent of the last significant bit of a float of the size of
    [x]. *)
Definition ulp_exponent (x : R) : Z :=
  Z.max (floor (ln (Rabs x) / ln 2) - 23) (-149).

Definition round (x : R) : R :=
  let e := ulp_exponent x in
  IZR (nearest_even (x * powerRZ 2 (- e))) * powerRZ 2 e.

Definition add (x y : R) : R := round (x + y).
Definition sub (x y : R) : R := round (x - y).
Definition mul (x y : R) : R := round (x * y).
Definition div (x y : R) : R := round (x / y).
Definition expf (x : R) : R := round (exp x).
Definition tanhf (x : R) : R := round (tanh x).

(** Sums are accumulated from the left.  (The library may add in another
    order; nothing below depends on the order.) *)
Definition vsum32 (v : vec) : R := foldl add 0 v.
Definition dot32 (r x : vec) : R := vsum32 (zip_with mul r x).

Definition linear32 (L : Linear) (x : vec) : res vec :=
  if (length x =? in_features L)%nat
  then Ok (zip_with add (map (fun r => dot32 r x) (weight L)) (bias L))
  else Raise RuntimeError.

Definition Tanh32 (x : vec) : vec := map tanhf x.

Definition vmax (x : vec) : R :=
  match x with
  | [] => 0
  | x0 :: x' => foldl Rmax x0 x'
  end.

(** [nn.Softmax(dim=-1)] as the library computes it: the largest entry is
    subtracted before the exponential. *)
Definition Softmax32 (x : vec) : vec :=
  let m := vmax x in
  let e := map (fun xi => expf (sub xi m)) x in
  let s := vsum32 e in
  map (fun ei => div ei s) e.

(** [PPOPolicy.forward] on float32 tensors. *)
Definition forward32 (self : PPOPolicy) (state : vec) : res (vec * vec) :=
  h1 ← linear32 (shared_layers_0 self) state;
  h2 ← linear32 (shared_layers_2 self) (Tanh32 h1);
  let features := Tanh32 h2 in
  logits ← linear32 (actor_head_0 self) features;
  let action_probs := Softmax32 logits in
  state_value ← linear32 (critic_head_0 self) features;
  Ok (action_probs, state_value).

End Float32.

(** ** Character profiles

    A profile is the dict built by [Character.to_profile]: float entries
    under ["O"], ["C"], ["E"], ["A"], ["N"], ["reputation"], ["trust"],
    ["wealth"], ["status"], and two optional nested dicts, ["wuxing"] and
    ["emotion_state"]. *)

Module Profile.

Record t : Type := {
  attrs : gmap string Q;
  wuxing : option (gmap string Q);
  emotion_state : option (gmap string Q)
}.

Definition set_attrs (a : gmap string Q) (p : t) : t :=
  {| attrs := a; wuxing := wuxing p; emotion_state := emotion_state p |}.

Definition set_emotion_state (e : gmap string Q) (p : t) : t :=
  {| attrs := attrs p; wuxing := wuxing p; emotion_state := Some e |}.

(** [profile.get("emotion_state", {})]. *)
Definition emotion_state_or_empty (p : t) : gmap string Q :=
  default ∅ (emotion_state p).

Definition wuxing_or_empty (p : t) : gmap string Q :=
  default ∅ (wuxing p).

(** [profile[k] += d] on a float entry. *)
Definition add_attr (k : string) (d : Q) (p : t) : res t :=
  v ← getitem (attrs p) k;
  Ok (set_attrs (<[k := (v + d)%Q]> (attrs p)) p).

(** [profile["emotion_state"][k] += d]. *)
Definition add_emotion (k : string) (d : Q) (p : t) : res t :=
  match emotion_state p with
  | None => Raise (KeyError "emotion_state")
  | Some e =>
      v ← getitem e k;
      Ok (set_emotion_state (<[k := (v + d)%Q]> e) p)
  end.

End Profile.

(** [s in t] on strings. *)
Fixpoint contains (s t : string) : bool :=
  String.prefix s t
  || match t with
     | EmptyString => false
     | String _ t' => contains s t'
     end.

(** ** [class CharacterEnvironment] *)

Module CharacterEnvironment.

Local Open Scope Q_scope.

Record Emotions : Type := {
  joy : Q;
  anger : Q;
  sadness : Q;
  fear : Q
}.

Record Pressures : Type := {
  threat_level : Q;
  opportunity : Q;
  social_pressure : Q;
  time_pressure : Q
}.

Record HistoryEntry : Type := {
  h_step : Z;
  h_action : string;
  h_outcome : string;
  h_reward : Q
}.

(** [self.state]: the dict [reset] builds, whose keys never change. *)
Record State : Type := {
  health : Q;
  energy : Q;
  wealth : Q;
  reputation : Q;
  happiness : Q;
  stress : Q;
  trust : Q;
  emotions : Emotions;
  environment : Pressures;
  history : list HistoryEntry
}.

Definition set_health (v : Q) (s : State) : State :=
  {| health := v; energy := energy s; wealth := wealth s;
     reputation := reputation s; happiness := happiness s;
     stress := stress s; trust := trust s; emotions := emotions s;
     environment := environment s; history := history s |}.

Definition set_energy (v : Q) (s : State) : State :=
  {| health := health s; energy := v; wealth := wealth s;
     reputation := reputation s; happiness := happiness s;
     stress := stress s; trust := trust s; emotions := emotions s;
     environment := environment s; history := history s |}.

Definition set_wealth (v : Q) (s : State) : State :=
  {| health := health s; energy := energy s; wealth := v;
     reputation := reputation s; happiness := happiness s;
     stress := stress s; trust := trust s; emotions := emotions s;
     environment := environment s; history := history s |}.

Definition set_reputation (v : Q) (s : State) : State :=
  {| health := health s; energy := energy s; wealth := wealth s;
     reputation := v; happiness := happiness s;
     stress := stress s; trust := trust s; emotions := emotions s;
     environment := environment s; history := history s |}.

Definition set_happiness (v : Q) (s : State) : State :=
  {| health := health s; energy := energy s; wealth := wealth s;
     reputation := reputation s; happiness := v;
     stress := stress s; trust := trust s; emotions := emotions s;
     environment := environment s; history := history s |}.

Definition set_stress (v : Q) (s : State) : State :=
  {| health := health s; energy := energy s; wealth := wealth s;
     reputation := reputation s; happiness := happiness s;
     stress := v; trust := trust s; emotions := emotions s;
     environment := environment s; history := history s |}.

Definition set_trust (v : Q) (s : State) : State :=
  {| health := health s; energy := energy s; wealth := wealth s;
     reputation := reputation s; happiness := happiness s;
     stress := stress s; trust := v; emotions := emotions s;
     environment := environment s; history := history s |}.

Definition set_emotions (v : Emotions) (s : State) : State :=
  {| health := health s; energy := energy s; wealth := wealth s;
     reputation := reputation s; happiness := happiness s;
     stress := stress s; trust := trust s; emotions := v;
     environment := environment s; history := history s |}.

Definition set_environment (v : Pressures) (s : State) : State :=
  {| health := health s; energy := energy s; wealth := wealth s;
     reputation := reputation s; happiness := happiness s;
     stress := stress s; trust := trust s; emotions := emotions s;
     environment := v; history := history s |}.

Definition set_history (v : list HistoryEntry) (s : State) : State :=
  {| health := health s; energy := energy s; wealth := wealth s;
     reputation := reputation s; happiness := happiness s;
     stress := stress s; trust := trust s; emotions := emotions s;
     environment := environment s; history := v |}.

Definition set_joy (v : Q) (s : State) : State :=
  set_emotions {| joy := v; anger := anger (emotions s);
                  sadness := sadness (emotions s);
                  fear := fear (emotions s) |} s.

Definition set_anger (v : Q) (s : State) : State :=
  set_emotions {| joy := joy (emotions s); anger := v;
                  sadness := sadness (emotions s);
                  fear := fear (emotions s) |} s.

Definition set_sadness (v : Q) (s : State) : State :=
  set_emotions {| joy := joy (emotions s); anger := anger (emotions s);
                  sadness := v; fear := fear (emotions s) |} s.

Definition set_fear (v : Q) (s : State) : State :=
  set_emotions {| joy := joy (emotions s); anger := anger (emotions s);
                  sadness := sadness (emotions s); fear := v |} s.

Definition set_threat_level (v : Q) (s : State) : State :=
  set_environment {| threat_level := v;
                     opportunity := opportunity (environment s);
                     social_pressure := social_pressure (environment s);
                     time_pressure := time_pressure (environment s) |} s.

Definition set_opportunity (v : Q) (s : State) : State :=
  set_environment {| threat_level := threat_level (environment s);
                     opportunity := v;
                     social_pressure := social_pressure (environment s);
                     time_pressure := time_pressure (environment s) |} s.

Definition set_social_pressure (v : Q) (s : State) : State :=
  set_environment {| threat_level := threat_level (environment s);
                     opportunity := opportunity (environment s);
                     social_pressure := v;
                     time_pressure := time_pressure (environment s) |} s.

Definition set_time_pressure (v : Q) (s : State) : State :=
  set_environment {| threat_level := threat_level (environment s);
                     opportunity := opportunity (environment s);
                     social_pressure := social_pressure (environment s);
                     time_pressure := v |} s.

Record t : Type := {
  character : Profile.t;
  action_space : list string;
  action_dim : nat;
  max_steps : Z;
  current_step : Z;
  state : State
}.

Definition set_current_step (n : Z) (self : t) : t :=
  {| character := character self; action_space := action_space self;
     action_dim := action_dim self; max_steps := max_steps self;
     current_step := n; state := state self |}.

Definition set_state (s : State) (self : t) : t :=
  {| character := character self; action_space := action_space self;
     action_dim := action_dim self; max_steps := max_steps self;
     current_step := current_step self; state := s |}.

Definition default_action_space : list string :=
  ["合作"; "竞争"; "冒险"; "保守"; "说服"; "威胁"; "逃避"; "对抗"; "礼让"; "强硬"].

(** [get_state_vector]: 7 attributes, 5 traits, 4 emotions, 4 pressures and
    the step progress [current_step / max_steps]. *)
Definition get_state_vector (self : t) : res (list Q) :=
  let s := state self in
  let c := Profile.attrs (character self) in
  let attrs := [health s; energy s; wealth s; reputation s; happiness s;
                stress s; trust s] in
  let personality := [get c "O" 0.5; get c "C" 0.5; get c "E" 0.5;
                      get c "A" 0.5; get c "N" 0.5] in
  let emotions := [joy (emotions s); anger (emotions s);
                   sadness (emotions s); fear (emotions s)] in
  let env_state := [threat_level (environment s); opportunity (environment s);
                    social_pressure (environment s);
                    time_pressure (environment s)] in
  if (max_steps self =? 0)%Z then Raise ZeroDivisionError
  else
    let step_progress :=
      [inject_Z (current_step self) / inject_Z (max_steps self)] in
    Ok (attrs ++ personality ++ emotions ++ env_state ++ step_progress).

(** [get_state_dim]. *)
Definition get_state_dim (self : t) : res nat :=
  v ← get_state_vector self; Ok (length v).

(** The dict [reset] assigns to [self.state]. *)
Definition initial_state (c : Profile.t) : State :=
  let e := Profile.emotion_state_or_empty c in
  {| health := 1.0;
     energy := 1.0;
     wealth := get (Profile.attrs c) "wealth" 0.5;
     reputation := get (Profile.attrs c) "reputation" 0.5;
     happiness := 0.5;
     stress := 0.1;
     trust := get (Profile.attrs c) "trust" 0.5;
     emotions := {| joy := get e "joy" 0.25; anger := get e "anger" 0.25;
                    sadness := get e "sadness" 0.25;
                    fear := get e "fear" 0.25 |};
     environment := {| threat_level := 0.1; opportunity := 0.3;
                       social_pressure := 0.2; time_pressure := 0.1 |};
     history := [] |}.

(** [reset]: the object afterwards, and the value returned or raised. *)
Definition reset (self : t) : t * res (list Q) :=
  let self := set_current_step 0 self in
  let self := set_state (initial_state (character self)) self in
  (self, get_state_vector self).

(** [__init__]: [action_space or [...]] replaces [None] and the empty list
    by the ten default actions; the object exists only if [reset] returns. *)
Definition init (character_profile : Profile.t)
    (action_space : option (list string)) (max_steps : Z) : res t :=
  let space := match action_space with
               | Some (a :: l) => a :: l
               | _ => default_action_space
               end in
  let self := {| character := character_profile;
                 action_space := space;
                 action_dim := length space;
                 max_steps := max_steps;
                 current_step := 0;
                 state := initial_state character_profile |} in
  let '(self, r) := reset self in
  _ ← r; Ok self.

(** The personality traits and pressures [_calculate_outcome] reads, and the
    probability before it is clamped. *)
Definition adjusted_prob (self : t) (action : string) : Q :=
  let c := Profile.attrs (character self) in
  let o := get c "O" 0.5 in
  let c_ := get c "C" 0.5 in
  let e := get c "E" 0.5 in
  let a := get c "A" 0.5 in
  let n := get c "N" 0.5 in
  let threat := threat_level (environment (state self)) in
  let opportunity := opportunity (environment (state self)) in
  let success_prob := 0.5 in
  if String.eqb action "合作" then
    let success_prob := success_prob + (0.2 * a - 0.1 * n) in
    success_prob + (if gtb opportunity 0.5 then 0.1 else - 0.1)
  else if String.eqb action "竞争" then
    let success_prob := success_prob + (0.2 * c_ - 0.1 * a) in
    success_prob - (if gtb threat 0.5 then 0.1 else 0)
  else if String.eqb action "冒险" then
    let success_prob := success_prob + (0.3 * o - 0.2 * c_) in
    success_prob + (if gtb opportunity 0.7 then 0.2 else - 0.1)
  else if String.eqb action "保守" then
    let success_prob := success_prob + (0.2 * c_ - 0.1 * o) in
    success_prob + (if gtb threat 0.5 then 0.1 else - 0.1)
  else if String.eqb action "说服" then
    success_prob + (0.3 * e + 0.1 * a)
  else if String.eqb action "威胁" then
    success_prob + (0.2 * (1 - a) - 0.1 * e)
  else if String.eqb action "逃避" then
    let success_prob := success_prob + (0.3 * n - 0.1 * c_) in
    success_prob + (if gtb threat 0.7 then 0.2 else 0)
  else if String.eqb action "对抗" then
    success_prob + (0.2 * (1 - a) + 0.1 * c_)
  else if String.eqb action "礼让" then
    success_prob + 0.3 * a
  else if String.eqb action "强硬" then
    success_prob + (0.2 * (1 - a) + 0.1 * n)
  else success_prob.

(** [success_prob = max(0.1, min(0.9, success_prob))]: the probability the
    draw is compared with. *)
Definition success_prob (self : t) (action : string) : Q :=
  max 0.1 (min 0.9 (adjusted_prob self action)).

(** The outcome label and base reward of each action, by polarity.  An
    action outside the ten leaves [outcome] unassigned. *)
Definition outcome_table (action : string) (success : bool)
    : option (string * Q) :=
  if String.eqb action "合作" then
    Some (if success then ("成功建立了合作关系", 1.5)
          else ("合作尝试被拒绝", - 0.5))
  else if String.eqb action "竞争" then
    Some (if success then ("在竞争中获胜", 2.0) else ("竞争失败", - 1.0))
  else if String.eqb action "冒险" then
    Some (if success then ("冒险带来丰厚回报", 2.5)
          else ("冒险失败，损失惨重", - 2.0))
  else if String.eqb action "保守" then
    Some (if success then ("谨慎行事，避免风险", 0.5)
          else ("过于保守，错失机会", - 0.5))
  else if String.eqb action "说服" then
    Some (if success then ("成功说服对方", 1.0) else ("说服失败", - 0.5))
  else if String.eqb action "威胁" then
    Some (if success then ("威胁奏效，对方屈服", 1.0)
          else ("威胁失败，关系恶化", - 1.5))
  else if String.eqb action "逃避" then
    Some (if success then ("成功避开危险", 0.5)
          else ("无法逃避，必须面对", - 1.0))
  else if String.eqb action "对抗" then
    Some (if success then ("成功击败对手", 1.5)
          else ("对抗失败，遭受反击", - 1.5))
  else if String.eqb action "礼让" then
    Some (if success then ("礼让赢得尊重", 0.5)
          else ("礼让被视为软弱", - 0.5))
  else if String.eqb action "强硬" then
    Some (if success then ("强硬态度达成目标", 1.0)
          else ("强硬引发冲突", - 1.0))
  else None.

(** The trait bonus added to the reward at the end. *)
Definition trait_bonus (self : t) (action : string) : Q :=
  let c := Profile.attrs (character self) in
  let o := get c "O" 0.5 in
  let a := get c "A" 0.5 in
  if String.eqb action "冒险" then (o - 0.5) * 0.5
  else if String.eqb action "合作" || String.eqb action "礼让" then
    (a - 0.5) * 0.5
  else if String.eqb action "竞争" || String.eqb action "强硬" then
    ((1 - a) - 0.5) * 0.5
  else 0.

(** [_calculate_outcome]; [r] is the value of [random.random()]. *)
Definition _calculate_outcome (self : t) (action : string) (r : Q)
    : res (string * Q) :=
  let success := ltb r (success_prob self action) in
  match outcome_table action success with
  | Some (outcome, reward) => Ok (outcome, reward + trait_bonus self action)
  | None => Raise (UnboundLocalError "outcome")
  end.

(** The three values of [random.uniform(-0.1, 0.1)] in [_update_state] and
    the value of [random.random()] in [_calculate_outcome]. *)
Record step_draw : Type := {
  draw_success : Q;
  draw_threat : Q;
  draw_opportunity : Q;
  draw_social : Q
}.

(** [_update_state], statement by statement. *)
Definition _update_state (action outcome : string) (rnd : step_draw)
    : stmt State :=
  block [
    when (contains "失败" outcome || contains "错失" outcome
          || contains "损失" outcome)
      (block [
         assign set_energy (fun s => max 0.1 (energy s - 0.1));
         assign set_happiness (fun s => max 0.1 (happiness s - 0.1));
         assign set_stress (fun s => min 1.0 (stress s + 0.1)) ]);
    when (contains "成功" outcome || contains "获胜" outcome
          || contains "回报" outcome)
      (block [
         assign set_happiness (fun s => min 1.0 (happiness s + 0.1));
         assign set_reputation (fun s => min 1.0 (reputation s + 0.05));
         assign set_stress (fun s => max 0.0 (stress s - 0.05)) ]);
    when (String.eqb action "合作" && contains "成功" outcome)
      (block [
         assign set_trust (fun s => min 1.0 (trust s + 0.1));
         assign set_reputation (fun s => min 1.0 (reputation s + 0.1)) ]);
    if_else (String.eqb action "冒险" && contains "回报" outcome)
      (assign set_wealth (fun s => min 1.0 (wealth s + 0.2)))
      (when (String.eqb action "冒险" && contains "损失" outcome)
         (assign set_wealth (fun s => max 0.0 (wealth s - 0.15))));
    when (contains "反击" outcome || contains "冲突" outcome)
      (assign set_health (fun s => max 0.1 (health s - 0.1)));
    when (contains "成功" outcome || contains "获胜" outcome
          || contains "回报" outcome)
      (block [
         assign set_joy (fun s => min 1.0 (joy (emotions s) + 0.1));
         assign set_fear (fun s => max 0.0 (fear (emotions s) - 0.05)) ]);
    when (contains "失败" outcome || contains "拒绝" outcome)
      (block [
         assign set_sadness (fun s => min 1.0 (sadness (emotions s) + 0.1));
         assign set_joy (fun s => max 0.0 (joy (emotions s) - 0.05)) ]);
    when (contains "冲突" outcome || contains "反击" outcome)
      (assign set_anger (fun s => min 1.0 (anger (emotions s) + 0.15)));
    when (contains "危险" outcome)
      (assign set_fear (fun s => min 1.0 (fear (emotions s) + 0.15)));
    assign set_threat_level (fun s =>
      max 0.0 (min 1.0 (threat_level (environment s) + draw_threat rnd)));
    assign set_opportunity (fun s =>
      max 0.0 (min 1.0 (opportunity (environment s) + draw_opportunity rnd)));
    assign set_social_pressure (fun s =>
      max 0.0 (min 1.0 (social_pressure (environment s) + draw_social rnd)));
    assign set_time_pressure (fun s =>
      min 1.0 (time_pressure (environment s) + 0.05)) ].

(** What [step] returns: the state vector, the reward, [done] and the
    [info] dict with its two entries. *)
Record step_result : Type := {
  next_state : list Q;
  reward : Q;
  done : bool;
  info_outcome : string;
  info_action : string
}.

(** [step]: the object afterwards, and the value returned or raised.  The
    first statement indexes the action list, so a bad index raises before
    anything is written; an exception from [_calculate_outcome] escapes
    after the step counter has moved. *)
Definition step (self : t) (action_idx : Z) (rnd : step_draw)
    : t * res step_result :=
  match index (action_space self) action_idx with
  | Raise e => (self, Raise e)
  | Ok action =>
      let self := set_current_step (current_step self + 1) self in
      match _calculate_outcome self action (draw_success rnd) with
      | Raise e => (self, Raise e)
      | Ok (outcome, reward) =>
          let self :=
            set_state (_update_state action outcome rnd (state self)) self in
          let entry := {| h_step := current_step self; h_action := action;
                          h_outcome := outcome; h_reward := reward |} in
          let self :=
            set_state (set_history (history (state self) ++ [entry])
                         (state self)) self in
          let done :=
            (max_steps self <=? current_step self)%Z
            || leb (health (state self)) 0 in
          match get_state_vector self with
          | Raise e => (self, Raise e)
          | Ok v =>
              (self, Ok {| next_state := v; reward := reward; done := done;
                           info_outcome := outcome; info_action := action |})
          end
      end
  end.

(** [configure_scenario] (the router): keywords of the scenario text set
    pressures and emotions. *)
Definition configure_scenario_state (scenario : string) : stmt State :=
  block [
    when (contains "危险" scenario || contains "威胁" scenario
          || contains "战斗" scenario)
      (block [ assign set_threat_level (fun _ => 0.8);
               assign set_fear (fun _ => 0.6) ]);
    when (contains "机会" scenario || contains "幸运" scenario
          || contains "发现" scenario)
      (block [ assign set_opportunity (fun _ => 0.8);
               assign set_joy (fun _ => 0.6) ]);
    when (contains "紧急" scenario || contains "限时" scenario)
      (assign set_time_pressure (fun _ => 0.8));
    when (contains "社交" scenario || contains "人群" scenario
          || contains "公众" scenario)
      (assign set_social_pressure (fun _ => 0.7));
    when (contains "愤怒" scenario || contains "背叛" scenario)
      (assign set_anger (fun _ => 0.7));
    when (contains "悲伤" scenario || contains "损失" scenario)
      (assign set_sadness (fun _ => 0.7)) ].

Definition configure_scenario (env : t) (scenario : string) : t :=
  set_state (configure_scenario_state scenario (state env)) env.

End CharacterEnvironment.

(** ** [app/ai/utils.py], [MirageEnv] and [PvPArenaEnv]

    These environments keep a reference to the caller's profile dict and
    write through it.  Profiles therefore live in a store, and an
    environment holds addresses into it.  (The nested ["emotion_state"]
    dict is taken to belong to one profile.) *)

Module Mirage.

Local Open Scope Q_scope.

Abbreviation store := (nat -> Profile.t).

(** [build_state]: traits (5), elements (5), emotions (4), social (4). *)
Definition build_state (profile : Profile.t) : list Q :=
  let a := Profile.attrs profile in
  let w := Profile.wuxing_or_empty profile in
  let e := Profile.emotion_state_or_empty profile in
  map (fun trait => get a trait 0.5) ["O"; "C"; "E"; "A"; "N"]
  ++ map (fun element => get w element 0.2) ["金"; "木"; "水"; "火"; "土"]
  ++ map (fun k => get e k 0.25) ["joy"; "anger"; "sadness"; "fear"]
  ++ [get a "reputation" 0.5; get a "trust" 0.5; get a "wealth" 0.5;
      get a "status" 0.5].

(** [compute_reward]. *)
Definition compute_reward (profile : Profile.t) (state : list Q) (action : Z)
    : res Q :=
  let reward := 0.0 in
  if (action =? 0)%Z then
    s10 ← index state 10; s11 ← index state 11;
    Ok (reward + (s10 * 2 + s11))
  else if (action =? 1)%Z then
    s11 ← index state 11; Ok (reward + (0.5 - s11))
  else if (action =? 2)%Z then
    s12 ← index state 12; Ok (reward + (s12 - 0.1))
  else if (action =? 3)%Z then
    Ok (reward - 0.2)
  else if (action =? 4)%Z then
    s13 ← index state 13; Ok (reward + (s13 - 0.3))
  else if (action =? 5)%Z then
    s10 ← index state 10; s11 ← index state 11;
    Ok (reward + ((s10 + s11) * 0.5 - 0.2))
  else Ok reward.

Record MirageEnv : Type := {
  profile : nat;
  max_steps : Z;
  current_step : Z;
  state : list Q;
  done : bool
}.

Definition set_current_step (n : Z) (self : MirageEnv) : MirageEnv :=
  {| profile := profile self; max_steps := max_steps self;
     current_step := n; state := state self; done := done self |}.

Definition set_state (v : list Q) (self : MirageEnv) : MirageEnv :=
  {| profile := profile self; max_steps := max_steps self;
     current_step := current_step self; state := v; done := done self |}.

Definition set_done (b : bool) (self : MirageEnv) : MirageEnv :=
  {| profile := profile self; max_steps := max_steps self;
     current_step := current_step self; state := state self; done := b |}.

(** A write through the reference [l]: the store changes only if the
    update does not raise. *)
Definition write_profile {E} (l : nat) (f : Profile.t -> res Profile.t)
    : M (store * E) unit :=
  fun '(σ, env) =>
    match f (σ l) with
    | Ok p => ((<[l := p]> σ, env), Ok tt)
    | Raise e => ((σ, env), Raise e)
    end.

Definition MirageEnv_init (σ : store) (character_profile : nat) : MirageEnv :=
  {| profile := character_profile; max_steps := 100; current_step := 0;
     state := build_state (σ character_profile); done := false |}.

(** [MirageEnv._update_profile]. *)
Definition _update_profile (action : Z) : M (store * MirageEnv) unit :=
  l ← gets (fun w => profile w.2);
  if (action =? 1)%Z then
    _ ← write_profile l (Profile.add_attr "trust" (- 0.1));
    write_profile l (Profile.add_emotion "anger" 0.05)
  else if (action =? 0)%Z then
    _ ← write_profile l (Profile.add_attr "trust" 0.05);
    write_profile l (Profile.add_attr "reputation" 0.05)
  else mret tt.

(** [MirageEnv.step]. *)
Definition MirageEnv_step (action : Z)
    : M (store * MirageEnv) (list Q * Q * bool) :=
  _ ← modify (fun w => (w.1, set_current_step (current_step w.2 + 1) w.2));
  p ← gets (fun w => w.1 (profile w.2));
  st ← gets (fun w => state w.2);
  reward ← lift (compute_reward p st action);
  _ ← _update_profile action;
  _ ← modify (fun w => (w.1, set_state (build_state (w.1 (profile w.2))) w.2));
  _ ← modify (fun w => if (max_steps w.2 <=? current_step w.2)%Z
                       then (w.1, set_done true w.2) else w);
  gets (fun w => (state w.2, reward, done w.2)).

(** [MirageEnv.reset]. *)
Definition MirageEnv_reset : M (store * MirageEnv) (list Q) :=
  _ ← modify (fun w => (w.1, set_current_step 0 w.2));
  _ ← modify (fun w => (w.1, set_done false w.2));
  _ ← modify (fun w => (w.1, set_state (build_state (w.1 (profile w.2))) w.2));
  gets (fun w => state w.2).

Record PvPArenaEnv : Type := {
  profiles : list nat;
  turn : Z;
  states : list (list Q)
}.

Definition set_turn (n : Z) (self : PvPArenaEnv) : PvPArenaEnv :=
  {| profiles := profiles self; turn := n; states := states self |}.

Definition set_states (v : list (list Q)) (self : PvPArenaEnv)
    : PvPArenaEnv :=
  {| profiles := profiles self; turn := turn self; states := v |}.

Definition PvPArenaEnv_init (σ : store) (profile_1 profile_2 : nat)
    : PvPArenaEnv :=
  {| profiles := [profile_1; profile_2]; turn := 0;
     states := [build_state (σ profile_1); build_state (σ profile_2)] |}.

(** [self.states[i] = build_state(self.profiles[j])] for an address [l]. *)
Definition refresh_state (i : Z) (l : nat) : M (store * PvPArenaEnv) unit :=
  fun '(σ, env) =>
    match setitem (states env) i (build_state (σ l)) with
    | Ok v => ((σ, set_states v env), Ok tt)
    | Raise e => ((σ, env), Raise e)
    end.

(** [PvPArenaEnv.step]. *)
Definition PvPArenaEnv_step (action : Z)
    : M (store * PvPArenaEnv) (list Q * Q * bool) :=
  actor_id ← gets (fun w => turn w.2);
  profile ← reads (fun w => index (profiles w.2) actor_id);
  state ← reads (fun w => index (states w.2) actor_id);
  p ← gets (fun w => w.1 profile);
  reward ← lift (compute_reward p state action);
  _ ← (if (action =? 1)%Z then
         _ ← write_profile profile (Profile.add_emotion "anger" 0.1);
         other ← reads (fun w => index (profiles w.2) (1 - actor_id));
         write_profile other (Profile.add_emotion "anger" 0.05)
       else if (action =? 0)%Z then
         _ ← write_profile profile (Profile.add_emotion "joy" 0.05);
         other ← reads (fun w => index (profiles w.2) (1 - actor_id));
         write_profile other (Profile.add_attr "trust" 0.03)
       else mret tt);
  _ ← refresh_state actor_id profile;
  other ← reads (fun w => index (profiles w.2) (1 - actor_id));
  _ ← refresh_state (1 - actor_id) other;
  _ ← modify (fun w => (w.1, set_turn (1 - turn w.2) w.2));
  v ← reads (fun w => index (states w.2) actor_id);
  mret (v, reward, false).

End Mirage.

(** ** Persistence and the agent cache *)

Module Registry.

Import PPO.

(** The values of the dict [save_model] hands to [torch.save]. *)
Inductive value : Type :=
| V_policy (p : PPOPolicy)
| V_optimizer (o : Adam)
| V_int (n : nat).

(** A file holds a pickled dict, or something [torch.load] cannot read. *)
Inductive file : Type :=
| Pickle (d : gmap string value)
| Other.

Definition as_int (v : value) : res nat :=
  match v with V_int n => Ok n | _ => Raise TypeError end.

Definition as_policy (v : value) : res PPOPolicy :=
  match v with V_policy p => Ok p | _ => Raise TypeError end.

Definition as_optimizer (v : value) : res Adam :=
  match v with V_optimizer o => Ok o | _ => Raise TypeError end.

(** The dict literal of [save_model]. *)
Definition checkpoint_of (self : PPOAgent) : gmap string value :=
  <["policy_state_dict" := V_policy (policy self)]>
  (<["optimizer_state_dict" := V_optimizer (optimizer self)]>
  (<["state_dim" := V_int (state_dim self)]>
  (<["action_dim" := V_int (action_dim self)]> ∅))).

(** [PPOAgent.save_model]: one [torch.save] of that dict to [path]. *)
Definition save_model (self : PPOAgent) (path : string)
    (fs : gmap string file) : gmap string file :=
  <[path := Pickle (checkpoint_of self)]> fs.

Definition torch_load (path : string) (fs : gmap string file)
    : res (gmap string value) :=
  match fs !! path with
  | None => Raise FileNotFoundError
  | Some Other => Raise UnpicklingError
  | Some (Pickle d) => Ok d
  end.

Definition set_policy (p : PPOPolicy) (a : PPOAgent) : PPOAgent :=
  {| policy := p; optimizer := optimizer a; state_dim := state_dim a;
     action_dim := action_dim a; gamma := gamma a;
     clip_ratio := clip_ratio a; max_grad_norm := max_grad_norm a;
     value_coef := value_coef a; entropy_coef := entropy_coef a |}.

Definition set_optimizer (o : Adam) (a : PPOAgent) : PPOAgent :=
  {| policy := policy a; optimizer := o; state_dim := state_dim a;
     action_dim := action_dim a; gamma := gamma a;
     clip_ratio := clip_ratio a; max_grad_norm := max_grad_norm a;
     value_coef := value_coef a; entropy_coef := entropy_coef a |}.

(** [PPOAgent.load_model]: a fresh agent of the stored dimensions (and the
    default hidden width), then the two [load_state_dict] calls. *)
Definition load_model (path : string) (fs : gmap string file)
    (rnd : init_draw) : res PPOAgent :=
  checkpoint ← torch_load path fs;
  sd ← getitem checkpoint "state_dim" ≫= as_int;
  ad ← getitem checkpoint "action_dim" ≫= as_int;
  let agent := PPOAgent_default sd ad rnd in
  psd ← getitem checkpoint "policy_state_dict" ≫= as_policy;
  p ← load_state_dict (policy agent) psd;
  let agent := set_policy p agent in
  osd ← getitem checkpoint "optimizer_state_dict" ≫= as_optimizer;
  Ok (set_optimizer osd agent).

(** The process: the module-level dict [AGENT_CACHE] (character id to
    agent object), the agent objects by address, the files by path, and
    [settings.STORAGE_PATH]. *)
Record world : Type := {
  AGENT_CACHE : gmap Z nat;
  heap : gmap nat PPOAgent;
  files : gmap string file;
  STORAGE_PATH : string
}.

Definition set_AGENT_CACHE (c : gmap Z nat) (w : world) : world :=
  {| AGENT_CACHE := c; heap := heap w; files := files w;
     STORAGE_PATH := STORAGE_PATH w |}.

Definition set_heap (h : gmap nat PPOAgent) (w : world) : world :=
  {| AGENT_CACHE := AGENT_CACHE w; heap := h; files := files w;
     STORAGE_PATH := STORAGE_PATH w |}.

Definition set_files (f : gmap string file) (w : world) : world :=
  {| AGENT_CACHE := AGENT_CACHE w; heap := heap w; files := f;
     STORAGE_PATH := STORAGE_PATH w |}.

(** [os.path.join(a, b)] for a relative [b]. *)
Definition os_path_join (a b : string) : string :=
  if String.eqb a EmptyString then b
  else if String.eqb (String.substring (String.length a - 1) 1 a) "/"
  then a +:+ b
  else a +:+ "/" +:+ b.

Definition model_path (w : world) (character_id : Z) : string :=
  os_path_join (STORAGE_PATH w) ("agent_" +:+ pretty character_id +:+ ".pt").

(** A new object gets an address no object has. *)
Definition new_agent (a : PPOAgent) : M world nat :=
  fun w => let l := fresh (dom (heap w)) in
           (set_heap (<[l := a]> (heap w)) w, Ok l).

(** [get_agent_for_character]; [rnd] is the draw a constructor would use. *)
Definition get_agent_for_character (character_id : Z)
    (env : CharacterEnvironment.t) (rnd : init_draw) : M world nat :=
  cache ← gets AGENT_CACHE;
  match cache !! character_id with
  | Some agent => mret agent
  | None =>
      path ← gets (fun w => model_path w character_id);
      fs ← gets files;
      agent ←
        (if bool_decide (is_Some (fs !! path)) then
           a ← lift (load_model path fs rnd);
           new_agent a
         else
           state_dim ← lift (CharacterEnvironment.get_state_dim env);
           let action_dim := CharacterEnvironment.action_dim env in
           new_agent (PPOAgent_default state_dim action_dim rnd));
      _ ← modify (fun w =>
             set_AGENT_CACHE (<[character_id := agent]> (AGENT_CACHE w)) w);
      mret agent
  end.

End Registry.

(** ** The recursion of section 4.5, from the specification's words

    [gae = 0]; for [t] from last to first: [next_value] is the bootstrap
    value at the last index and [values[t+1]] otherwise, [next_nonterm] is
    0 if [dones[t]] else 1, [delta = rewards[t] + gamma * next_value *
    next_nonterm - values[t]], [gae = delta + gamma * lambda * next_nonterm
    * gae], [advantages[t] = gae], [returns[t] = gae + values[t]]. *)

Module Spec_4_5.

Local Open Scope Q_scope.

Definition body (rewards values : list Q) (bootstrap_value : Q)
    (dones : list bool) (gamma lambda : Q) (st : PPO.gae_vars) (t : Z)
    : res PPO.gae_vars :=
  next_value ← (if (t =? Z.of_nat (length rewards) - 1)%Z
                then Ok bootstrap_value else index values (t + 1));
  d ← index dones t;
  let next_nonterm : Q := if (d : bool) then 0 else 1 in
  r ← index rewards t;
  v ← index values t;
  let delta := r + gamma * next_value * next_nonterm - v in
  let gae := delta + gamma * lambda * next_nonterm * PPO.gae st in
  Ok {| PPO.returns := (gae + v) :: PPO.returns st;
        PPO.advantages := gae :: PPO.advantages st;
        PPO.gae := gae |}.

Definition compute (rewards values : list Q) (bootstrap_value : Q)
    (dones : list bool) (gamma lambda : Q) : res (list Q * list Q) :=
  st ← PPO.for_each (body rewards values bootstrap_value dones gamma lambda)
        (PPO.reversed_range (length rewards))
        {| PPO.returns := []; PPO.advantages := []; PPO.gae := 0 |};
  Ok (PPO.returns st, PPO.advantages st).

End Spec_4_5.

(** ** Vocabulary of the properties *)

Module Props.

Import Torch PPO CharacterEnvironment.

(** The layers of [P] have the dimensions [PPOPolicy(state_dim,
    action_dim, hidden_dim)] gives them. *)
Definition has_dims (state_dim action_dim hidden_dim : nat) (P : PPOPolicy)
    : bool :=
  bool_decide (shape (shared_layers_0 P) = (hidden_dim, state_dim))
  && bool_decide (shape (shared_layers_2 P) = (hidden_dim, hidden_dim))
  && bool_decide (shape (actor_head_0 P) = (action_dim, hidden_dim))
  && bool_decide (shape (critic_head_0 P) = (1, hidden_dim)).

(** Every parameter tensor of [P] has the shape of its layer. *)
Definition shaped_policy (P : PPOPolicy) : bool :=
  shaped (shared_layers_0 P) && shaped (shared_layers_2 P)
  && shaped (actor_head_0 P) && shaped (critic_head_0 P).

(** An agent whose recorded dimensions are those of its network, built
    with hidden width [hidden_dim]. *)
Definition agent_dims (hidden_dim : nat) (a : PPOAgent) : bool :=
  has_dims (PPO.state_dim a) (PPO.action_dim a) hidden_dim (policy a).

(** One of the ten actions [_calculate_outcome] knows. *)
Definition known_action (action : string) : bool :=
  existsb (String.eqb action) default_action_space.

(** The environments a caller can hold: built by the constructor for the
    profile [c], then reset, stepped and configured in any order. *)
Inductive reachable (c : Profile.t) : CharacterEnvironment.t -> Prop :=
| reach_init sp ms env :
    init c sp ms = Ok env -> reachable c env
| reach_reset env :
    reachable c env -> reachable c (reset env).1
| reach_step env idx rnd :
    reachable c env -> reachable c (step env idx rnd).1
| reach_scenario env sc :
    reachable c env -> reachable c (configure_scenario env sc).

(** The four pressures lie in [0, 1]. *)
Definition pressures_in_range (p : Pressures) : Prop :=
  (0 <= threat_level p <= 1 /\ 0 <= opportunity p <= 1
   /\ 0 <= social_pressure p <= 1 /\ 0 <= time_pressure p <= 1)%Q.

(** The values [random.uniform(-0.1, 0.1)] can return. *)
Definition uniform_draws (rnd : step_draw) : Prop :=
  (- 0.1 <= draw_threat rnd <= 0.1 /\ - 0.1 <= draw_opportunity rnd <= 0.1
   /\ - 0.1 <= draw_social rnd <= 0.1)%Q.

(** What every reachable environment satisfies. *)
Definition env_inv (c : Profile.t) (env : CharacterEnvironment.t) : Prop :=
  character env = c
  /\ max_steps env <> 0%Z
  /\ action_dim env = length (action_space env)
  /\ action_space env <> []
  /\ (0.1 <= health (state env))%Q
  /\ pressures_in_range (environment (state env)).

(** Concrete objects for the examples. *)
Definition empty_profile : Profile.t :=
  {| Profile.attrs := ∅; Profile.wuxing := None;
     Profile.emotion_state := None |}.

Definition zero_draw : step_draw :=
  {| draw_success := 0; draw_threat := 0; draw_opportunity := 0;
     draw_social := 0 |}.

(** [CharacterEnvironment({}, max_steps=1)] as the constructor leaves it. *)
Definition one_step_env : CharacterEnvironment.t :=
  {| character := empty_profile;
     action_space := default_action_space;
     action_dim := 10;
     max_steps := 1;
     current_step := 0;
     state := initial_state empty_profile |}.

(** [sample_profile] of [app/ai/simulate.py], and a store that holds it at
    every address. *)
Definition sample_profile : Profile.t :=
  {| Profile.attrs :=
       list_to_map [("O", 0.7); ("C", 0.6); ("E", 0.4); ("A", 0.5);
                    ("N", 0.3); ("reputation", 0.4); ("trust", 0.6);
                    ("wealth", 0.5); ("status", 0.5)]%Q;
     Profile.wuxing :=
       Some (list_to_map [("金", 1); ("木", 2); ("水", 2); ("火", 3);
                          ("土", 2)]%Q);
     Profile.emotion_state :=
       Some (list_to_map [("joy", 0.5); ("anger", 0.2); ("sadness", 0.1);
                          ("fear", 0.2)]%Q) |}.

Definition sample_store : nat -> Profile.t := fun _ => sample_profile.

(** [PPOAgent(state_dim=1, action_dim=1, hidden_dim=1)] with every initial
    weight and bias drawn as 0. *)
Definition unit_init : init_draw :=
  {| draw_weight := fun _ => [[0%R]]; draw_bias := fun _ => [0%R] |}.

Definition narrow_agent : PPOAgent :=
  PPOAgent_init 1 1 1 (3 # 10000) (99 # 100) (2 # 10) (5 # 10) (5 # 10)
    (1 # 100) unit_init.

(** The keys of the dict [save_model] writes. *)
Definition checkpoint_keys : gset string :=
  {[ "policy_state_dict"; "optimizer_state_dict"; "state_dim";
     "action_dim" ]}.

(** A process with nothing cached, no agent object and no file. *)
Definition empty_world : Registry.world :=
  {| Registry.AGENT_CACHE := ∅; Registry.heap := ∅; Registry.files := ∅;
     Registry.STORAGE_PATH := "./storage" |}.

End Props.

Import Torch PPO CharacterEnvironment Props.

(** ** [create_interaction_environment] (the router)

    The environment for two characters is a [CharacterEnvironment] for the
    first one, carrying the second profile as [other_character], whose
    [step] is replaced by [interaction_step].  That function stores the
    last action under the extra key ["other_response"] of the state dict;
    [reset] builds a new dict, without that key. *)

Module Interaction.

Import CharacterEnvironment.

Local Open Scope Q_scope.

Definition interaction_actions : list string :=
  ["合作"; "竞争"; "妥协"; "避让"; "分享"; "保留"; "攻击"; "防御"; "说服";
   "拒绝"; "帮助"; "忽视"].

Record t : Type := {
  env : CharacterEnvironment.t;
  other_character : Profile.t;
  other_response : option string
}.

(** [if scenario:] is false for [None] and for the empty string. *)
Definition create_interaction_environment (profile1 profile2 : Profile.t)
    (scenario : option string) : res t :=
  env ← init profile1 (Some interaction_actions) 100;
  let env := match scenario with
             | Some (String a s) => configure_scenario env (String a s)
             | _ => env
             end in
  Ok {| env := env; other_character := profile2; other_response := None |}.

(** The adjustment of the returned reward and outcome by the other
    character's agreeableness. *)
Definition respond (other : Profile.t) (action : string) (r : step_result)
    : step_result :=
  if existsb (String.eqb action) ["合作"; "分享"; "帮助"] then
    if gtb (get (Profile.attrs other) "A" 0.5) 0.6 then
      {| next_state := next_state r; reward := reward r * 1.2;
         done := done r;
         info_outcome := info_outcome r +:+ "，对方积极回应";
         info_action := info_action r |}
    else if ltb (get (Profile.attrs other) "A" 0.5) 0.3 then
      {| next_state := next_state r; reward := reward r * 0.8;
         done := done r;
         info_outcome := info_outcome r +:+ "，对方反应冷淡";
         info_action := info_action r |}
    else r
  else r.

(** [interaction_step]: the closure that replaces [env.step]. *)
Definition interaction_step (self : t) (action_idx : Z) (rnd : step_draw)
    : t * res step_result :=
  match index (action_space (env self)) action_idx with
  | Raise e => (self, Raise e)
  | Ok action =>
      let '(env', r) := step (env self) action_idx rnd in
      match r with
      | Raise e =>
          ({| env := env'; other_character := other_character self;
              other_response := other_response self |}, Raise e)
      | Ok r =>
          ({| env := env'; other_character := other_character self;
              other_response := Some action |},
           Ok (respond (other_character self) action r))
      end
  end.

(** [env.reset()] on such an environment. *)
Definition interaction_reset (self : t) : t * res (list Q) :=
  let '(env', r) := reset (env self) in
  ({| env := env'; other_character := other_character self;
      other_response := None |}, r).

End Interaction.

(** ** Further vocabulary *)

Module MoreProps.

Import CharacterEnvironment Props.

Local Open Scope Q_scope.

(** The entries of the profile that [reset] copies into the state lie in
    [0, 1] where they are present. *)
Definition profile_in_range (c : Profile.t) : Prop :=
  (forall k v, k ∈ ["wealth"; "reputation"; "trust"] ->
               Profile.attrs c !! k = Some v -> 0 <= v <= 1)
  /\ (forall k v, Profile.emotion_state_or_empty c !! k = Some v ->
                  0 <= v <= 1).

(** The traits [_calculate_outcome] reads for the reward lie in [0, 1]. *)
Definition traits_in_range (c : Profile.t) : Prop :=
  0 <= get (Profile.attrs c) "O" 0.5 <= 1
  /\ 0 <= get (Profile.attrs c) "A" 0.5 <= 1.

(** Every attribute and emotion of the state lies in [0, 1], energy and
    health not below 0.1. *)
Definition scalars_in_range (s : State) : Prop :=
  0.1 <= health s <= 1 /\ 0.1 <= energy s <= 1
  /\ 0 <= wealth s <= 1 /\ 0 <= reputation s <= 1
  /\ 0 <= happiness s <= 1 /\ 0 <= stress s <= 1 /\ 0 <= trust s <= 1
  /\ 0 <= joy (emotions s) <= 1 /\ 0 <= anger (emotions s) <= 1
  /\ 0 <= sadness (emotions s) <= 1 /\ 0 <= fear (emotions s) <= 1.

(** [CharacterEnvironment({}, action_space=interaction_actions)] as the
    constructor leaves it. *)
Definition interaction_base_env : CharacterEnvironment.t :=
  {| character := empty_profile;
     action_space := Interaction.interaction_actions;
     action_dim := 12;
     max_steps := 100;
     current_step := 0;
     state := initial_state empty_profile |}.

Definition interaction_example : Interaction.t :=
  {| Interaction.env := interaction_base_env;
     Interaction.other_character := sample_profile;
     Interaction.other_response := None |}.

(** [CharacterEnvironment(sample_profile, max_steps=1)] as the constructor
    leaves it. *)
Definition sample_env : CharacterEnvironment.t :=
  {| character := sample_profile;
     action_space := default_action_space;
     action_dim := 10;
     max_steps := 1;
     current_step := 0;
     state := initial_state sample_profile |}.

(** A profile whose agreeableness is 0.9. *)
Definition agreeable_profile : Profile.t :=
  {| Profile.attrs := {[ "A" := 0.9 ]}; Profile.wuxing := None;
     Profile.emotion_state := None |}.

End MoreProps.

Import MoreProps.

(** ** What happens between two calls of [get_agent_for_character] *)

Module Process.

Import PPO Registry.

(** The calls that reach the registry between two lookups: further
    lookups, for any id, and anything that rewrites the files (a save, a
    deleted model). *)
Inductive event : Type :=
| Lookup (character_id : Z) (env : CharacterEnvironment.t) (rnd : init_draw)
| Files (fs : gmap string file).

Definition run_event (w : world) (e : event) : world :=
  match e with
  | Lookup character_id env rnd =>
      (get_agent_for_character character_id env rnd w).1
  | Files fs => set_files fs w
  end.

Definition run_events (w : world) (es : list event) : world :=
  foldl run_event w es.

(** Every address in [AGENT_CACHE] is that of an agent object. *)
Definition cache_ok (w : world) : Prop :=
  forall character_id l,
    AGENT_CACHE w !! character_id = Some l -> is_Some (heap w !! l).

End Process.

(** ** Sample agents *)

Module Samples.

Import Torch PPO.

(** A draw of initial tensors with the shapes [PPOPolicy(state_dim,
    action_dim, hidden_dim)] gives its four layers, every entry [v]. *)
Definition const_init (state_dim action_dim hidden_dim : nat) (v : R)
    : init_draw :=
  let tensor o i : mat := replicate o (replicate i v) in
  {| draw_weight := fun k =>
       match k with
       | 0%nat => tensor hidden_dim state_dim
       | 1%nat => tensor hidden_dim hidden_dim
       | 2%nat => tensor action_dim hidden_dim
       | _ => tensor 1%nat hidden_dim
       end;
     draw_bias := fun k =>
       match k with
       | 0%nat | 1%nat => replicate hidden_dim v
       | 2%nat => replicate action_dim v
       | _ => replicate 1%nat v
       end |}.

(** [PPOAgent(state_dim=21, action_dim=10, hidden_dim=32)], all parameters
    drawn as 0. *)
Definition half_width_agent : PPOAgent :=
  PPOAgent_init 21 10 32 (3 # 10000) (99 # 100) (2 # 10) (5 # 10) (5 # 10)
    (1 # 100) (const_init 21 10 32 0).

Local Open Scope R_scope.


End Samples.

Import Samples.

(** ** Reasoning about statements *)

Section Statements.

Context {S : Type}.

Lemma preserves_block I (l : list (stmt S)) :
  Forall (preserves I) l -> preserves I (block l).
Proof.
  unfold block. induction 1 as [|f l Hf Hl IH]; intros s Hs; simpl.
  - exact Hs.
  - apply IH. apply Hf. exact Hs.
Qed.

Lemma preserves_when I c (f : stmt S) :
  preserves I f -> preserves I (when c f).
Proof. intros Hf s Hs. unfold when. destruct c; auto. Qed.

Lemma preserves_if_else I c (f g : stmt S) :
  preserves I f -> preserves I g -> preserves I (if_else c f g).
Proof. intros Hf Hg s Hs. unfold if_else. destruct c; auto. Qed.

Lemma frames_preserves {V} (proj : S -> V) (P : V -> Prop) f :
  frames proj f -> preserves (fun s => P (proj s)) f.
Proof. intros Hf s Hs. rewrite Hf. exact Hs. Qed.

Lemma frames_block {V} (proj : S -> V) (l : list (stmt S)) :
  Forall (frames proj) l -> frames proj (block l).
Proof.
  unfold block. induction 1 as [|f l Hf Hl IH]; intros s; simpl.
  - reflexivity.
  - rewrite IH. apply Hf.
Qed.

Lemma frames_when {V} (proj : S -> V) c (f : stmt S) :
  frames proj f -> frames proj (when c f).
Proof. intros Hf s. unfold when. destruct c; auto. Qed.

Lemma frames_if_else {V} (proj : S -> V) c (f g : stmt S) :
  frames proj f -> frames proj g -> frames proj (if_else c f g).
Proof. intros Hf Hg s. unfold if_else. destruct c; auto. Qed.

Lemma frames_apply {V} (proj : S -> V) (f : stmt S) s :
  frames proj f -> proj (f s) = proj s.
Proof. intros Hf. apply Hf. Qed.

Lemma block_cons (f : stmt S) l s : block (f :: l) s = block l (f s).
Proof. reflexivity. Qed.

Lemma block_nil (s : S) : block [] s = s.
Proof. reflexivity. Qed.

End Statements.

(** Splits a goal about a composite statement into its assignments. *)
Ltac split_stmt :=
  lazymatch goal with
  | |- preserves _ (block _) => apply preserves_block; split_stmt
  | |- preserves _ (when _ _) => apply preserves_when; split_stmt
  | |- preserves _ (if_else _ _ _) => apply preserves_if_else; split_stmt
  | |- frames _ (block _) => apply frames_block; split_stmt
  | |- frames _ (when _ _) => apply frames_when; split_stmt
  | |- frames _ (if_else _ _ _) => apply frames_if_else; split_stmt
  | |- Forall _ (_ :: _) => constructor; split_stmt
  | |- Forall _ [] => constructor
  | |- _ => idtac
  end.

Local Open Scope Q_scope.

Lemma max_cases a b :
  (a < b /\ Py.max a b = b) \/ (b <= a /\ Py.max a b = a).
Proof.
  unfold Py.max. destruct (Qlt_le_dec a b); [left|right]; split; auto.
Qed.

Lemma min_cases a b :
  (b < a /\ Py.min a b = b) \/ (a <= b /\ Py.min a b = a).
Proof.
  unfold Py.min. destruct (Qlt_le_dec b a); [left|right]; split; auto.
Qed.

(** Case analysis on every [max] and [min] in sight. *)
Ltac py_minmax :=
  repeat match goal with
  | |- context [Py.max ?a ?b] =>
      let H := fresh "Hmax" in let E := fresh "Emax" in
      destruct (max_cases a b) as [[H E]|[H E]]; rewrite E in *; clear E
  | |- context [Py.min ?a ?b] =>
      let H := fresh "Hmin" in let E := fresh "Emin" in
      destruct (min_cases a b) as [[H E]|[H E]]; rewrite E in *; clear E
  | _ : context [Py.max ?a ?b] |- _ =>
      let H := fresh "Hmax" in let E := fresh "Emax" in
      destruct (max_cases a b) as [[H E]|[H E]]; rewrite E in *; clear E
  | _ : context [Py.min ?a ?b] |- _ =>
      let H := fresh "Hmin" in let E := fresh "Emin" in
      destruct (min_cases a b) as [[H E]|[H E]]; rewrite E in *; clear E
  end.

Lemma clamp_range lo hi x :
  lo <= hi -> lo <= Py.max lo (Py.min hi x) <= hi.
Proof. intros. py_minmax; lra. Qed.

(** Unfolds the sequencing of methods. *)
Ltac unfold_methods :=
  unfold mbind, mret, M_bind, M_ret, m_bind, m_ret, modify, gets, reads,
    lift.

(** *** What [_update_state] does to health and to the pressures *)

(** Walks [proj (f_n (.. (f_1 s)))] inwards past the statements that do
    not write what [proj] reads. *)
Ltac skip_frames proj :=
  repeat match goal with
         | |- context [proj (?f ?x)] =>
             rewrite (frames_apply proj f x)
               by (split_stmt; intro; reflexivity)
         end.

Lemma health_update_state action outcome rnd s :
  health (_update_state action outcome rnd s)
  = if contains "反击" outcome || contains "冲突" outcome
    then Py.max 0.1 (health s - 0.1) else health s.
Proof.
  unfold _update_state.
  repeat rewrite block_cons. rewrite block_nil.
  skip_frames health.
  unfold when at 1.
  destruct (contains "反击" outcome || contains "冲突" outcome).
  - unfold assign at 1. cbn [health set_health]. skip_frames health. reflexivity.
  - skip_frames health. reflexivity.
Qed.

Lemma environment_update_state action outcome rnd s :
  let p := environment s in
  environment (_update_state action outcome rnd s)
  = {| threat_level :=
         Py.max 0.0 (Py.min 1.0 (threat_level p + draw_threat rnd));
       opportunity :=
         Py.max 0.0 (Py.min 1.0 (opportunity p + draw_opportunity rnd));
       social_pressure :=
         Py.max 0.0 (Py.min 1.0 (social_pressure p + draw_social rnd));
       time_pressure := Py.min 1.0 (time_pressure p + 0.05) |}.
Proof.
  unfold _update_state.
  repeat rewrite block_cons. rewrite block_nil.
  unfold assign at 1 2 3 4.
  cbn [environment set_time_pressure set_social_pressure set_opportunity
       set_threat_level set_environment threat_level opportunity
       social_pressure time_pressure].
  skip_frames environment. reflexivity.
Qed.

Lemma history_update_state action outcome rnd s :
  history (_update_state action outcome rnd s) = history s.
Proof.
  apply frames_apply. unfold _update_state.
  split_stmt; intro; reflexivity.
Qed.

(** *** What [step] does to the object *)

(** The object after a step that got past [_calculate_outcome]. *)
Lemma step_shape env idx rnd :
  let env' := (step env idx rnd).1 in
  character env' = character env
  /\ action_space env' = action_space env
  /\ action_dim env' = action_dim env
  /\ max_steps env' = max_steps env
  /\ (state env' = state env
      \/ exists action outcome entry,
           state env'
           = set_history (history (state env) ++ [entry])
               (_update_state action outcome rnd (state env))).
Proof.
  unfold step.
  destruct (index (action_space env) idx) as [action|e];
    [|cbn; tauto].
  destruct (_calculate_outcome _ action (draw_success rnd)) as [[outcome rw]|e];
    [|cbn; tauto].
  destruct (get_state_vector _) as [v|e];
    cbn [fst snd character action_space action_dim max_steps state
         set_state set_current_step];
    (repeat split; auto; right; rewrite history_update_state; eauto).
Qed.

Lemma step_index_error env idx rnd e :
  index (action_space env) idx = Raise e ->
  step env idx rnd = (env, Raise e).
Proof. intros H. unfold step. rewrite H. reflexivity. Qed.

Lemma index_out_of_range {A} (l : list A) (i : Z) :
  (Z.of_nat (length l) <= i \/ i < - Z.of_nat (length l))%Z ->
  index l i = Raise IndexError.
Proof.
  intros H. unfold index.
  destruct (i <? 0)%Z eqn:Hi.
  - apply Z.ltb_lt in Hi.
    destruct ((0 <=? _) && _)%Z eqn:Hb; [|reflexivity].
    apply andb_true_iff in Hb as [H1 H2].
    apply Z.leb_le in H1. apply Z.ltb_lt in H2. lia.
  - apply Z.ltb_ge in Hi.
    destruct ((0 <=? _) && _)%Z eqn:Hb; [|reflexivity].
    apply andb_true_iff in Hb as [H1 H2].
    apply Z.leb_le in H1. apply Z.ltb_lt in H2. lia.
Qed.

Lemma index_in_range {A} (l : list A) (i : Z) :
  (0 <= i < Z.of_nat (length l))%Z ->
  exists a, index l i = Ok a /\ l !! Z.to_nat i = Some a.
Proof.
  intros H. unfold index.
  destruct (i <? 0)%Z eqn:Hi; [apply Z.ltb_lt in Hi; lia|].
  replace ((0 <=? i) && (i <? Z.of_nat (length l)))%Z with true
    by (symmetry; apply andb_true_iff; split;
        [apply Z.leb_le|apply Z.ltb_lt]; lia).
  destruct (l !! Z.to_nat i) as [a|] eqn:Hl; [eauto|].
  apply lookup_ge_None in Hl. lia.
Qed.

Lemma index_negative {A} (l : list A) (i : Z) :
  (- Z.of_nat (length l) <= i < 0)%Z ->
  index l i = index l (Z.of_nat (length l) + i).
Proof.
  intros H. unfold index.
  destruct (i <? 0)%Z eqn:Hi; [|apply Z.ltb_ge in Hi; lia].
  destruct (Z.of_nat (length l) + i <? 0)%Z eqn:Hj;
    [apply Z.ltb_lt in Hj; lia|].
  reflexivity.
Qed.

Lemma known_action_table action :
  known_action action = true ->
  forall b, exists o r, outcome_table action b = Some (o, r).
Proof.
  unfold known_action, default_action_space, outcome_table.
  cbn [existsb]. intros H b.
  repeat (destruct (String.eqb action _); [destruct b; eauto|]).
  discriminate.
Qed.

Lemma unknown_action_table action :
  known_action action = false -> forall b, outcome_table action b = None.
Proof.
  unfold known_action, default_action_space, outcome_table.
  cbn [existsb]. intros H b.
  repeat (destruct (String.eqb action _); [discriminate|]).
  reflexivity.
Qed.

(** A step with a legal index of a known action returns, and reports
    [done] by the test of the source. *)
Lemma step_returns env idx rnd action :
  index (action_space env) idx = Ok action ->
  known_action action = true ->
  max_steps env <> 0%Z ->
  exists r,
    (step env idx rnd).2 = Ok r
    /\ current_step (step env idx rnd).1 = (current_step env + 1)%Z
    /\ length (history (state (step env idx rnd).1))
       = Datatypes.S (length (history (state env)))
    /\ done r
       = (max_steps env <=? current_step env + 1)%Z
         || leb (health (state (step env idx rnd).1)) 0.
Proof.
  intros Hidx Hk Hm. unfold step. rewrite Hidx.
  unfold _calculate_outcome.
  destruct (known_action_table action Hk
              (ltb (draw_success rnd)
                 (success_prob (set_current_step (current_step env + 1) env)
                    action))) as (o & r & Ho).
  rewrite Ho.
  unfold get_state_vector.
  cbn [max_steps set_state set_current_step].
  destruct (max_steps env =? 0)%Z eqn:E; [apply Z.eqb_eq in E; contradiction|].
  eexists. cbn [fst snd]. split; [reflexivity|].
  cbn [current_step state set_state set_current_step history set_history done].
  rewrite length_app, history_update_state. cbn [length].
  repeat split; try lia.
Qed.

(** *** Invariants of the reachable environments *)

Lemma pressures_update_state action outcome rnd s :
  pressures_in_range (environment s) ->
  pressures_in_range (environment (_update_state action outcome rnd s)).
Proof.
  intros (Ht & Ho & Hs & Hp). rewrite environment_update_state.
  unfold pressures_in_range.
  cbn [threat_level opportunity social_pressure time_pressure].
  repeat split; try (apply clamp_range; lra); py_minmax; lra.
Qed.

Lemma pressures_configure_scenario scenario s :
  pressures_in_range (environment s) ->
  pressures_in_range (environment (configure_scenario_state scenario s)).
Proof.
  revert s. change (preserves (fun s => pressures_in_range (environment s))
                      (configure_scenario_state scenario)).
  unfold configure_scenario_state.
  split_stmt; intros s (Ht & Ho & Hs & Hp);
    unfold assign, pressures_in_range;
    cbn [environment set_threat_level set_opportunity set_social_pressure
         set_time_pressure set_environment set_fear set_joy set_anger
         set_sadness set_emotions threat_level opportunity social_pressure
         time_pressure];
    repeat split; lra.
Qed.

Lemma health_configure_scenario scenario s :
  health (configure_scenario_state scenario s) = health s.
Proof.
  apply frames_apply. unfold configure_scenario_state.
  split_stmt; intro; reflexivity.
Qed.

Lemma pressures_initial_state c :
  pressures_in_range (environment (initial_state c)).
Proof.
  unfold pressures_in_range, initial_state.
  cbn [environment threat_level opportunity social_pressure time_pressure].
  repeat split; lra.
Qed.

Lemma init_inversion c sp ms env :
  init c sp ms = Ok env ->
  character env = c /\ max_steps env = ms /\ ms <> 0%Z
  /\ current_step env = 0%Z /\ state env = initial_state c
  /\ action_dim env = length (action_space env)
  /\ action_space env <> [].
Proof.
  unfold init, reset, get_state_vector.
  cbn [max_steps set_state set_current_step character].
  destruct (ms =? 0)%Z eqn:E; cbn; [discriminate|].
  apply Z.eqb_neq in E. intros [= <-]. cbn.
  repeat split; auto.
  destruct sp as [[|a l]|]; discriminate.
Qed.

Lemma reachable_env_inv c env : reachable c env -> env_inv c env.
Proof.
  induction 1 as [sp ms env Hinit | env H IH | env idx rnd H IH
                 | env sc H IH].
  - apply init_inversion in Hinit as (Hc & Hm & Hm0 & _ & Hs & Ha & Hne).
    unfold env_inv. rewrite Hs, Hm.
    split; [exact Hc|]. split; [exact Hm0|]. split; [exact Ha|].
    split; [exact Hne|].
    split; [cbn [initial_state health]; lra | apply pressures_initial_state].
  - destruct IH as (Hc & Hm & Ha & Hne & Hh & Hp).
    unfold env_inv, reset.
    cbn [fst character max_steps action_dim action_space state set_state
         set_current_step].
    split; [exact Hc|]. split; [exact Hm|]. split; [exact Ha|].
    split; [exact Hne|].
    split; [cbn [initial_state health]; lra | apply pressures_initial_state].
  - destruct IH as (Hc & Hm & Ha & Hne & Hh & Hp).
    destruct (step_shape env idx rnd) as (Ec & Es & Ed & Em & Hst).
    unfold env_inv. rewrite Ec, Es, Ed, Em.
    split; [exact Hc|]. split; [exact Hm|]. split; [exact Ha|].
    split; [exact Hne|].
    destruct Hst as [-> | (action & outcome & entry & ->)];
      [split; assumption|].
    cbn [health environment set_history].
    rewrite health_update_state.
    split; [|apply pressures_update_state; exact Hp].
    destruct (_ || _); [py_minmax; lra | exact Hh].
  - destruct IH as (Hc & Hm & Ha & Hne & Hh & Hp).
    unfold env_inv, configure_scenario.
    cbn [character max_steps action_dim action_space state set_state].
    rewrite health_configure_scenario.
    split; [exact Hc|]. split; [exact Hm|]. split; [exact Ha|].
    split; [exact Hne|].
    split; [exact Hh | apply pressures_configure_scenario; exact Hp].
Qed.

(** ** Section 4.5: advantage estimation *)

(** C1 (the code departs from the claim). On the specification's own
    example -- rewards [1,1,1], values [0,0,0], bootstrap 0, dones
    [false,false,true], gamma 1, lambda 1 -- [compute_returns_and_advantages]
    returns [2,1,1] for both sequences, while the recursion of section 4.5
    gives [3,2,1]: the code takes the non-terminal factor of step [t] from
    [dones[t+1]] (and [dones[-1]] at the last step), and uses the bootstrap
    value as [next_value] at every index. *)
Theorem C1_gae_example_diverges (self : PPOAgent) :
  compute_returns_and_advantages self [1; 1; 1]%Q [0; 0; 0]%Q 0%Q
    [false; false; true] (Some 1%Q) 1%Q
  = Ok ([2; 1; 1]%Q, [2; 1; 1]%Q)
  /\ Spec_4_5.compute [1; 1; 1]%Q [0; 0; 0]%Q 0%Q [false; false; true] 1%Q 1%Q
     = Ok ([3; 2; 1]%Q, [3; 2; 1]%Q).
Proof. split; vm_compute; reflexivity. Qed.

(** ** Section 4.3: the environment *)

(** C6. For every environment and every action name, the probability
    [_calculate_outcome] compares its draw with is the clamp to [0.1, 0.9]
    of the baseline 0.5 plus the action's own terms, which are, with
    [o, c, e, a, n] the profile's traits (0.5 where missing) and [threat],
    [opportunity] the current pressures:
    合作 [0.2a - 0.1n], then [+0.1] if [opportunity > 0.5] else [-0.1];
    竞争 [0.2c - 0.1a], then [-0.1] if [threat > 0.5];
    冒险 [0.3o - 0.2c], then [+0.2] if [opportunity > 0.7] else [-0.1];
    保守 [0.2c - 0.1o], then [+0.1] if [threat > 0.5] else [-0.1];
    说服 [0.3e + 0.1a];  威胁 [0.2(1-a) - 0.1e];
    逃避 [0.3n - 0.1c], then [+0.2] if [threat > 0.7];
    对抗 [0.2(1-a) + 0.1c];  礼让 [0.3a];  强硬 [0.2(1-a) + 0.1n];
    any other name keeps the bare baseline.  The clamped value always lies
    in [0.1, 0.9]; with the five traits in [0, 1] the value before the
    clamp lies in [0.2, 1], so only the upper bound ever acts.  The draw
    succeeds exactly when it is below the clamped value. *)
Theorem C6_success_prob_clamped (self : CharacterEnvironment.t)
    (action : string) :
  let p := Profile.attrs (character self) in
  let o := get p "O" 0.5 in
  let c := get p "C" 0.5 in
  let e := get p "E" 0.5 in
  let a := get p "A" 0.5 in
  let n := get p "N" 0.5 in
  let threat := threat_level (environment (state self)) in
  let opportunity := opportunity (environment (state self)) in
  let clamp x := Py.max 0.1 (Py.min 0.9 x) in
  0.1 <= success_prob self action <= 0.9
  /\ success_prob self "合作"
     = clamp (0.5 + (0.2 * a - 0.1 * n)
              + (if gtb opportunity 0.5 then 0.1 else - 0.1))
  /\ success_prob self "竞争"
     = clamp (0.5 + (0.2 * c - 0.1 * a) - (if gtb threat 0.5 then 0.1 else 0))
  /\ success_prob self "冒险"
     = clamp (0.5 + (0.3 * o - 0.2 * c)
              + (if gtb opportunity 0.7 then 0.2 else - 0.1))
  /\ success_prob self "保守"
     = clamp (0.5 + (0.2 * c - 0.1 * o)
              + (if gtb threat 0.5 then 0.1 else - 0.1))
  /\ success_prob self "说服" = clamp (0.5 + (0.3 * e + 0.1 * a))
  /\ success_prob self "威胁" = clamp (0.5 + (0.2 * (1 - a) - 0.1 * e))
  /\ success_prob self "逃避"
     = clamp (0.5 + (0.3 * n - 0.1 * c) + (if gtb threat 0.7 then 0.2 else 0))
  /\ success_prob self "对抗" = clamp (0.5 + (0.2 * (1 - a) + 0.1 * c))
  /\ success_prob self "礼让" = clamp (0.5 + 0.3 * a)
  /\ success_prob self "强硬" = clamp (0.5 + (0.2 * (1 - a) + 0.1 * n))
  /\ (known_action action = false -> success_prob self action = clamp 0.5)
  /\ (0 <= o <= 1 -> 0 <= c <= 1 -> 0 <= e <= 1 -> 0 <= a <= 1 ->
      0 <= n <= 1 ->
      0.2 <= adjusted_prob self action <= 1
      /\ success_prob self action == Py.min 0.9 (adjusted_prob self action))
  /\ (forall r,
         _calculate_outcome self action r
         = match outcome_table action (ltb r (success_prob self action)) with
           | Some (outcome, reward) =>
               Ok (outcome, reward + trait_bonus self action)
           | None => Raise (UnboundLocalError "outcome")
           end).
Proof.
  cbv zeta.
  split; [apply clamp_range; lra|].
  do 10 (split; [reflexivity|]).
  split; [|split].
  - unfold success_prob, known_action, default_action_space, adjusted_prob.
    cbn [existsb]. intros H.
    repeat (destruct (String.eqb action _); [discriminate|]).
    reflexivity.
  - intros Ho Hc He Ha Hn.
    assert (Hb : 0.2 <= adjusted_prob self action <= 1).
    { unfold adjusted_prob. cbv zeta.
      repeat (destruct (String.eqb action _);
              [repeat match goal with
                      | |- context [if gtb ?x ?y then _ else _] =>
                          destruct (gtb x y)
                      end; lra|]).
      lra. }
    split; [exact Hb|]. unfold success_prob. py_minmax; lra.
  - reflexivity.
Qed.

(** A step that returns reports [done] by the test of the source, one
    count later. *)
Lemma step_done env idx rnd r :
  (step env idx rnd).2 = Ok r ->
  current_step (step env idx rnd).1 = (current_step env + 1)%Z
  /\ done r
     = (max_steps env <=? current_step env + 1)%Z
       || leb (health (state (step env idx rnd).1)) 0.
Proof.
  unfold step.
  destruct (index (action_space env) idx) as [action|e];
    [|cbn; discriminate].
  destruct (_calculate_outcome _ action (draw_success rnd))
    as [[outcome rw]|e]; [|cbn; discriminate].
  destruct (get_state_vector _) as [v|e]; [|cbn; discriminate].
  cbn [fst snd]. intros [= <-].
  cbn [done current_step max_steps state set_state set_current_step].
  split; reflexivity.
Qed.

Lemma leb_health_positive (h : Q) : (0.1 <= h)%Q -> leb h 0 = false.
Proof.
  intros H. unfold leb, gtb, ltb.
  destruct (Qlt_le_dec 0 h); [reflexivity|lra].
Qed.

Lemma reachable_one_step_env : reachable empty_profile one_step_env.
Proof. apply (reach_init _ None 1). reflexivity. Qed.

(** C9. Across every step of a reachable environment, with the three
    uniform draws in [-0.1, 0.1]: the four pressures stay in [0, 1], threat,
    opportunity and social pressure move by at most 0.1, and time pressure
    never decreases (it grows by at most 0.05). *)
Theorem C9_pressures_bounded_walk (c : Profile.t)
    (env : CharacterEnvironment.t) (idx : Z) (rnd : step_draw) :
  reachable c env ->
  uniform_draws rnd ->
  let p := environment (state env) in
  let p' := environment (state (step env idx rnd).1) in
  (pressures_in_range p'
   /\ - 0.1 <= threat_level p' - threat_level p <= 0.1
   /\ - 0.1 <= opportunity p' - opportunity p <= 0.1
   /\ - 0.1 <= social_pressure p' - social_pressure p <= 0.1
   /\ time_pressure p <= time_pressure p'
   /\ time_pressure p' - time_pressure p <= 0.05)%Q.
Proof.
  intros Hr (Ht & Ho & Hs) p p'.
  pose proof (reachable_env_inv _ _ (reach_step c env idx rnd Hr))
    as (_ & _ & _ & _ & _ & Hp').
  split; [exact Hp'|].
  pose proof (reachable_env_inv _ _ Hr) as (_ & _ & _ & _ & _ & Hp).
  destruct Hp as (Hpt & Hpo & Hps & Hpp). fold p in Hpt, Hpo, Hps, Hpp.
  destruct (step_shape env idx rnd) as (_ & _ & _ & _ & Hst).
  subst p'.
  destruct Hst as [-> | (action & outcome & entry & ->)].
  - fold p. repeat split; lra.
  - cbn [environment set_history]. rewrite environment_update_state.
    cbn [threat_level opportunity social_pressure time_pressure]. fold p.
    repeat split; py_minmax; lra.
Qed.

Lemma C9_pressures_bounded_walk_witness :
  let p := environment (state one_step_env) in
  let p' := environment (state (step one_step_env 0 zero_draw).1) in
  (pressures_in_range p'
   /\ - 0.1 <= threat_level p' - threat_level p <= 0.1
   /\ - 0.1 <= opportunity p' - opportunity p <= 0.1
   /\ - 0.1 <= social_pressure p' - social_pressure p <= 0.1
   /\ time_pressure p <= time_pressure p'
   /\ time_pressure p' - time_pressure p <= 0.05)%Q.
Proof.
  apply (C9_pressures_bounded_walk empty_profile one_step_env 0 zero_draw).
  - apply (reach_init _ None 1). reflexivity.
  - unfold uniform_draws, zero_draw; cbn; lra.
Defined.

(** C10. In every reachable environment health is at least 0.1, hence
    positive: [reset] sets it to 1.0 and the only write to it in
    [_update_state] is [max(0.1, health - 0.1)].  So the [health <= 0]
    disjunct of the termination test is never true, and a step that returns
    reports [done] exactly when the step counter has reached [max_steps]. *)
Theorem C10_health_floor_done_by_counter (c : Profile.t)
    (env : CharacterEnvironment.t) :
  reachable c env ->
  (0.1 <= health (state env) /\ 0 < health (state env))%Q
  /\ health (state (reset env).1) = 1.0%Q
  /\ (forall action outcome rnd s,
        health (_update_state action outcome rnd s) = health s
        \/ health (_update_state action outcome rnd s)
           = Py.max 0.1 (health s - 0.1))
  /\ (forall idx rnd r,
        (step env idx rnd).2 = Ok r ->
        leb (health (state (step env idx rnd).1)) 0 = false
        /\ current_step (step env idx rnd).1 = (current_step env + 1)%Z
        /\ done r
           = (max_steps env <=? current_step (step env idx rnd).1)%Z).
Proof.
  intros Hr.
  pose proof (reachable_env_inv _ _ Hr) as (_ & _ & _ & _ & Hh & _).
  split; [split; [exact Hh|lra]|]. split; [reflexivity|]. split.
  - intros action outcome rnd s. rewrite health_update_state.
    destruct (_ || _); auto.
  - intros idx rnd r Hstep.
    pose proof (reachable_env_inv _ _ (reach_step c env idx rnd Hr))
      as (_ & _ & _ & _ & Hh' & _).
    destruct (step_done env idx rnd r Hstep) as [Hc Hd].
    rewrite (leb_health_positive _ Hh') in *.
    split; [reflexivity|]. split; [exact Hc|].
    rewrite Hd, Hc. apply orb_false_r.
Qed.

Lemma C10_health_floor_done_by_counter_witness :
  (0.1 <= health (state one_step_env) /\ 0 < health (state one_step_env))%Q
  /\ health (state (reset one_step_env).1) = 1.0%Q
  /\ (forall action outcome rnd s,
        health (_update_state action outcome rnd s) = health s
        \/ health (_update_state action outcome rnd s)
           = Py.max 0.1 (health s - 0.1))
  /\ (forall idx rnd r,
        (step one_step_env idx rnd).2 = Ok r ->
        leb (health (state (step one_step_env idx rnd).1)) 0 = false
        /\ current_step (step one_step_env idx rnd).1
           = (current_step one_step_env + 1)%Z
        /\ done r
           = (max_steps one_step_env
              <=? current_step (step one_step_env idx rnd).1)%Z).
Proof.
  apply (C10_health_floor_done_by_counter empty_profile one_step_env).
  apply (reach_init _ None 1). reflexivity.
Defined.

(** In a reachable environment a step that returns reports [done] exactly
    when the counter has reached [max_steps]. *)
Lemma reachable_step_done c env idx rnd r :
  reachable c env ->
  (step env idx rnd).2 = Ok r ->
  current_step (step env idx rnd).1 = (current_step env + 1)%Z
  /\ done r = (max_steps env <=? current_step (step env idx rnd).1)%Z.
Proof.
  intros Hr Hstep.
  pose proof (reachable_env_inv _ _ (reach_step c env idx rnd Hr))
    as (_ & _ & _ & _ & Hh' & _).
  destruct (step_done env idx rnd r Hstep) as [Hc Hd].
  split; [exact Hc|].
  rewrite Hd, Hc, (leb_health_positive _ Hh'). apply orb_false_r.
Qed.

(** C2 (counterexample). [CharacterEnvironment({}, max_steps=1)]: the first
    [step(0)] returns [done = True]; a second [step(0)] with no [reset]
    in between raises nothing: it returns again, with the counter at 2. *)
Lemma C2_step_after_done_counterexample :
  let first := step one_step_env 0 zero_draw in
  let second := step first.1 0 zero_draw in
  (exists r0, first.2 = Ok r0 /\ done r0 = true)
  /\ (exists r1, second.2 = Ok r1 /\ done r1 = true
                 /\ info_action r1 = "合作")
  /\ current_step second.1 = 2%Z
  /\ length (history (state second.1)) = 2%nat.
Proof.
  cbv zeta. split; [|split; [|split]].
  - eexists. split; vm_compute; reflexivity.
  - eexists. split; [|split]; vm_compute; reflexivity.
  - vm_compute; reflexivity.
  - vm_compute; reflexivity.
Qed.

(** C2 (as amended). [step] never looks at the episode's state: when a step
    of a reachable environment has returned [done = true], a further step
    with a legal index of one of the ten actions is one more transition --
    the counter moves on by one, the history grows by one entry -- and it
    returns [done = true] again. *)
Theorem C2_step_after_done_steps_again (c : Profile.t)
    (env0 : CharacterEnvironment.t) (idx0 : Z) (rnd0 : step_draw)
    (r0 : step_result) (idx : Z) (rnd : step_draw) (action : string) :
  reachable c env0 ->
  (step env0 idx0 rnd0).2 = Ok r0 ->
  done r0 = true ->
  let env := (step env0 idx0 rnd0).1 in
  index (action_space env) idx = Ok action ->
  known_action action = true ->
  exists r,
    (step env idx rnd).2 = Ok r
    /\ done r = true
    /\ current_step (step env idx rnd).1 = (current_step env + 1)%Z
    /\ length (history (state (step env idx rnd).1))
       = Datatypes.S (length (history (state env))).
Proof.
  intros Hr Hstep Hdone env Hidx Hk.
  pose proof (reachable_env_inv _ _ (reach_step c env0 idx0 rnd0 Hr))
    as (_ & Hm & _ & _ & Hh & _). fold env in Hm, Hh.
  destruct (reachable_step_done c env0 idx0 rnd0 r0 Hr Hstep) as [Hc Hd].
  fold env in Hc, Hd.
  destruct (step_shape env0 idx0 rnd0) as (_ & _ & _ & Hms & _).
  fold env in Hms.
  destruct (step_returns env idx rnd action Hidx Hk Hm)
    as (r & Hr1 & Hcs & Hlen & Hd1).
  exists r. split; [exact Hr1|]. split; [|split; assumption].
  rewrite Hd1. apply orb_true_iff. left.
  rewrite Hdone in Hd. symmetry in Hd. apply Z.leb_le in Hd.
  apply Z.leb_le. lia.
Qed.

Lemma C2_step_after_done_steps_again_witness :
  exists r,
    (step (step one_step_env 0 zero_draw).1 0 zero_draw).2 = Ok r
    /\ done r = true
    /\ current_step (step (step one_step_env 0 zero_draw).1 0 zero_draw).1
       = (current_step (step one_step_env 0 zero_draw).1 + 1)%Z
    /\ length (history (state
                (step (step one_step_env 0 zero_draw).1 0 zero_draw).1))
       = Datatypes.S
           (length (history (state (step one_step_env 0 zero_draw).1))).
Proof.
  apply (C2_step_after_done_steps_again empty_profile one_step_env 0
           zero_draw
           {| next_state := [1.0; 1.0; 0.5; 0.6500; 0.60; 0.050; 0.60; 0.5;
                             0.5; 0.5; 0.5; 0.5; 0.350; 0.25; 0.25; 0.2000;
                             0.1; 0.3; 0.2; 0.150; 1]%Q;
              reward := 1.5000%Q; done := true;
              info_outcome := "成功建立了合作关系";
              info_action := "合作" |}
           0 zero_draw "合作").
  - apply (reach_init _ None 1). reflexivity.
  - vm_compute. reflexivity.
  - reflexivity.
  - vm_compute. reflexivity.
  - reflexivity.
Defined.

(** C4 (counterexample). Index -1 is not in [0, 10), yet
    [step(-1)] on the ten default actions is accepted: it performs the
    last action of the list and writes the counter and the history. *)
Lemma C4_negative_index_counterexample :
  let after := step one_step_env (-1) zero_draw in
  (exists r, after.2 = Ok r /\ info_action r = "强硬")
  /\ current_step one_step_env = 0%Z
  /\ current_step after.1 = 1%Z
  /\ length (history (state after.1)) = 1%nat.
Proof.
  cbv zeta. split; [|split; [|split]].
  - eexists. split; vm_compute; reflexivity.
  - reflexivity.
  - vm_compute; reflexivity.
  - vm_compute; reflexivity.
Qed.

(** C4 (as amended). In a reachable environment, an index at or above
    [action_dim], or below [-action_dim], makes [step] raise [IndexError]
    at its first statement, so the object -- counter, attributes, history
    -- is exactly as before; an index in [-action_dim, 0) is accepted and
    is the same call as with [action_dim + index]. *)
Theorem C4_index_outside_list_rejected (c : Profile.t)
    (env : CharacterEnvironment.t) (idx : Z) (rnd : step_draw) :
  reachable c env ->
  let n := Z.of_nat (action_dim env) in
  ((n <= idx \/ idx < - n)%Z -> step env idx rnd = (env, Raise IndexError))
  /\ ((- n <= idx < 0)%Z -> step env idx rnd = step env (n + idx) rnd).
Proof.
  intros Hr n.
  pose proof (reachable_env_inv _ _ Hr) as (_ & _ & Ha & _).
  subst n. rewrite Ha. split; intros H.
  - apply step_index_error. apply index_out_of_range. exact H.
  - unfold step. rewrite (index_negative _ _ H). reflexivity.
Qed.

Lemma C4_index_outside_list_rejected_witness :
  step one_step_env 10 zero_draw = (one_step_env, Raise IndexError).
Proof.
  apply (proj1 (C4_index_outside_list_rejected empty_profile one_step_env 10
                  zero_draw
                  (reach_init empty_profile None 1 one_step_env eq_refl))).
  left. cbn. lia.
Defined.

(** ** Section 3: the profile handed to the engine *)

Section ProfileOnlyRead.

Import Mirage.

Local Open Scope Q_scope.

(** C5 (counterexample). [MirageEnv(sample_profile).step(1)] returns, and
    the caller's profile has been written: ["trust"] went from 0.6 to 0.5
    and ["anger"] from 0.2 to 0.25. *)
Lemma C5_mirage_step_writes_profile_counterexample :
  let before := sample_store 0%nat in
  let run := MirageEnv_step 1 (sample_store, MirageEnv_init sample_store 0) in
  let after := run.1.1 0%nat in
  is_ok run.2 = true
  /\ Profile.attrs before !! "trust" = Some 0.6%Q
  /\ (exists v, Profile.attrs after !! "trust" = Some v /\ v == 0.5)%Q
  /\ (exists v, Profile.emotion_state_or_empty after !! "anger" = Some v
                /\ v == 0.25)%Q
  /\ after <> before.
Proof.
  cbv zeta. split; [vm_compute; reflexivity|].
  split; [vm_compute; reflexivity|].
  split; [eexists; split; [vm_compute; reflexivity|reflexivity]|].
  split; [eexists; split; [vm_compute; reflexivity|reflexivity]|].
  intros H.
  assert (E : Profile.attrs ((MirageEnv_step 1
                (sample_store, MirageEnv_init sample_store 0)).1.1 0%nat)
              !! "trust"
              = Profile.attrs (sample_store 0%nat) !! "trust")
    by (rewrite H; reflexivity).
  vm_compute in E. discriminate E.
Qed.

Lemma mirage_step_frame (σ : nat -> Profile.t) env action :
  action <> 0%Z -> action <> 1%Z ->
  (MirageEnv_step action (σ, env)).1.1 = σ.
Proof.
  intros H0 H1. apply Z.eqb_neq in H0, H1.
  unfold MirageEnv_step, _update_profile. rewrite H0, H1.
  unfold_methods. cbn [fst snd].
  destruct (compute_reward _ _ action) as [rw|e]; cbn [fst snd];
    [|reflexivity].
  destruct (_ <=? _)%Z; reflexivity.
Qed.

Lemma mirage_reset_frame (σ : nat -> Profile.t) env :
  (MirageEnv_reset (σ, env)).1.1 = σ.
Proof. reflexivity. Qed.

Lemma refresh_state_frame i l (σ : nat -> Profile.t) env :
  (refresh_state i l (σ, env)).1.1 = σ.
Proof.
  unfold refresh_state. destruct (setitem _ _ _); reflexivity.
Qed.

Lemma pvp_step_frame (σ : nat -> Profile.t) env action :
  action <> 0%Z -> action <> 1%Z ->
  (PvPArenaEnv_step action (σ, env)).1.1 = σ.
Proof.
  intros H0 H1. apply Z.eqb_neq in H0, H1.
  unfold PvPArenaEnv_step. rewrite H0, H1.
  unfold_methods. cbn [fst snd].
  destruct (index (profiles env) (turn env)) as [p|e]; [|reflexivity].
  destruct (index (states env) (turn env)) as [st|e]; [|reflexivity].
  destruct (compute_reward _ _ action) as [rw|e]; [|reflexivity].
  pose proof (refresh_state_frame (turn env) p σ env) as E1.
  destruct (refresh_state (turn env) p (σ, env)) as [[σ1 env1] [[]|e]];
    cbn [fst snd] in *; subst σ1; [|reflexivity].
  destruct (index (profiles env1) (1 - turn env)) as [o|e]; [|reflexivity].
  pose proof (refresh_state_frame (1 - turn env) o σ env1) as E2.
  destruct (refresh_state (1 - turn env) o (σ, env1)) as [[σ2 env2] [[]|e]];
    cbn [fst snd] in *; subst σ2; [|reflexivity].
  destruct (index (states _) (turn env)); reflexivity.
Qed.

Lemma build_state_length (p : Profile.t) : length (build_state p) = 18%nat.
Proof. reflexivity. Qed.

(** The reward reads entries 10 to 13 of the state only. *)
Lemma compute_reward_long (p : Profile.t) (st : list Q) (action : Z) :
  length st = 18%nat -> exists r, compute_reward p st action = Ok r.
Proof.
  intros H.
  do 18 (destruct st as [|? st]; [discriminate H|]).
  destruct st; [|discriminate H].
  unfold compute_reward.
  repeat (destruct (action =? _)%Z; [eexists; reflexivity|]).
  eexists; reflexivity.
Qed.

Lemma write_profile_ok {E} (l : nat) (f : Profile.t -> res Profile.t)
    (σ : nat -> Profile.t) (env : E) (p : Profile.t) :
  f (σ l) = Ok p ->
  write_profile l f (σ, env) = ((<[l := p]> σ, env), Ok tt).
Proof. intros H. unfold write_profile. rewrite H. reflexivity. Qed.

Lemma add_attr_ok (k : string) (d v : Q) (p : Profile.t) :
  Profile.attrs p !! k = Some v ->
  Profile.add_attr k d p
  = Ok (Profile.set_attrs (<[k := v + d]> (Profile.attrs p)) p).
Proof.
  intros H. unfold Profile.add_attr, getitem. rewrite H. reflexivity.
Qed.

Lemma add_emotion_ok (k : string) (d v : Q) (p : Profile.t)
    (e : gmap string Q) :
  Profile.emotion_state p = Some e ->
  e !! k = Some v ->
  Profile.add_emotion k d p
  = Ok (Profile.set_emotion_state (<[k := v + d]> e) p).
Proof.
  intros He H. unfold Profile.add_emotion, getitem. rewrite He, H.
  reflexivity.
Qed.

(** The store [PvPArenaEnv.step] leaves is the one its two writes leave:
    nothing after them touches a profile. *)
Lemma pvp_step_store (σ : nat -> Profile.t) (env : PvPArenaEnv) (action : Z)
    (actor other : nat) (s : list Q)
    (f g : Profile.t -> res Profile.t) (p q : Profile.t) :
  index (profiles env) (turn env) = Ok actor ->
  index (profiles env) (1 - turn env) = Ok other ->
  index (states env) (turn env) = Ok s ->
  length s = 18%nat ->
  (action = 1%Z /\ f = Profile.add_emotion "anger" 0.1
                /\ g = Profile.add_emotion "anger" 0.05
   \/ action = 0%Z /\ f = Profile.add_emotion "joy" 0.05
                   /\ g = Profile.add_attr "trust" 0.03) ->
  f (σ actor) = Ok p ->
  g ((<[actor := p]> σ) other) = Ok q ->
  (PvPArenaEnv_step action (σ, env)).1.1 = <[other := q]> (<[actor := p]> σ).
Proof.
  intros Hactor Hother Hs Hlen Hact Hf Hg.
  destruct (compute_reward_long (σ actor) s action Hlen) as (rw & Erw).
  unfold PvPArenaEnv_step. unfold_methods. cbn [fst snd].
  rewrite Hactor. cbn [fst snd]. rewrite Hs. cbn [fst snd].
  rewrite Erw. cbn [fst snd].
  destruct Hact as [(-> & -> & ->)|(-> & -> & ->)]; cbn [Z.eqb Pos.eqb];
    rewrite (write_profile_ok _ _ _ _ _ Hf); cbn [fst snd];
    rewrite Hother; rewrite (write_profile_ok _ _ _ _ _ Hg); cbn [fst snd].
  all: clear Hs; set (σ' := <[other := q]> (<[actor := p]> σ));
    pose proof (refresh_state_frame (turn env) actor σ' env) as E1;
    destruct (refresh_state (turn env) actor (σ', env))
      as [[σ1 env1] [[]|e]];
    cbn [fst snd] in *; subst σ1; [|reflexivity];
    destruct (index (profiles env1) (1 - turn env)) as [o|e];
      [|reflexivity];
    pose proof (refresh_state_frame (1 - turn env) o σ' env1) as E2;
    destruct (refresh_state (1 - turn env) o (σ', env1))
      as [[σ2 env2] [[]|e]];
    cbn [fst snd] in *; subst σ2; [|reflexivity];
    destruct (index (states _) (turn env)); reflexivity.
Qed.

(** When the actor's own write fails, [PvPArenaEnv.step] raises what it
    raised and no profile is changed. *)
Lemma pvp_step_first_write_raises (σ : nat -> Profile.t) (env : PvPArenaEnv)
    (action : Z) (actor : nat) (s : list Q)
    (f : Profile.t -> res Profile.t) (e : exn) :
  index (profiles env) (turn env) = Ok actor ->
  index (states env) (turn env) = Ok s ->
  length s = 18%nat ->
  (action = 1%Z /\ f = Profile.add_emotion "anger" 0.1
   \/ action = 0%Z /\ f = Profile.add_emotion "joy" 0.05) ->
  f (σ actor) = Raise e ->
  PvPArenaEnv_step action (σ, env) = ((σ, env), Raise e).
Proof.
  intros Hactor Hs Hlen Hact Hf.
  destruct (compute_reward_long (σ actor) s action Hlen) as (rw & Erw).
  unfold PvPArenaEnv_step. unfold_methods. cbn [fst snd].
  rewrite Hactor. cbn [fst snd]. rewrite Hs. cbn [fst snd].
  rewrite Erw. cbn [fst snd].
  destruct Hact as [(-> & ->)|(-> & ->)]; cbn [Z.eqb Pos.eqb];
    unfold write_profile; rewrite Hf; reflexivity.
Qed.



(** With its 18 entries in place the reward never raises, so the profiles
    [MirageEnv.step] leaves are the ones [_update_profile] leaves, and it
    raises what [_update_profile] raised. *)
Lemma mirage_step_store (σ : nat -> Profile.t) (env : MirageEnv)
    (action : Z) :
  length (state env) = 18%nat ->
  let env1 := set_current_step (current_step env + 1) env in
  (MirageEnv_step action (σ, env)).1.1 = (_update_profile action (σ, env1)).1.1
  /\ forall σ' e,
       _update_profile action (σ, env1) = ((σ', env1), Raise e) ->
       MirageEnv_step action (σ, env) = ((σ', env1), Raise e).
Proof.
  intros Hlen env1.
  destruct (compute_reward_long (σ (profile env)) (state env) action Hlen)
    as (rw & Erw).
  unfold MirageEnv_step. unfold_methods.
  cbn [fst snd profile state set_current_step].
  rewrite Erw. cbn [fst snd profile state set_current_step].
  fold env1. split.
  - destruct (_update_profile action (σ, env1)) as [[σ1 env2] [[]|e]];
      cbn [fst snd]; [|reflexivity].
    destruct (_ <=? _)%Z; reflexivity.
  - intros σ' e ->. reflexivity.
Qed.

Lemma update_profile_0 (σ : nat -> Profile.t) (env : MirageEnv)
    (trust reputation : Q) :
  let l := profile env in
  Profile.attrs (σ l) !! "trust" = Some trust ->
  Profile.attrs (σ l) !! "reputation" = Some reputation ->
  let p1 := Profile.set_attrs
              (<["trust" := trust + 0.05]> (Profile.attrs (σ l))) (σ l) in
  let p2 := Profile.set_attrs
              (<["reputation" := reputation + 0.05]> (Profile.attrs p1)) p1 in
  _update_profile 0 (σ, env) = ((<[l := p2]> (<[l := p1]> σ), env), Ok tt).
Proof.
  intros l Ht Hr p1 p2. unfold _update_profile. unfold_methods.
  cbn [fst snd Z.eqb]. fold l.
  rewrite (write_profile_ok _ _ _ _ _ (add_attr_ok "trust" 0.05 trust _ Ht)).
  fold p1. apply write_profile_ok.
  rewrite fn_lookup_insert. apply add_attr_ok.
  unfold p1. cbn [Profile.attrs Profile.set_attrs].
  rewrite lookup_insert_ne by discriminate. exact Hr.
Qed.

Lemma update_profile_1 (σ : nat -> Profile.t) (env : MirageEnv)
    (trust anger : Q) (e : gmap string Q) :
  let l := profile env in
  Profile.attrs (σ l) !! "trust" = Some trust ->
  Profile.emotion_state (σ l) = Some e ->
  e !! "anger" = Some anger ->
  let p1 := Profile.set_attrs
              (<["trust" := trust + - 0.1]> (Profile.attrs (σ l))) (σ l) in
  let p2 := Profile.set_emotion_state (<["anger" := anger + 0.05]> e) p1 in
  _update_profile 1 (σ, env) = ((<[l := p2]> (<[l := p1]> σ), env), Ok tt).
Proof.
  intros l Ht He Ha p1 p2. unfold _update_profile. unfold_methods.
  cbn [fst snd Z.eqb Pos.eqb]. fold l.
  rewrite (write_profile_ok _ _ _ _ _
             (add_attr_ok "trust" (- 0.1) trust _ Ht)).
  fold p1. apply write_profile_ok.
  rewrite fn_lookup_insert. apply (add_emotion_ok "anger" 0.05 anger p1 e).
  - unfold p1. cbn [Profile.emotion_state Profile.set_attrs]. exact He.
  - exact Ha.
Qed.

Lemma update_profile_no_trust (σ : nat -> Profile.t) (env : MirageEnv)
    (action : Z) :
  action = 0%Z \/ action = 1%Z ->
  Profile.attrs (σ (profile env)) !! "trust" = None ->
  _update_profile action (σ, env) = ((σ, env), Raise (KeyError "trust")).
Proof.
  intros Ha Ht. unfold _update_profile. unfold_methods.
  cbn [fst snd]. unfold write_profile, Profile.add_attr, getitem.
  destruct Ha as [-> | ->]; cbn [Z.eqb Pos.eqb]; rewrite Ht; reflexivity.
Qed.

(** C5 (as amended).  [CharacterEnvironment] only reads its profile: in
    every environment reachable from the constructor the profile is the one
    handed in, whatever was reset, stepped or configured.  [MirageEnv.reset]
    writes to no profile, and [MirageEnv.step] and [PvPArenaEnv.step] write
    to none when the action is neither 0 nor 1.  For actions 0 and 1 they
    write through the caller's dicts.  With the 18-entry state vector in
    place, [MirageEnv.step(0)] adds 0.05 to ["trust"] and ["reputation"] and
    [MirageEnv.step(1)] subtracts 0.1 from ["trust"] and adds 0.05 to
    ["emotion_state"]["anger"], and nothing else changes; without a
    ["trust"] entry both raise [KeyError] and no profile is changed.  In an
    arena of two different dicts [PvPArenaEnv.step(1)] adds 0.1 to the
    actor's anger and 0.05 to the opponent's, [step(0)] adds 0.05 to the
    actor's joy and 0.03 to the opponent's ["trust"], and no other profile
    changes; without an ["emotion_state"] entry in the actor's dict both
    raise [KeyError] and no profile is changed. *)
Theorem C5_profile_only_read (c : Profile.t) (env : CharacterEnvironment.t)
    (σ : nat -> Profile.t) (menv : MirageEnv) (penv : PvPArenaEnv) :
  reachable c env ->
  (* CharacterEnvironment *)
  (character env = c
   /\ (forall idx rnd, character (step env idx rnd).1 = c)
   /\ character (reset env).1 = c
   /\ (forall scenario, character (configure_scenario env scenario) = c))
  (* no write *)
  /\ (MirageEnv_reset (σ, menv)).1.1 = σ
  /\ (forall action, action <> 0%Z -> action <> 1%Z ->
        (MirageEnv_step action (σ, menv)).1.1 = σ
        /\ (PvPArenaEnv_step action (σ, penv)).1.1 = σ)
  (* MirageEnv.step, actions 0 and 1 *)
  /\ (let l := profile menv in
      length (state menv) = 18%nat ->
      (forall trust reputation,
         Profile.attrs (σ l) !! "trust" = Some trust ->
         Profile.attrs (σ l) !! "reputation" = Some reputation ->
         let σ' := (MirageEnv_step 0 (σ, menv)).1.1 in
         Profile.attrs (σ' l)
         = <["reputation" := reputation + 0.05]>
             (<["trust" := trust + 0.05]> (Profile.attrs (σ l)))
         /\ Profile.emotion_state (σ' l) = Profile.emotion_state (σ l)
         /\ Profile.wuxing (σ' l) = Profile.wuxing (σ l)
         /\ forall l', l' <> l -> σ' l' = σ l')
      /\ (forall trust e anger,
            Profile.attrs (σ l) !! "trust" = Some trust ->
            Profile.emotion_state (σ l) = Some e ->
            e !! "anger" = Some anger ->
            let σ' := (MirageEnv_step 1 (σ, menv)).1.1 in
            Profile.attrs (σ' l)
            = <["trust" := trust + - 0.1]> (Profile.attrs (σ l))
            /\ Profile.emotion_state (σ' l)
               = Some (<["anger" := anger + 0.05]> e)
            /\ Profile.wuxing (σ' l) = Profile.wuxing (σ l)
            /\ forall l', l' <> l -> σ' l' = σ l')
      /\ (forall action,
            action = 0%Z \/ action = 1%Z ->
            Profile.attrs (σ l) !! "trust" = None ->
            (MirageEnv_step action (σ, menv)).2 = Raise (KeyError "trust")
            /\ (MirageEnv_step action (σ, menv)).1.1 = σ))
  (* PvPArenaEnv.step, actions 0 and 1 *)
  /\ (forall actor other s,
        index (profiles penv) (turn penv) = Ok actor ->
        index (profiles penv) (1 - turn penv) = Ok other ->
        actor <> other ->
        index (states penv) (turn penv) = Ok s ->
        length s = 18%nat ->
        (forall e1 a1 e2 a2,
           Profile.emotion_state (σ actor) = Some e1 ->
           e1 !! "anger" = Some a1 ->
           Profile.emotion_state (σ other) = Some e2 ->
           e2 !! "anger" = Some a2 ->
           let σ' := (PvPArenaEnv_step 1 (σ, penv)).1.1 in
           σ' actor
           = Profile.set_emotion_state (<["anger" := a1 + 0.1]> e1) (σ actor)
           /\ σ' other
              = Profile.set_emotion_state (<["anger" := a2 + 0.05]> e2)
                  (σ other)
           /\ forall l, l <> actor -> l <> other -> σ' l = σ l)
        /\ (forall e1 joy trust,
              Profile.emotion_state (σ actor) = Some e1 ->
              e1 !! "joy" = Some joy ->
              Profile.attrs (σ other) !! "trust" = Some trust ->
              let σ' := (PvPArenaEnv_step 0 (σ, penv)).1.1 in
              σ' actor
              = Profile.set_emotion_state (<["joy" := joy + 0.05]> e1)
                  (σ actor)
              /\ σ' other
                 = Profile.set_attrs
                     (<["trust" := trust + 0.03]> (Profile.attrs (σ other)))
                     (σ other)
              /\ forall l, l <> actor -> l <> other -> σ' l = σ l)
        /\ (forall action,
              action = 0%Z \/ action = 1%Z ->
              Profile.emotion_state (σ actor) = None ->
              PvPArenaEnv_step action (σ, penv)
              = ((σ, penv), Raise (KeyError "emotion_state")))).
Proof.
  intros Hr.
  split.
  { split; [apply (reachable_env_inv _ _ Hr)|].
    split; [intros idx rnd;
            apply (reachable_env_inv _ _ (reach_step c env idx rnd Hr))|].
    split; [apply (reachable_env_inv _ _ (reach_reset c env Hr))|].
    intros sc. apply (reachable_env_inv _ _ (reach_scenario c env sc Hr)). }
  split; [apply mirage_reset_frame|].
  split.
  { intros action H0 H1.
    split; [apply mirage_step_frame|apply pvp_step_frame]; assumption. }
  split.
  { cbv zeta. intros Hlen. split; [|split].
    - intros trust reputation Ht Hrep.
      destruct (mirage_step_store σ menv 0 Hlen) as [-> _].
      rewrite (update_profile_0 σ
                 (set_current_step (current_step menv + 1) menv) trust
                 reputation Ht Hrep).
      cbn [fst snd profile set_current_step].
      rewrite fn_lookup_insert.
      repeat split; try reflexivity.
      intros l' Hl'. rewrite !fn_lookup_insert_ne by congruence. reflexivity.
    - intros trust e anger Ht He Ha.
      destruct (mirage_step_store σ menv 1 Hlen) as [-> _].
      rewrite (update_profile_1 σ
                 (set_current_step (current_step menv + 1) menv) trust
                 anger e Ht He Ha).
      cbn [fst snd profile set_current_step].
      rewrite fn_lookup_insert.
      repeat split; try reflexivity.
      intros l' Hl'. rewrite !fn_lookup_insert_ne by congruence. reflexivity.
    - intros action Ha Ht.
      destruct (mirage_step_store σ menv action Hlen) as [_ Hraise].
      rewrite (Hraise σ (KeyError "trust"));
        [split; reflexivity|].
      apply update_profile_no_trust; assumption. }
  intros actor other s Hactor Hother Hne Hs Hlen. split; [|split].
  - intros e1 a1 e2 a2 He1 Ha1 He2 Ha2. cbv zeta.
    set (p := Profile.set_emotion_state (<["anger" := a1 + 0.1]> e1)
                (σ actor)).
    assert (He2' : Profile.emotion_state ((<[actor := p]> σ) other) = Some e2)
      by (rewrite fn_lookup_insert_ne by exact Hne; exact He2).
    rewrite (pvp_step_store σ penv 1 actor other s _ _ _ _ Hactor Hother Hs
               Hlen (or_introl (conj eq_refl (conj eq_refl eq_refl)))
               (add_emotion_ok "anger" 0.1 a1 _ e1 He1 Ha1)
               (add_emotion_ok "anger" 0.05 a2 _ e2 He2' Ha2)).
    rewrite fn_lookup_insert.
    rewrite (fn_lookup_insert_ne _ other actor) by congruence.
    rewrite fn_lookup_insert.
    rewrite (fn_lookup_insert_ne _ actor other) by congruence.
    repeat split; try reflexivity.
    intros l Hl1 Hl2. rewrite !fn_lookup_insert_ne by congruence. reflexivity.
  - intros e1 joy trust He1 Hj Ht. cbv zeta.
    set (p := Profile.set_emotion_state (<["joy" := joy + 0.05]> e1)
                (σ actor)).
    assert (Ht' : Profile.attrs ((<[actor := p]> σ) other) !! "trust"
                  = Some trust)
      by (rewrite fn_lookup_insert_ne by exact Hne; exact Ht).
    rewrite (pvp_step_store σ penv 0 actor other s _ _ _ _ Hactor Hother Hs
               Hlen (or_intror (conj eq_refl (conj eq_refl eq_refl)))
               (add_emotion_ok "joy" 0.05 joy _ e1 He1 Hj)
               (add_attr_ok "trust" 0.03 trust _ Ht')).
    rewrite fn_lookup_insert.
    rewrite (fn_lookup_insert_ne _ other actor) by congruence.
    rewrite fn_lookup_insert.
    rewrite (fn_lookup_insert_ne _ actor other) by congruence.
    repeat split; try reflexivity.
    intros l Hl1 Hl2. rewrite !fn_lookup_insert_ne by congruence. reflexivity.
  - intros action Ha He.
    destruct Ha as [-> | ->].
    + apply (pvp_step_first_write_raises σ penv 0 actor s
               (Profile.add_emotion "joy" 0.05) _ Hactor Hs Hlen
               (or_intror (conj eq_refl eq_refl))).
      unfold Profile.add_emotion. rewrite He. reflexivity.
    + apply (pvp_step_first_write_raises σ penv 1 actor s
               (Profile.add_emotion "anger" 0.1) _ Hactor Hs Hlen
               (or_introl (conj eq_refl eq_refl))).
      unfold Profile.add_emotion. rewrite He. reflexivity.
Qed.

Lemma C5_profile_only_read_witness :
  let menv := MirageEnv_init sample_store 0 in
  let penv := PvPArenaEnv_init sample_store 0 1 in
  let emotions : gmap string Q :=
    list_to_map [("joy", 0.5); ("anger", 0.2); ("sadness", 0.1);
                 ("fear", 0.2)] in
  character (step one_step_env 0 zero_draw).1 = empty_profile
  /\ (MirageEnv_step 2 (sample_store, menv)).1.1 = sample_store
  /\ Profile.attrs ((MirageEnv_step 0 (sample_store, menv)).1.1 0%nat)
     = <["reputation" := 0.4 + 0.05]>
         (<["trust" := 0.6 + 0.05]> (Profile.attrs sample_profile))
  /\ Profile.emotion_state
       ((MirageEnv_step 1 (sample_store, menv)).1.1 0%nat)
     = Some (<["anger" := 0.2 + 0.05]> emotions)
  /\ (PvPArenaEnv_step 1 (sample_store, penv)).1.1 0%nat
     = Profile.set_emotion_state (<["anger" := 0.2 + 0.1]> emotions)
         sample_profile
  /\ (PvPArenaEnv_step 1 (sample_store, penv)).1.1 1%nat
     = Profile.set_emotion_state (<["anger" := 0.2 + 0.05]> emotions)
         sample_profile.
Proof.
  cbv zeta.
  destruct (C5_profile_only_read empty_profile one_step_env sample_store
              (MirageEnv_init sample_store 0)
              (PvPArenaEnv_init sample_store 0 1)
              (reach_init _ None 1 _ eq_refl))
    as ((_ & Hstep & _) & _ & Hframe & Hmirage & Hpvp).
  destruct (Hmirage eq_refl) as (H0 & H1 & _).
  destruct (Hpvp 0%nat 1%nat (build_state sample_profile)
              eq_refl eq_refl ltac:(discriminate) eq_refl eq_refl)
    as (Hconflict & _).
  split; [apply Hstep|].
  split; [apply (Hframe 2%Z); discriminate|].
  split; [apply (H0 0.6 0.4); reflexivity|].
  pose (emotions := list_to_map [("joy", 0.5); ("anger", 0.2);
                                 ("sadness", 0.1); ("fear", 0.2)]
                    : gmap string Q).
  split; [apply (H1 0.6 emotions 0.2); reflexivity|].
  split; apply (Hconflict emotions 0.2 emotions 0.2); reflexivity.
Defined.

End ProfileOnlyRead.

(** ** Section 4.7: the agent cache *)

Section AgentCache.

Import Registry Process.

(** A cached id is answered from the cache, and nothing is written. *)
Lemma get_agent_cached character_id env rnd (w : world) agent :
  AGENT_CACHE w !! character_id = Some agent ->
  get_agent_for_character character_id env rnd w = (w, Ok agent).
Proof.
  intros H. unfold get_agent_for_character. unfold_methods.
  cbn [fst snd]. rewrite H. reflexivity.
Qed.

(** A lookup keeps every cache entry and every agent object; a fresh
    object gets an address of its own. *)
Lemma get_agent_grows character_id env rnd (w : world) :
  let w' := (get_agent_for_character character_id env rnd w).1 in
  AGENT_CACHE w ⊆ AGENT_CACHE w' /\ heap w ⊆ heap w'
  /\ (cache_ok w -> cache_ok w').
Proof.
  cbv zeta. unfold get_agent_for_character. unfold_methods. cbn [fst snd].
  destruct (AGENT_CACHE w !! character_id) as [a|] eqn:Hc;
    [cbn [fst]; auto|].
  assert (Hnew : forall a,
    let w' := set_AGENT_CACHE
                (<[character_id := fresh (dom (heap w))]> (AGENT_CACHE w))
                (set_heap (<[fresh (dom (heap w)) := a]> (heap w)) w) in
    AGENT_CACHE w ⊆ AGENT_CACHE w' /\ heap w ⊆ heap w'
    /\ (cache_ok w -> cache_ok w')).
  { intros a. cbv zeta. cbn [AGENT_CACHE heap set_AGENT_CACHE set_heap].
    assert (Hf : heap w !! fresh (dom (heap w)) = None)
      by (apply not_elem_of_dom, is_fresh).
    split; [apply insert_subseteq, Hc|].
    split; [apply insert_subseteq, Hf|].
    intros Hok id l Hl. unfold cache_ok in Hok.
    cbn [AGENT_CACHE heap set_AGENT_CACHE set_heap] in *.
    apply lookup_insert_Some in Hl as [[_ <-]|[_ Hl]].
    - rewrite lookup_insert_eq. eauto.
    - destruct (Hok _ _ Hl) as [b Hb].
      exists b. apply (lookup_weaken _ _ _ _ Hb), insert_subseteq, Hf. }
  destruct (bool_decide _).
  - destruct (load_model _ _ rnd) as [a|e]; cbn [fst snd]; [|auto].
    apply Hnew.
  - destruct (CharacterEnvironment.get_state_dim env) as [sd|e];
      cbn [fst snd]; [|auto].
    apply Hnew.
Qed.

Lemma run_events_grows (es : list event) (w : world) :
  AGENT_CACHE w ⊆ AGENT_CACHE (run_events w es)
  /\ heap w ⊆ heap (run_events w es).
Proof.
  revert w. induction es as [|e es IH]; intros w; [split; reflexivity|].
  unfold run_events. cbn [foldl]. fold (run_events (run_event w e) es).
  destruct (IH (run_event w e)) as [Hc Hh].
  assert (AGENT_CACHE w ⊆ AGENT_CACHE (run_event w e)
          /\ heap w ⊆ heap (run_event w e)) as [Hc' Hh'].
  { destruct e as [id env rnd|fs]; cbn [run_event].
    - destruct (get_agent_grows id env rnd w) as (? & ? & _). auto.
    - split; reflexivity. }
  split; etrans; eassumption.
Qed.

(** What a lookup that returns has done. *)
Lemma get_agent_result character_id env rnd (w w1 : world) (l : nat) :
  get_agent_for_character character_id env rnd w = (w1, Ok l) ->
  AGENT_CACHE w1 !! character_id = Some l
  /\ match AGENT_CACHE w !! character_id with
     | Some l0 => l = l0 /\ w1 = w
     | None =>
         heap w !! l = None
         /\ files w1 = files w
         /\ exists a,
              heap w1 !! l = Some a
              /\ if bool_decide (is_Some (files w !! model_path w character_id))
                 then load_model (model_path w character_id) (files w) rnd
                      = Ok a
                 else exists sd,
                        CharacterEnvironment.get_state_dim env = Ok sd
                        /\ a = PPOAgent_default sd
                                 (CharacterEnvironment.action_dim env) rnd
     end.
Proof.
  unfold get_agent_for_character. unfold_methods. cbn [fst snd].
  destruct (AGENT_CACHE w !! character_id) as [l0|] eqn:Hc.
  - intros [= <- <-]. auto.
  - assert (Hf : heap w !! fresh (dom (heap w)) = None)
      by (apply not_elem_of_dom, is_fresh).
    destruct (bool_decide _).
    + destruct (load_model _ _ rnd) as [a|e] eqn:Hl; cbn [fst snd];
        [|discriminate].
      unfold new_agent. cbn [fst snd]. intros [= <- <-].
      cbn [AGENT_CACHE heap files set_AGENT_CACHE set_heap].
      split; [apply lookup_insert_eq|]. split; [exact Hf|].
      split; [reflexivity|]. exists a.
      split; [apply lookup_insert_eq|reflexivity].
    + destruct (CharacterEnvironment.get_state_dim env) as [sd|e];
        cbn [fst snd]; [|discriminate].
      unfold new_agent. cbn [fst snd]. intros [= <- <-].
      cbn [AGENT_CACHE heap files set_AGENT_CACHE set_heap].
      split; [apply lookup_insert_eq|]. split; [exact Hf|].
      split; [reflexivity|]. eexists.
      split; [apply lookup_insert_eq|]. eexists. split; reflexivity.
Qed.

(** C7. Let [get_agent_for_character] return for an id, in a process whose
    cache holds only addresses of agent objects (as it starts, and as every
    call keeps it).  The address returned is that of an agent object, and is
    recorded in [AGENT_CACHE] under the id.  If the id was not cached, the
    object is a new one, at an address nothing had, and it is the agent
    [load_model] read from the model file if that file exists, otherwise
    [PPOAgent(state_dim, action_dim)] for the environment's dimensions.
    Whatever calls follow -- lookups for this or any other id, successful or
    not, with any environment and draw, and any change of the files -- a
    further call with the id returns the same address, which still holds
    the same agent, and changes nothing: no second agent is created. *)
Theorem C7_get_agent_idempotent (character_id : Z)
    (env env' : CharacterEnvironment.t) (rnd rnd' : init_draw)
    (w w1 : world) (l : nat) (between : list event) :
  cache_ok w ->
  get_agent_for_character character_id env rnd w = (w1, Ok l) ->
  exists a,
    heap w1 !! l = Some a
    /\ AGENT_CACHE w1 !! character_id = Some l
    /\ (AGENT_CACHE w !! character_id = None ->
        heap w !! l = None
        /\ if bool_decide (is_Some (files w !! model_path w character_id))
           then load_model (model_path w character_id) (files w) rnd = Ok a
           else exists sd,
                  CharacterEnvironment.get_state_dim env = Ok sd
                  /\ a = PPOAgent_default sd
                           (CharacterEnvironment.action_dim env) rnd)
    /\ let w2 := run_events w1 between in
       get_agent_for_character character_id env' rnd' w2 = (w2, Ok l)
       /\ heap w2 !! l = Some a.
Proof.
  intros Hok H1.
  destruct (get_agent_result _ _ _ _ _ _ H1) as (Hc1 & Hres).
  assert (Ha : exists a, heap w1 !! l = Some a
              /\ (AGENT_CACHE w !! character_id = None ->
                  heap w !! l = None
                  /\ if bool_decide
                          (is_Some (files w !! model_path w character_id))
                     then load_model (model_path w character_id) (files w)
                            rnd = Ok a
                     else exists sd,
                            CharacterEnvironment.get_state_dim env = Ok sd
                            /\ a = PPOAgent_default sd
                                     (CharacterEnvironment.action_dim env)
                                     rnd)).
  { destruct (AGENT_CACHE w !! character_id) as [l0|] eqn:Hc.
    - destruct Hres as [-> ->]. destruct (Hok _ _ Hc) as [a Ha].
      exists a. split; [exact Ha|discriminate].
    - destruct Hres as (Hf & _ & a & Ha & Hwhich).
      exists a. split; [exact Ha|]. intros _. split; assumption. }
  destruct Ha as (a & Ha & Hnew).
  exists a. split; [exact Ha|]. split; [exact Hc1|]. split; [exact Hnew|].
  cbv zeta. destruct (run_events_grows between w1) as [Hc Hh].
  split.
  - apply get_agent_cached. apply (lookup_weaken _ _ _ _ Hc1 Hc).
  - apply (lookup_weaken _ _ _ _ Ha Hh).
Qed.

Lemma C7_get_agent_idempotent_witness :
  let w1 := (get_agent_for_character 7 one_step_env
               (const_init 21 10 64 0) empty_world).1 in
  exists a,
    heap w1 !! 0%nat = Some a
    /\ AGENT_CACHE w1 !! 7%Z = Some 0%nat
    /\ (AGENT_CACHE empty_world !! 7%Z = None ->
        heap empty_world !! 0%nat = None
        /\ if bool_decide (is_Some (files empty_world
                                      !! model_path empty_world 7))
           then load_model (model_path empty_world 7) (files empty_world)
                  (const_init 21 10 64 0) = Ok a
           else exists sd,
                  CharacterEnvironment.get_state_dim one_step_env = Ok sd
                  /\ a = PPOAgent_default sd
                           (CharacterEnvironment.action_dim one_step_env)
                           (const_init 21 10 64 0))
    /\ let w2 := run_events w1 [Lookup 8 one_step_env (const_init 21 10 64 1);
                                Files ∅] in
       get_agent_for_character 7 sample_env (const_init 21 10 64 1) w2
       = (w2, Ok 0%nat)
       /\ heap w2 !! 0%nat = Some a.
Proof.
  apply (C7_get_agent_idempotent 7 one_step_env sample_env
           (const_init 21 10 64 0) (const_init 21 10 64 1) empty_world _
           0%nat
           [Lookup 8 one_step_env (const_init 21 10 64 1); Files ∅]).
  - intros id l H. discriminate H.
  - vm_compute. reflexivity.
Defined.
End AgentCache.

(** ** Section 6: save and load *)

Section SaveLoad.

Import Registry.

Lemma load_linear_same (self sd : Linear) :
  same_shape self sd = true -> load_linear self sd = Ok sd.
Proof.
  unfold load_linear, same_shape, shape. intros H. rewrite H.
  apply bool_decide_eq_true in H. injection H as Ho Hi.
  destruct sd as [i o w b]. cbn in *. subst. reflexivity.
Qed.

Lemma load_state_dict_same (self sd : PPOPolicy) :
  same_shape (shared_layers_0 self) (shared_layers_0 sd) = true ->
  same_shape (shared_layers_2 self) (shared_layers_2 sd) = true ->
  same_shape (actor_head_0 self) (actor_head_0 sd) = true ->
  same_shape (critic_head_0 self) (critic_head_0 sd) = true ->
  load_state_dict self sd = Ok sd.
Proof.
  intros H0 H2 Ha Hc. unfold load_state_dict.
  rewrite (load_linear_same _ _ H0), (load_linear_same _ _ H2),
    (load_linear_same _ _ Ha), (load_linear_same _ _ Hc).
  destruct sd. reflexivity.
Qed.

Lemma has_dims_fresh sd ad hd rnd (P : PPOPolicy) :
  has_dims sd ad hd P = true ->
  load_state_dict (PPOPolicy_init sd ad hd rnd) P = Ok P.
Proof.
  unfold has_dims. intros H.
  apply andb_true_iff in H as [H Hc].
  apply andb_true_iff in H as [H Ha].
  apply andb_true_iff in H as [H0 H2].
  apply bool_decide_eq_true in H0, H2, Ha, Hc.
  apply load_state_dict_same; unfold same_shape; apply bool_decide_eq_true;
    [rewrite H0|rewrite H2|rewrite Ha|rewrite Hc]; reflexivity.
Qed.

Lemma checkpoint_lookups (a : PPOAgent) :
  checkpoint_of a !! "state_dim" = Some (V_int (PPO.state_dim a))
  /\ checkpoint_of a !! "action_dim" = Some (V_int (PPO.action_dim a))
  /\ checkpoint_of a !! "policy_state_dict" = Some (V_policy (policy a))
  /\ checkpoint_of a !! "optimizer_state_dict"
     = Some (V_optimizer (optimizer a)).
Proof.
  unfold checkpoint_of. repeat split; simplify_map_eq; reflexivity.
Qed.

Lemma checkpoint_dom (a : PPOAgent) : dom (checkpoint_of a) = checkpoint_keys.
Proof.
  unfold checkpoint_of, checkpoint_keys.
  rewrite !dom_insert_L, dom_empty_L. set_solver.
Qed.

Lemma load_linear_other (self sd : Linear) :
  shape self <> shape sd -> load_linear self sd = Raise RuntimeError.
Proof.
  intros H. unfold load_linear, same_shape.
  rewrite bool_decide_eq_false_2 by exact H. reflexivity.
Qed.

(** C8. [save_model] writes one file: a dict with exactly the keys
    [policy_state_dict], [optimizer_state_dict], [state_dim] and
    [action_dim], holding the agent's own values; the hidden width is not
    among them.  [load_model] rebuilds the agent from the two dimensions
    with the default width 64, so for every agent built with another
    [hidden_dim] the stored tensors do not fit and [load_model] of the
    agent's own file raises [RuntimeError]: no agent comes back. *)
Theorem C8_load_model_drops_hidden_dim (a : PPOAgent) (hidden_dim : nat)
    (path : string) (fs : gmap string file) (rnd : init_draw) :
  agent_dims hidden_dim a = true ->
  hidden_dim <> default_hidden_dim ->
  let fs' := save_model a path fs in
  fs' !! path = Some (Pickle (checkpoint_of a))
  /\ dom (checkpoint_of a) = checkpoint_keys
  /\ checkpoint_of a !! "policy_state_dict" = Some (V_policy (policy a))
  /\ checkpoint_of a !! "optimizer_state_dict"
     = Some (V_optimizer (optimizer a))
  /\ checkpoint_of a !! "state_dim" = Some (V_int (PPO.state_dim a))
  /\ checkpoint_of a !! "action_dim" = Some (V_int (PPO.action_dim a))
  /\ load_model path fs' rnd = Raise RuntimeError.
Proof.
  intros Hd Hne fs'.
  destruct (checkpoint_lookups a) as (Ls & La & Lp & Lo).
  assert (Hfs : fs' !! path = Some (Pickle (checkpoint_of a)))
    by (unfold fs', save_model; apply lookup_insert_eq).
  split; [exact Hfs|]. split; [apply checkpoint_dom|].
  split; [exact Lp|]. split; [exact Lo|]. split; [exact Ls|].
  split; [exact La|].
  unfold load_model, torch_load. rewrite Hfs.
  unfold mbind, res_bind, Py.bind, getitem.
  rewrite Ls, La, Lp. cbn [as_int as_policy].
  unfold agent_dims, has_dims in Hd.
  apply andb_true_iff in Hd as [Hd _]. apply andb_true_iff in Hd as [Hd _].
  apply andb_true_iff in Hd as [Hd _]. apply bool_decide_eq_true in Hd.
  unfold load_state_dict, mbind, res_bind, Py.bind.
  rewrite load_linear_other; [reflexivity|].
  unfold PPOAgent_default, PPOAgent_init, PPOPolicy_init. cbn [policy shared_layers_0].
  rewrite Hd. unfold shape, Linear_init. cbn [out_features in_features].
  intros [= E]. auto.
Qed.

Lemma C8_load_model_drops_hidden_dim_witness :
  let a := half_width_agent in
  let fs' := save_model a "agent_7.pt" ∅ in
  fs' !! "agent_7.pt" = Some (Pickle (checkpoint_of a))
  /\ dom (checkpoint_of a) = checkpoint_keys
  /\ checkpoint_of a !! "policy_state_dict" = Some (V_policy (policy a))
  /\ checkpoint_of a !! "optimizer_state_dict"
     = Some (V_optimizer (optimizer a))
  /\ checkpoint_of a !! "state_dim" = Some (V_int (PPO.state_dim a))
  /\ checkpoint_of a !! "action_dim" = Some (V_int (PPO.action_dim a))
  /\ load_model "agent_7.pt" fs' (const_init 21 10 64 0) = Raise RuntimeError.
Proof.
  apply (C8_load_model_drops_hidden_dim half_width_agent 32 "agent_7.pt" ∅
           (const_init 21 10 64 0)).
  - reflexivity.
  - discriminate.
Defined.

End SaveLoad.

(** ** Section 4.2: the action distribution *)

Section Distribution.

Import Float32.

Local Open Scope R_scope.

































Lemma Softmax32_length (x : vec) : length (Softmax32 x) = length x.
Proof. unfold Softmax32. cbv zeta. rewrite !length_map. reflexivity. Qed.

Lemma linear32_shaped (L : Linear) (x : vec) :
  shaped L = true ->
  length x = in_features L ->
  exists y, linear32 L x = Ok y /\ length y = out_features L.
Proof.
  unfold shaped, linear32. intros H Hx.
  apply andb_true_iff in H as [H _].
  apply andb_true_iff in H as [Hw Hb].
  apply Nat.eqb_eq in Hw, Hb.
  rewrite Hx, Nat.eqb_refl. eexists. split; [reflexivity|].
  rewrite length_zip_with, length_map. unfold vec, mat in *. lia.
Qed.

Lemma Tanh32_length (x : vec) : length (Tanh32 x) = length x.
Proof. apply length_map. Qed.


Lemma has_dims_inversion sd ad hd (P : PPOPolicy) :
  has_dims sd ad hd P = true ->
  shape (shared_layers_0 P) = (hd, sd)
  /\ shape (shared_layers_2 P) = (hd, hd)
  /\ shape (actor_head_0 P) = (ad, hd)
  /\ shape (critic_head_0 P) = (1%nat, hd).
Proof.
  unfold has_dims. intros Hd.
  apply andb_true_iff in Hd as [Hd Hdc].
  apply andb_true_iff in Hd as [Hd Hda].
  apply andb_true_iff in Hd as [Hd0 Hd2].
  apply bool_decide_eq_true in Hd0, Hd2, Hda, Hdc. auto.
Qed.


Lemma forward32_shaped (P : PPOPolicy) (sd ad hd : nat) (state : vec) :
  shaped_policy P = true ->
  has_dims sd ad hd P = true ->
  length state = sd ->
  exists logits state_value,
    forward32 P state = Ok (Softmax32 logits, state_value)
    /\ length logits = ad.
Proof.
  intros Hs Hd Hlen.
  unfold shaped_policy in Hs.
  apply andb_true_iff in Hs as [Hs Hsc].
  apply andb_true_iff in Hs as [Hs Hsa].
  apply andb_true_iff in Hs as [Hs0 Hs2].
  apply has_dims_inversion in Hd as (Hd0 & Hd2 & Hda & Hdc).
  unfold shape in *.
  injection Hd0 as Ho0 Hi0. injection Hd2 as Ho2 Hi2.
  injection Hda as Hoa Hia. injection Hdc as Hoc Hic.
  destruct (linear32_shaped _ state Hs0) as (h1 & E1 & L1); [congruence|].
  destruct (linear32_shaped _ (Tanh32 h1) Hs2) as (h2 & E2 & L2);
    [rewrite Tanh32_length; congruence|].
  destruct (linear32_shaped _ (Tanh32 h2) Hsa) as (logits & Ea & La);
    [rewrite Tanh32_length; congruence|].
  destruct (linear32_shaped _ (Tanh32 h2) Hsc) as (value & Ec & Lc);
    [rewrite Tanh32_length; congruence|].
  exists logits, value. split; [|congruence].
  unfold forward32, mbind, res_bind, Py.bind.
  rewrite E1, E2, Ea, Ec. reflexivity.
Qed.



End Distribution.

(** ** Further properties of [CharacterEnvironment] *)

Section EnvironmentMore.

Local Open Scope Q_scope.

(** X1. The constructor raises [ZeroDivisionError] exactly when
    [max_steps] is 0.  Otherwise it returns an environment with the
    profile and horizon given, the counter at 0, the state of [reset], the
    caller's action list -- the ten default actions for [None] and for the
    empty list -- and a state vector of 21 entries. *)
Theorem X1_constructor (c : Profile.t) (sp : option (list string))
    (ms : Z) :
  (ms = 0%Z -> init c sp ms = Raise ZeroDivisionError)
  /\ (ms <> 0%Z ->
      exists env,
        init c sp ms = Ok env
        /\ character env = c /\ max_steps env = ms
        /\ current_step env = 0%Z
        /\ state env = initial_state c
        /\ action_space env
           = match sp with
             | Some (a :: l) => a :: l
             | _ => default_action_space
             end
        /\ action_dim env = length (action_space env)
        /\ get_state_dim env = Ok 21%nat).
Proof.
  split; intros H.
  - subst ms. reflexivity.
  - apply Z.eqb_neq in H.
    set (space := match sp with
                  | Some (a :: l) => a :: l
                  | _ => default_action_space
                  end).
    exists {| character := c; action_space := space;
              action_dim := length space; max_steps := ms;
              current_step := 0; state := initial_state c |}.
    split.
    + unfold init, reset, get_state_vector.
      cbn [max_steps set_state set_current_step character fst snd].
      rewrite H. reflexivity.
    + unfold get_state_dim, get_state_vector. cbn [max_steps]. rewrite H.
      repeat split; reflexivity.
Qed.

Lemma X1_constructor_witness :
  exists env,
    init empty_profile (Some []) 1 = Ok env
    /\ character env = empty_profile /\ max_steps env = 1%Z
    /\ current_step env = 0%Z
    /\ state env = initial_state empty_profile
    /\ action_space env = default_action_space
    /\ action_dim env = length (action_space env)
    /\ get_state_dim env = Ok 21%nat.
Proof.
  apply (proj2 (X1_constructor empty_profile (Some []) 1)). lia.
Defined.

(** X2. An action name outside the ten that [_calculate_outcome] knows
    -- a caller's own action list may hold any -- makes [step] raise
    [UnboundLocalError] for the variable [outcome]; by then the counter has
    moved on by one, while the state and its history are as before. *)
Theorem X2_step_unknown_action (env : CharacterEnvironment.t) (idx : Z)
    (rnd : step_draw) (action : string) :
  index (action_space env) idx = Ok action ->
  known_action action = false ->
  step env idx rnd
  = (set_current_step (current_step env + 1) env,
     Raise (UnboundLocalError "outcome")).
Proof.
  intros Hidx Hk. unfold step. rewrite Hidx.
  unfold _calculate_outcome.
  rewrite (unknown_action_table action Hk). reflexivity.
Qed.

End EnvironmentMore.

Section EnvironmentInvariants.

Local Open Scope Q_scope.

Lemma step_unknown_action env idx rnd action :
  index (action_space env) idx = Ok action ->
  known_action action = false ->
  step env idx rnd
  = (set_current_step (current_step env + 1) env,
     Raise (UnboundLocalError "outcome")).
Proof.
  intros Hidx Hk. unfold step. rewrite Hidx.
  unfold _calculate_outcome.
  rewrite (unknown_action_table action Hk). reflexivity.
Qed.

(** The entry a returning step appends. *)
Lemma step_history env idx rnd r :
  (step env idx rnd).2 = Ok r ->
  history (state (step env idx rnd).1)
  = history (state env)
    ++ [{| h_step := current_step env + 1; h_action := info_action r;
           h_outcome := info_outcome r; h_reward := reward r |}].
Proof.
  unfold step.
  destruct (index (action_space env) idx) as [action|e];
    [|cbn; discriminate].
  destruct (_calculate_outcome _ action (draw_success rnd))
    as [[outcome rw]|e]; [|cbn; discriminate].
  destruct (get_state_vector _) as [v|e]; [|cbn; discriminate].
  cbn [fst snd]. intros [= <-].
  cbn [state set_state history set_history current_step set_current_step
       info_action info_outcome reward].
  rewrite history_update_state. reflexivity.
Qed.

(** X3. In a reachable environment a step that returns appends exactly
    one entry to the history, after the entries already there: the new
    counter, and the action, outcome and reward that the call returns.  A
    step that raises leaves the history as it was. *)
Theorem X3_history_append_only (c : Profile.t)
    (env : CharacterEnvironment.t) (idx : Z) (rnd : step_draw) :
  reachable c env ->
  match (step env idx rnd).2 with
  | Ok r =>
      history (state (step env idx rnd).1)
      = history (state env)
        ++ [{| h_step := current_step env + 1; h_action := info_action r;
               h_outcome := info_outcome r; h_reward := reward r |}]
  | Raise _ =>
      history (state (step env idx rnd).1) = history (state env)
  end.
Proof.
  intros Hr.
  pose proof (reachable_env_inv _ _ Hr) as (_ & Hm & _).
  destruct (step env idx rnd).2 as [r|e] eqn:E.
  - apply step_history. exact E.
  - revert E. unfold step.
    destruct (index (action_space env) idx) as [action|e0];
      [|reflexivity].
    destruct (_calculate_outcome _ action (draw_success rnd))
      as [[outcome rw]|e0]; [|reflexivity].
    unfold get_state_vector. cbn [max_steps set_state set_current_step].
    apply Z.eqb_neq in Hm. rewrite Hm. cbn [fst snd]. discriminate.
Qed.

Lemma X3_history_append_only_witness :
  match (step one_step_env 0 zero_draw).2 with
  | Ok r =>
      history (state (step one_step_env 0 zero_draw).1)
      = history (state one_step_env)
        ++ [{| h_step := current_step one_step_env + 1;
               h_action := info_action r;
               h_outcome := info_outcome r; h_reward := reward r |}]
  | Raise _ =>
      history (state (step one_step_env 0 zero_draw).1)
      = history (state one_step_env)
  end.
Proof.
  apply (X3_history_append_only empty_profile one_step_env 0 zero_draw).
  apply (reach_init _ None 1). reflexivity.
Defined.

Lemma index_elem_of {A} (l : list A) (i : Z) (a : A) :
  index l i = Ok a -> a ∈ l.
Proof.
  unfold index. destruct (_ && _); [|discriminate].
  destruct (l !! _) as [x|] eqn:E; [|discriminate].
  intros [= <-]. eapply list_elem_of_lookup_2. exact E.
Qed.

(** X4. When every action of the list is one of the ten known ones (as
    with the default list), the history of a reachable environment has
    exactly one entry per counted step: its length is the step counter. *)
Theorem X4_history_length_is_counter (c : Profile.t)
    (env : CharacterEnvironment.t) :
  reachable c env ->
  Forall (fun a => known_action a = true) (action_space env) ->
  Z.of_nat (length (history (state env))) = current_step env.
Proof.
  induction 1 as [sp ms env Hinit | env H IH | env idx rnd H IH
                 | env sc H IH]; intros Hk.
  - apply init_inversion in Hinit as (_ & _ & _ & Hc & Hs & _).
    rewrite Hs, Hc. reflexivity.
  - reflexivity.
  - destruct (step_shape env idx rnd) as (_ & Es & _ & _ & _).
    rewrite Es in Hk. specialize (IH Hk).
    pose proof (reachable_env_inv _ _ H) as (_ & Hm & _).
    destruct (index (action_space env) idx) as [action|e] eqn:Hidx.
    + assert (Hka : known_action action = true).
      { rewrite Forall_forall in Hk. apply Hk.
        eapply index_elem_of. exact Hidx. }
      destruct (step_returns env idx rnd action Hidx Hka Hm)
        as (r & _ & Hcs & Hlen & _).
      rewrite Hcs, Hlen. lia.
    + rewrite (step_index_error env idx rnd e Hidx). exact IH.
  - unfold configure_scenario.
    cbn [state set_state current_step action_space] in *.
    specialize (IH Hk). rewrite <- IH. f_equal. f_equal.
    apply frames_apply. unfold configure_scenario_state.
    split_stmt; intro; reflexivity.
Qed.

Lemma X4_history_length_is_counter_witness :
  Z.of_nat (length (history (state (step one_step_env 0 zero_draw).1)))
  = current_step (step one_step_env 0 zero_draw).1.
Proof.
  apply (X4_history_length_is_counter empty_profile).
  - apply reach_step. apply (reach_init _ None 1). reflexivity.
  - repeat constructor.
Defined.

End EnvironmentInvariants.

Section EnvironmentBounds.

Local Open Scope Q_scope.

Ltac state_fields :=
  cbn [health energy wealth reputation happiness stress trust emotions
       environment history joy anger sadness fear
       set_health set_energy set_wealth set_reputation set_happiness
       set_stress set_trust set_emotions set_environment set_history
       set_joy set_anger set_sadness set_fear set_threat_level
       set_opportunity set_social_pressure set_time_pressure] in *.

Lemma scalars_update_state action outcome rnd :
  preserves scalars_in_range (_update_state action outcome rnd).
Proof.
  unfold _update_state.
  split_stmt;
    (intros s (Hh & He & Hw & Hr & Hp & Hs & Ht & Hj & Ha & Hsd & Hf);
     unfold scalars_in_range, assign; state_fields;
     repeat split; try assumption; try tauto; py_minmax; lra).
Qed.

Lemma scalars_configure_scenario scenario :
  preserves scalars_in_range (configure_scenario_state scenario).
Proof.
  unfold configure_scenario_state.
  split_stmt;
    (intros s (Hh & He & Hw & Hr & Hp & Hs & Ht & Hj & Ha & Hsd & Hf);
     unfold scalars_in_range, assign; state_fields;
     repeat split; try assumption; try tauto; lra).
Qed.

Lemma get_in_range (d : gmap string Q) (k : string) (default : Q) :
  (forall v, d !! k = Some v -> 0 <= v <= 1) ->
  0 <= default <= 1 ->
  0 <= get d k default <= 1.
Proof.
  intros H Hd. unfold get. destruct (d !! k) as [v|]; auto.
Qed.

Lemma scalars_initial_state c :
  profile_in_range c -> scalars_in_range (initial_state c).
Proof.
  intros [Ha He]. unfold scalars_in_range, initial_state. state_fields.
  assert (Hattr : forall k, k ∈ ["wealth"; "reputation"; "trust"] ->
                  0 <= get (Profile.attrs c) k 0.5 <= 1).
  { intros k Hk. apply get_in_range; [intros v; apply Ha; exact Hk|lra]. }
  assert (Hemo : forall k,
                  0 <= get (Profile.emotion_state_or_empty c) k 0.25 <= 1).
  { intros k. apply get_in_range; [intros v; apply He|lra]. }
  split; [lra|]. split; [lra|].
  split; [apply Hattr; repeat constructor|]. split; [apply Hattr; repeat constructor|].
  split; [lra|]. split; [lra|]. split; [apply Hattr; repeat constructor|].
  repeat split; apply Hemo.
Qed.

(** X5. If the profile's wealth, reputation, trust and emotions lie in
    [0, 1] where present, then in every reachable environment the state's
    health, energy, wealth, reputation, happiness, stress and trust and
    its four emotions (joy, anger, sadness, fear) lie in [0, 1], with
    health and energy not below 0.1. *)
Theorem X5_state_scalars_bounded (c : Profile.t)
    (env : CharacterEnvironment.t) :
  reachable c env ->
  profile_in_range c ->
  scalars_in_range (state env).
Proof.
  intros Hr Hc.
  induction Hr as [sp ms env Hinit | env H IH | env idx rnd H IH
                  | env sc H IH].
  - apply init_inversion in Hinit as (_ & _ & _ & _ & Hs & _).
    rewrite Hs. apply scalars_initial_state, Hc.
  - pose proof (reachable_env_inv _ _ H) as (Ec & _).
    unfold reset. cbn [fst state set_state set_current_step character].
    rewrite Ec. apply scalars_initial_state, Hc.
  - destruct (step_shape env idx rnd) as (_ & _ & _ & _ & Hst).
    destruct Hst as [-> | (action & outcome & entry & ->)]; [exact IH|].
    apply (scalars_update_state action outcome rnd) in IH.
    exact IH.
  - unfold configure_scenario. cbn [state set_state].
    apply scalars_configure_scenario, IH.
Qed.

Lemma sample_profile_in_range : profile_in_range sample_profile.
Proof.
  split.
  - intros k v Hk H.
    repeat (apply elem_of_cons in Hk as [->|Hk];
            [vm_compute in H; injection H as <-; split; discriminate|]).
    inversion Hk.
  - intros k v H. unfold Profile.emotion_state_or_empty, sample_profile in H.
    cbn [Profile.emotion_state default] in H.
    apply elem_of_list_to_map_2 in H.
    repeat (apply elem_of_cons in H as [[= _ ->]|H]; [split; discriminate|]).
    inversion H.
Defined.

Lemma X5_state_scalars_bounded_witness :
  scalars_in_range (state (step sample_env 0 zero_draw).1).
Proof.
  apply (X5_state_scalars_bounded sample_profile).
  - apply reach_step. apply (reach_init _ None 1). reflexivity.
  - apply sample_profile_in_range.
Defined.

Lemma energy_update_state action outcome rnd s :
  energy (_update_state action outcome rnd s)
  = if contains "失败" outcome || contains "错失" outcome
       || contains "损失" outcome
    then Py.max 0.1 (energy s - 0.1) else energy s.
Proof.
  unfold _update_state.
  repeat rewrite block_cons. rewrite block_nil.
  skip_frames energy.
  unfold when at 1. destruct (_ || _); [|reflexivity].
  repeat rewrite block_cons. rewrite block_nil.
  skip_frames energy. unfold assign at 1. reflexivity.
Qed.

Lemma reachable_energy_floor c env :
  reachable c env -> 0.1 <= energy (state env).
Proof.
  induction 1 as [sp ms env Hinit | env H IH | env idx rnd H IH
                 | env sc H IH].
  - apply init_inversion in Hinit as (_ & _ & _ & _ & Hs & _).
    rewrite Hs. cbn [initial_state energy]. lra.
  - unfold reset. cbn [fst state set_state initial_state energy]. lra.
  - destruct (step_shape env idx rnd) as (_ & _ & _ & _ & Hst).
    destruct Hst as [-> | (action & outcome & entry & ->)]; [exact IH|].
    cbn [energy set_history]. rewrite energy_update_state.
    destruct (_ || _); [py_minmax; lra | exact IH].
  - unfold configure_scenario. cbn [state set_state].
    rewrite (frames_apply energy); [exact IH|].
    unfold configure_scenario_state. split_stmt; intro; reflexivity.
Qed.

(** X6. No step restores energy: across every step of a reachable
    environment energy does not grow, and it loses at most 0.1 and never
    falls below 0.1; only [reset] brings it back to 1.0. *)
Theorem X6_energy_never_recovers (c : Profile.t)
    (env : CharacterEnvironment.t) (idx : Z) (rnd : step_draw) :
  reachable c env ->
  energy (state env) - 0.1 <= energy (state (step env idx rnd).1)
  /\ 0.1 <= energy (state (step env idx rnd).1)
  /\ energy (state (step env idx rnd).1) <= energy (state env)
  /\ energy (state (reset env).1) = 1.0.
Proof.
  intros Hr.
  pose proof (reachable_energy_floor c env Hr) as He.
  destruct (step_shape env idx rnd) as (_ & _ & _ & _ & Hst).
  destruct Hst as [-> | (action & outcome & entry & ->)].
  - repeat split; try lra.
  - cbn [energy set_history]. rewrite energy_update_state.
    destruct (_ || _); repeat split; try reflexivity; py_minmax; lra.
Qed.

Lemma X6_energy_never_recovers_witness :
  energy (state one_step_env) - 0.1
  <= energy (state (step one_step_env 0 zero_draw).1)
  /\ 0.1 <= energy (state (step one_step_env 0 zero_draw).1)
  /\ energy (state (step one_step_env 0 zero_draw).1)
     <= energy (state one_step_env)
  /\ energy (state (reset one_step_env).1) = 1.0.
Proof.
  apply (X6_energy_never_recovers empty_profile one_step_env 0 zero_draw).
  apply (reach_init _ None 1). reflexivity.
Defined.

End EnvironmentBounds.

(** Evaluates the comparisons of two literal action names. *)
Ltac eval_eqb :=
  repeat match goal with
         | |- context [String.eqb ?a ?b] =>
             let v := eval vm_compute in (String.eqb a b) in
             change (String.eqb a b) with v
         end;
  cbn [orb andb]; cbv iota.

(** Case analysis on the action name, as the [if]/[elif] chains do it. *)
Ltac by_action action :=
  match goal with
  | |- context [String.eqb action ?s] =>
      let E := fresh "E" in
      destruct (String.eqb action s) eqn:E;
      [apply String.eqb_eq in E; subst action; eval_eqb
      |by_action action]
  | _ => idtac
  end.

Section OutcomeAndReset.

Local Open Scope Q_scope.

(** X7. With the traits O and A in [0, 1], the sign of the reward tells
    the polarity of the outcome: when the draw is below the success
    probability the reward lies in [0.25, 2.75], otherwise in
    [-2.25, -0.25]. *)
Theorem X7_reward_sign_and_bounds (self : CharacterEnvironment.t)
    (action : string) (r : Q) (outcome : string) (rw : Q) :
  traits_in_range (character self) ->
  _calculate_outcome self action r = Ok (outcome, rw) ->
  (ltb r (success_prob self action) = true /\ 0.25 <= rw <= 2.75)
  \/ (ltb r (success_prob self action) = false /\ -2.25 <= rw <= -0.25).
Proof.
  intros [Ho Ha] H. unfold _calculate_outcome in H.
  destruct (ltb r (success_prob self action)); [left|right];
    (split; [reflexivity|]);
    revert H; unfold outcome_table, trait_bonus;
    set (o := get (Profile.attrs (character self)) "O" 0.5) in *;
    set (a := get (Profile.attrs (character self)) "A" 0.5) in *;
    by_action action;
    try discriminate; intros [= <- <-]; lra.
Qed.

Lemma empty_profile_traits : traits_in_range empty_profile.
Proof. repeat split; vm_compute; discriminate. Defined.

Lemma X7_reward_sign_and_bounds_witness :
  (ltb 0 (success_prob one_step_env "合作") = true /\ 0.25 <= 1.5000 <= 2.75)
  \/ (ltb 0 (success_prob one_step_env "合作") = false
      /\ -2.25 <= 1.5000 <= -0.25).
Proof.
  apply (X7_reward_sign_and_bounds one_step_env "合作" 0
           "成功建立了合作关系" 1.5000).
  - apply empty_profile_traits.
  - vm_compute. reflexivity.
Defined.

(** X8. Whatever the action and the profile, a draw below 0.1 is a
    success and a draw of 0.9 or more is a failure: [_calculate_outcome]
    then returns the success or the failure entry of the action's table. *)
Theorem X8_extreme_draws_decide (self : CharacterEnvironment.t)
    (action : string) (r : Q) :
  (r < 0.1 ->
   ltb r (success_prob self action) = true
   /\ _calculate_outcome self action r
      = match outcome_table action true with
        | Some (outcome, reward) =>
            Ok (outcome, reward + trait_bonus self action)
        | None => Raise (UnboundLocalError "outcome")
        end)
  /\ (0.9 <= r ->
      ltb r (success_prob self action) = false
      /\ _calculate_outcome self action r
         = match outcome_table action false with
           | Some (outcome, reward) =>
               Ok (outcome, reward + trait_bonus self action)
           | None => Raise (UnboundLocalError "outcome")
           end).
Proof.
  pose proof (clamp_range 0.1 0.9 (adjusted_prob self action)) as Hp.
  fold (success_prob self action) in Hp.
  assert (H1 : 0.1 <= 0.9) by lra. specialize (Hp H1).
  split; intros Hr.
  - assert (E : ltb r (success_prob self action) = true).
    { unfold ltb. destruct (Qlt_le_dec _ _); [reflexivity|lra]. }
    split; [exact E|]. unfold _calculate_outcome. rewrite E. reflexivity.
  - assert (E : ltb r (success_prob self action) = false).
    { unfold ltb. destruct (Qlt_le_dec _ _); [lra|reflexivity]. }
    split; [exact E|]. unfold _calculate_outcome. rewrite E. reflexivity.
Qed.

Lemma X8_extreme_draws_decide_witness :
  ltb 0 (success_prob one_step_env "合作") = true
  /\ _calculate_outcome one_step_env "合作" 0
     = match outcome_table "合作" true with
       | Some (outcome, reward) =>
           Ok (outcome, reward + trait_bonus one_step_env "合作")
       | None => Raise (UnboundLocalError "outcome")
       end.
Proof.
  apply (proj1 (X8_extreme_draws_decide one_step_env "合作" 0)). lra.
Defined.

(** X9. Resetting a reachable environment gives exactly the environment
    the constructor builds for the same profile, action list and horizon:
    nothing of the finished episode survives [reset]. *)
Theorem X9_reset_is_fresh (c : Profile.t) (env : CharacterEnvironment.t) :
  reachable c env ->
  init c (Some (action_space env)) (max_steps env) = Ok (reset env).1.
Proof.
  intros Hr.
  pose proof (reachable_env_inv _ _ Hr) as (Hc & Hm & Ha & Hne & _).
  unfold init, reset, get_state_vector.
  cbn [max_steps set_state set_current_step character fst snd].
  apply Z.eqb_neq in Hm. rewrite Hm.
  destruct env as [ch sp ad ms cs st].
  cbn [action_space character action_dim max_steps] in *.
  destruct sp as [|a l]; [congruence|]. subst. reflexivity.
Qed.

Lemma X9_reset_is_fresh_witness :
  init empty_profile (Some (action_space (step one_step_env 0 zero_draw).1))
    (max_steps (step one_step_env 0 zero_draw).1)
  = Ok (reset (step one_step_env 0 zero_draw).1).1.
Proof.
  apply (X9_reset_is_fresh empty_profile).
  apply reach_step. apply (reach_init _ None 1). reflexivity.
Defined.

(** X10. [configure_scenario] is idempotent, and of the environment it
    changes only pressures and emotions: profile, action list, horizon,
    counter, the seven attributes and the history stay as they are. *)
Theorem X10_configure_scenario_idempotent (env : CharacterEnvironment.t)
    (scenario : string) :
  let env' := configure_scenario env scenario in
  configure_scenario env' scenario = env'
  /\ character env' = character env
  /\ action_space env' = action_space env
  /\ max_steps env' = max_steps env
  /\ current_step env' = current_step env
  /\ history (state env') = history (state env)
  /\ [health (state env'); energy (state env'); wealth (state env');
      reputation (state env'); happiness (state env'); stress (state env');
      trust (state env')]
     = [health (state env); energy (state env); wealth (state env);
        reputation (state env); happiness (state env); stress (state env);
        trust (state env)].
Proof.
  cbv zeta. split.
  - unfold configure_scenario. cbn [state set_state].
    destruct env as [ch sp ad ms cs st]. cbn [state]. unfold set_state.
    cbn [character action_space action_dim max_steps current_step].
    f_equal.
    destruct st as [h e w rp hp sr tr [j a sd f] [t o s tp] hist].
    unfold configure_scenario_state.
    repeat rewrite block_cons. repeat rewrite block_nil.
    unfold when.
    repeat match goal with
           | |- context [if ?b then _ else _] => destruct b
           end; reflexivity.
  - unfold configure_scenario.
    cbn [state set_state character action_space max_steps current_step].
    repeat split; try reflexivity.
    + apply frames_apply. unfold configure_scenario_state.
      split_stmt; intro; reflexivity.
    + assert (F : forall (proj : State -> Q),
                 (forall v s, proj (set_emotions v s) = proj s) ->
                 (forall v s, proj (set_environment v s) = proj s) ->
                 proj (configure_scenario_state scenario (state env))
                 = proj (state env)).
      { intros proj He Hp. apply frames_apply.
        unfold configure_scenario_state.
        split_stmt; intro; unfold assign, set_threat_level, set_fear,
          set_opportunity, set_joy, set_time_pressure, set_social_pressure,
          set_anger, set_sadness; rewrite ?He, ?Hp; reflexivity. }
      rewrite !F by reflexivity. reflexivity.
Qed.

End OutcomeAndReset.

(** ** The interaction environment *)

Section InteractionProperties.

Import Interaction.

Local Open Scope Q_scope.

Lemma X2_step_unknown_action_witness :
  step interaction_base_env 2 zero_draw
  = (set_current_step (current_step interaction_base_env + 1)
       interaction_base_env,
     Raise (UnboundLocalError "outcome")).
Proof.
  apply (X2_step_unknown_action interaction_base_env 2 zero_draw "妥协");
    reflexivity.
Defined.

Lemma create_interaction_inversion p1 p2 sc ienv :
  create_interaction_environment p1 p2 sc = Ok ienv ->
  reachable p1 (env ienv)
  /\ action_space (env ienv) = interaction_actions
  /\ other_character ienv = p2
  /\ other_response ienv = None.
Proof.
  unfold create_interaction_environment.
  destruct (init p1 (Some interaction_actions) 100) as [e|ex] eqn:Hinit;
    [|discriminate].
  cbn. intros [= <-]. cbn [env other_character other_response].
  pose proof (reach_init p1 _ _ _ Hinit) as Hr.
  apply init_inversion in Hinit as Hi.
  assert (Hsp : action_space e = interaction_actions).
  { revert Hinit. unfold init, reset, get_state_vector. cbn.
    intros [= <-]. reflexivity. }
  destruct sc as [[|a s]|]; repeat split; auto.
  apply reach_scenario. exact Hr.
Qed.

(** X11. In the environment [create_interaction_environment] builds,
    only three of the twelve interaction actions can be performed.
    Indices 0, 1 and 8 ("合作", "竞争", "说服": cooperate, compete,
    persuade) are names [_calculate_outcome] knows: [interaction_step]
    returns for them and stores the action as ["other_response"].  Every
    other index in [0, 12), "帮助" (help, index 10) among them, makes
    [interaction_step] raise [UnboundLocalError]; the counter has moved
    on, while the state, its history and ["other_response"] are as
    before. *)
Theorem X11_interaction_actions_mostly_raise (profile1 profile2 : Profile.t)
    (scenario : option string) (ienv : Interaction.t) (idx : Z)
    (rnd : step_draw) :
  create_interaction_environment profile1 profile2 scenario = Ok ienv ->
  (0 <= idx < 12)%Z ->
  index interaction_actions 8 = Ok "说服"
  /\ index interaction_actions 10 = Ok "帮助"
  /\ (idx = 0%Z \/ idx = 1%Z \/ idx = 8%Z ->
      exists r action,
        (interaction_step ienv idx rnd).2 = Ok r
        /\ index interaction_actions idx = Ok action
        /\ other_response (interaction_step ienv idx rnd).1 = Some action)
  /\ (idx <> 0%Z -> idx <> 1%Z -> idx <> 8%Z ->
      interaction_step ienv idx rnd
      = ({| env := set_current_step (current_step (env ienv) + 1) (env ienv);
            other_character := other_character ienv;
            other_response := other_response ienv |},
         Raise (UnboundLocalError "outcome"))).
Proof.
  intros Hc Hi.
  apply create_interaction_inversion in Hc as (Hr & Hsp & _ & _).
  pose proof (reachable_env_inv _ _ Hr) as (_ & Hm & _).
  split; [reflexivity|]. split; [reflexivity|]. split.
  - intros Hidx.
    assert (Hcase : exists action,
               index (action_space (env ienv)) idx = Ok action
               /\ known_action action = true).
    { rewrite Hsp.
      destruct Hidx as [->|[->| ->]]; eexists; split; reflexivity. }
    destruct Hcase as (action & Hidx' & Hk).
    destruct (step_returns (env ienv) idx rnd action Hidx' Hk Hm)
      as (r0 & Hr0 & _).
    unfold interaction_step. rewrite Hidx'.
    destruct (step (env ienv) idx rnd) as [env' res] eqn:Hstep.
    cbn [fst snd] in Hr0. subst res. cbn [fst snd other_response].
    eexists _, action. split; [reflexivity|].
    split; [rewrite <- Hsp; exact Hidx'|reflexivity].
  - intros H0 H1 H8.
    assert (Hcase : exists action,
               index (action_space (env ienv)) idx = Ok action
               /\ known_action action = false).
    { rewrite Hsp.
      assert (idx = 2 \/ idx = 3 \/ idx = 4 \/ idx = 5 \/ idx = 6 \/ idx = 7
              \/ idx = 9 \/ idx = 10 \/ idx = 11)%Z as Hidx by lia.
      repeat (destruct Hidx as [->|Hidx]; [eexists; split; reflexivity|]).
      subst idx. eexists; split; reflexivity. }
    destruct Hcase as (action & Hidx & Hk).
    unfold interaction_step. rewrite Hidx.
    rewrite (step_unknown_action _ _ rnd _ Hidx Hk). reflexivity.
Qed.

Lemma X11_interaction_actions_mostly_raise_witness :
  index interaction_actions 8 = Ok "说服"
  /\ index interaction_actions 10 = Ok "帮助"
  /\ (10 = 0 \/ 10 = 1 \/ 10 = 8 ->
      exists r action,
        (interaction_step interaction_example 10 zero_draw).2 = Ok r
        /\ index interaction_actions 10 = Ok action
        /\ other_response (interaction_step interaction_example 10
                             zero_draw).1 = Some action)%Z
  /\ (10 <> 0 -> 10 <> 1 -> 10 <> 8 ->
      interaction_step interaction_example 10 zero_draw
      = ({| env := set_current_step
                     (current_step (env interaction_example) + 1)
                     (env interaction_example);
            other_character := other_character interaction_example;
            other_response := other_response interaction_example |},
         Raise (UnboundLocalError "outcome")))%Z.
Proof.
  apply (X11_interaction_actions_mostly_raise empty_profile sample_profile
           None interaction_example 10 zero_draw).
  - reflexivity.
  - lia.
Defined.

(** X12. In the interaction environment a cooperation (index 0) always
    returns.  When the other character's agreeableness is above 0.6 the
    reward returned is 1.2 times the reward the step wrote to the history,
    and the outcome returned is the recorded one with "，对方积极回应"
    appended: the history keeps the unscaled reward and the bare outcome.
    The action is stored as ["other_response"]. *)
Theorem X12_interaction_reward_scaled (c : Profile.t) (ienv : Interaction.t)
    (rnd : step_draw) :
  reachable c (env ienv) ->
  action_space (env ienv) = interaction_actions ->
  gtb (get (Profile.attrs (other_character ienv)) "A" 0.5) 0.6 = true ->
  exists r entry,
    (interaction_step ienv 0 rnd).2 = Ok r
    /\ history (state (env (interaction_step ienv 0 rnd).1))
       = history (state (env ienv)) ++ [entry]
    /\ h_action entry = "合作"
    /\ reward r = h_reward entry * 1.2
    /\ info_outcome r = h_outcome entry +:+ "，对方积极回应"
    /\ other_response (interaction_step ienv 0 rnd).1 = Some "合作".
Proof.
  intros Hr Hsp Ha.
  pose proof (reachable_env_inv _ _ Hr) as (_ & Hm & _).
  assert (Hidx : index (action_space (env ienv)) 0 = Ok "合作")
    by (rewrite Hsp; reflexivity).
  destruct (step_returns (env ienv) 0 rnd "合作" Hidx eq_refl Hm)
    as (r0 & Hr0 & _).
  pose proof (step_history (env ienv) 0 rnd r0 Hr0) as Hh.
  assert (Hact : info_action r0 = "合作").
  { revert Hr0. unfold step. rewrite Hidx.
    destruct (_calculate_outcome _ _ _) as [[o rw]|]; [|cbn; discriminate].
    destruct (get_state_vector _); cbn; [|discriminate].
    intros [= <-]. reflexivity. }
  unfold interaction_step. rewrite Hidx.
  destruct (step (env ienv) 0 rnd) as [env' res] eqn:Hstep.
  cbn [fst snd] in Hr0, Hh. subst res. cbn [fst snd env other_response].
  eexists. eexists. split; [reflexivity|].
  split; [exact Hh|].
  cbn [h_action h_reward h_outcome]. split; [exact Hact|].
  unfold respond. cbn [existsb]. eval_eqb. rewrite Ha.
  cbn [reward info_outcome]. repeat split; reflexivity.
Qed.

Lemma X12_interaction_reward_scaled_witness :
  exists r entry,
    (interaction_step
       {| env := interaction_base_env; other_character := agreeable_profile;
          other_response := None |} 0 zero_draw).2 = Ok r
    /\ history (state (env (interaction_step
          {| env := interaction_base_env;
             other_character := agreeable_profile;
             other_response := None |} 0 zero_draw).1))
       = history (state interaction_base_env) ++ [entry]
    /\ h_action entry = "合作"
    /\ reward r = h_reward entry * 1.2
    /\ info_outcome r = h_outcome entry +:+ "，对方积极回应"
    /\ other_response (interaction_step
          {| env := interaction_base_env;
             other_character := agreeable_profile;
             other_response := None |} 0 zero_draw).1 = Some "合作".
Proof.
  apply (X12_interaction_reward_scaled empty_profile
           {| env := interaction_base_env;
              other_character := agreeable_profile;
              other_response := None |} zero_draw).
  - apply (reach_init _ (Some interaction_actions) 100). reflexivity.
  - reflexivity.
  - vm_compute. reflexivity.
Defined.

End InteractionProperties.

(** ** Further properties of [compute_returns_and_advantages] *)

Section AdvantagesMore.

Local Open Scope Q_scope.

Lemma index_nat {A} (l : list A) (i : nat) :
  (i < length l)%nat ->
  exists a, index l (Z.of_nat i) = Ok a /\ l !! i = Some a.
Proof.
  intros H. destruct (index_in_range l (Z.of_nat i)) as (a & Ha & Hl);
    [lia|].
  rewrite Nat2Z.id in Hl. eauto.
Qed.

Lemma index_last {A} (l : list A) :
  l <> [] -> exists a, index l (-1) = Ok a.
Proof.
  intros H. assert (0 < length l)%nat by (destruct l; [congruence|cbn; lia]).
  rewrite index_negative by lia.
  destruct (index_in_range l (Z.of_nat (length l) + -1)) as (a & Ha & _);
    [lia|]. eauto.
Qed.

Lemma index_raises_IndexError {A} (l : list A) (i : Z) e :
  index l i = Raise e -> e = IndexError.
Proof.
  unfold index. destruct (_ && _); [|congruence].
  destruct (l !! _); congruence.
Qed.

Lemma reversed_range_S (k : nat) :
  reversed_range (S k) = Z.of_nat k :: reversed_range k.
Proof.
  unfold reversed_range. rewrite seq_S, map_app, rev_app_distr. reflexivity.
Qed.

(** One pass of the loop body at an index all the lists cover. *)
Lemma gae_body_ok rewards values next_value dones gamma lam st (t : nat) :
  (t < length rewards)%nat ->
  (length rewards <= length values)%nat ->
  (length rewards <= length dones)%nat ->
  (S t < length rewards -> returns st <> [])%nat ->
  exists g v,
    values !! t = Some v
    /\ gae_body rewards values next_value dones gamma lam st (Z.of_nat t)
       = Ok {| returns := (g + v) :: returns st;
               advantages := g :: advantages st; gae := g |}.
Proof.
  intros Ht Hv Hd Hret.
  destruct (index_nat rewards t Ht) as (r & Er & _).
  destruct (index_nat values t) as (v & Ev & Lv); [lia|].
  unfold gae_body.
  destruct (Z.of_nat t =? Z.of_nat (length rewards) - 1)%Z eqn:E.
  - destruct (index_last dones) as (d & Ed).
    { destruct dones; [cbn in Hd; lia|congruence]. }
    unfold mbind, res_bind, Py.bind. rewrite Ed, Er, Ev.
    eexists _, v. split; [exact Lv|reflexivity].
  - apply Z.eqb_neq in E.
    destruct (index_nat dones (S t)) as (d & Ed & _); [lia|].
    replace (Z.of_nat (S t)) with (Z.of_nat t + 1)%Z in Ed by lia.
    destruct (index_nat (returns st) 0) as (r0 & Er0 & _).
    { assert (returns st <> []) by (apply Hret; lia).
      destruct (returns st); [congruence|cbn; lia]. }
    change (Z.of_nat 0) with 0%Z in Er0.
    unfold mbind, res_bind, Py.bind. rewrite Ed, Er0, Er, Ev.
    eexists _, v. split; [exact Lv|reflexivity].
Qed.

Lemma gae_loop rewards values next_value dones gamma lam :
  (length rewards <= length values)%nat ->
  (length rewards <= length dones)%nat ->
  forall (k : nat) st,
    (k <= length rewards)%nat ->
    length (advantages st) = (length rewards - k)%nat ->
    returns st = zip_with Qplus (advantages st) (drop k values) ->
    exists st',
      for_each (gae_body rewards values next_value dones gamma lam)
        (reversed_range k) st = Ok st'
      /\ length (advantages st') = length rewards
      /\ returns st' = zip_with Qplus (advantages st') values.
Proof.
  intros Hv Hd. induction k as [|k IH]; intros st Hk Hlen Hret.
  - exists st. split; [reflexivity|]. split; [lia|exact Hret].
  - rewrite reversed_range_S. cbn [for_each].
    destruct (gae_body_ok rewards values next_value dones gamma lam st k)
      as (g & v & Lv & Eb); try lia.
    { intros Hlt. rewrite Hret. intros Hnil.
      apply (f_equal length) in Hnil.
      rewrite length_zip_with, Hlen, length_drop in Hnil. cbn in Hnil. lia. }
    unfold mbind, res_bind, Py.bind. rewrite Eb.
    apply IH; cbn [advantages returns]; [lia|cbn; lia|].
    rewrite (drop_S values v k Lv), Hret. reflexivity.
Qed.

(** X13. When [values] and [dones] are at least as long as [rewards],
    [compute_returns_and_advantages] returns two lists of the length of
    [rewards], and every return is the advantage of that step plus its
    value estimate: [returns[t] = advantages[t] + values[t]]. *)
Theorem X13_returns_are_advantages_plus_values (self : PPOAgent)
    (rewards values : list Q) (next_value : Q) (dones : list bool)
    (gamma : option Q) (gae_lambda : Q) :
  (length rewards <= length values)%nat ->
  (length rewards <= length dones)%nat ->
  exists returns advantages,
    compute_returns_and_advantages self rewards values next_value dones
      gamma gae_lambda = Ok (returns, advantages)
    /\ length returns = length rewards
    /\ length advantages = length rewards
    /\ returns = zip_with Qplus advantages values.
Proof.
  intros Hv Hd. unfold compute_returns_and_advantages.
  destruct (gae_loop rewards values next_value dones
              (gamma_or gamma (PPO.gamma self)) gae_lambda Hv Hd
              (length rewards)
              {| returns := []; advantages := []; gae := 0 |})
    as (st & Est & Hlen & Hret); cbn [advantages returns];
    [lia|cbn [length]; lia|reflexivity|].
  unfold mbind, res_bind, Py.bind. rewrite Est.
  exists (returns st), (advantages st).
  split; [reflexivity|]. split; [|split; assumption].
  rewrite Hret, length_zip_with. lia.
Qed.

Lemma X13_returns_are_advantages_plus_values_witness :
  exists returns advantages,
    compute_returns_and_advantages narrow_agent [1; 1; 1] [0; 0; 0] 0
      [false; false; true] (Some 1) 1 = Ok (returns, advantages)
    /\ length returns = length [1; 1; 1]
    /\ length advantages = length [1; 1; 1]
    /\ returns = zip_with Qplus advantages [0; 0; 0].
Proof.
  apply (X13_returns_are_advantages_plus_values narrow_agent [1; 1; 1]
           [0; 0; 0] 0 [false; false; true] (Some 1) 1); cbn; lia.
Defined.

Lemma gae_body_raises rewards values next_value dones gamma lam st t e :
  gae_body rewards values next_value dones gamma lam st t = Raise e ->
  e = IndexError.
Proof.
  unfold gae_body, mbind, res_bind, Py.bind.
  destruct (t =? _)%Z.
  - destruct (index dones (-1)) eqn:E1;
      [|intros [= <-]; exact (index_raises_IndexError _ _ _ E1)].
    destruct (index rewards t) eqn:E2;
      [|intros [= <-]; exact (index_raises_IndexError _ _ _ E2)].
    destruct (index values t) eqn:E3;
      [|intros [= <-]; exact (index_raises_IndexError _ _ _ E3)].
    discriminate.
  - destruct (index dones (t + 1)) eqn:E1;
      [|intros [= <-]; exact (index_raises_IndexError _ _ _ E1)].
    destruct (index (returns st) 0) eqn:E0;
      [|intros [= <-]; exact (index_raises_IndexError _ _ _ E0)].
    destruct (index rewards t) eqn:E2;
      [|intros [= <-]; exact (index_raises_IndexError _ _ _ E2)].
    destruct (index values t) eqn:E3;
      [|intros [= <-]; exact (index_raises_IndexError _ _ _ E3)].
    discriminate.
Qed.

(** A loop whose body can only raise [IndexError], and does raise at one
    of the indices it visits, ends in [IndexError]. *)
Lemma for_each_raises_at {S : Type} (body : S -> Z -> res S) (t : Z) :
  (forall st t' e, body st t' = Raise e -> e = IndexError) ->
  (forall st, is_ok (body st t) = false) ->
  forall ts st, t ∈ ts -> for_each body ts st = Raise IndexError.
Proof.
  intros Hraise Hat. induction ts as [|t0 ts IH]; intros st Hin.
  - inversion Hin.
  - cbn [for_each]. unfold mbind, res_bind, Py.bind.
    destruct (body st t0) as [st'|e] eqn:E.
    + apply elem_of_cons in Hin as [->|Hin].
      * specialize (Hat st). rewrite E in Hat. discriminate.
      * apply IH, Hin.
    + rewrite (Hraise _ _ _ E). reflexivity.
Qed.

Lemma elem_of_reversed_range (t n : nat) :
  (t < n)%nat -> Z.of_nat t ∈ reversed_range n.
Proof.
  intros H. unfold reversed_range. apply list_elem_of_In, in_rev.
  rewrite rev_involutive. apply in_map, in_seq. lia.
Qed.

(** X14. When [values] or [dones] is shorter than [rewards],
    [compute_returns_and_advantages] raises [IndexError]: the lengths are
    never compared, the failure comes from the indexing inside the loop. *)
Theorem X14_short_inputs_raise_IndexError (self : PPOAgent)
    (rewards values : list Q) (next_value : Q) (dones : list bool)
    (gamma : option Q) (gae_lambda : Q) :
  (length values < length rewards)%nat
  \/ (length dones < length rewards)%nat ->
  compute_returns_and_advantages self rewards values next_value dones
    gamma gae_lambda = Raise IndexError.
Proof.
  intros H. unfold compute_returns_and_advantages.
  set (g := gamma_or gamma (PPO.gamma self)).
  set (n := length rewards) in *.
  assert (Hloop : for_each (gae_body rewards values next_value dones g
                              gae_lambda) (reversed_range n)
                    {| returns := []; advantages := []; gae := 0 |}
                  = Raise IndexError).
  { assert (Hr := fun st t e =>
                    gae_body_raises rewards values next_value dones g
                      gae_lambda st t e).
    destruct (decide (length values < n)%nat) as [Hv|Hv].
    - apply (for_each_raises_at _ (Z.of_nat (n - 1)) Hr);
        [|apply elem_of_reversed_range; lia].
      intros st. unfold gae_body, mbind, res_bind, Py.bind.
      rewrite (index_out_of_range values) by lia.
      destruct (_ =? _)%Z.
      + destruct (index dones (-1)); [|reflexivity].
        destruct (index rewards _); reflexivity.
      + destruct (index dones _); [|reflexivity].
        destruct (index (returns st) 0); [|reflexivity].
        destruct (index rewards _); reflexivity.
    - assert (Hd : (length dones < n)%nat) by (destruct H; [lia|assumption]).
      destruct dones as [|d0 dones'] eqn:Ed.
      + apply (for_each_raises_at _ (Z.of_nat (n - 1)) Hr);
          [|apply elem_of_reversed_range; cbn in Hd; lia].
        intros st. unfold gae_body, mbind, res_bind, Py.bind.
        replace (Z.of_nat (n - 1) =? Z.of_nat (length rewards) - 1)%Z
          with true by (symmetry; apply Z.eqb_eq; fold n; cbn in Hd; lia).
        reflexivity.
      + rewrite <- Ed in *. assert (1 <= length dones)%nat
          by (rewrite Ed; cbn; lia).
        apply (for_each_raises_at _ (Z.of_nat (n - 2)) Hr);
          [|apply elem_of_reversed_range; lia].
        intros st. unfold gae_body, mbind, res_bind, Py.bind.
        replace (Z.of_nat (n - 2) =? Z.of_nat (length rewards) - 1)%Z
          with false by (symmetry; apply Z.eqb_neq; fold n; lia).
        rewrite (index_out_of_range dones) by lia. reflexivity. }
  unfold mbind, res_bind, Py.bind. rewrite Hloop. reflexivity.
Qed.

Lemma X14_short_inputs_raise_IndexError_witness :
  compute_returns_and_advantages narrow_agent [1; 1] [0; 0] 0 [false]
    (Some 1) 1 = Raise IndexError.
Proof.
  apply (X14_short_inputs_raise_IndexError narrow_agent [1; 1] [0; 0] 0
           [false] (Some 1) 1).
  right. cbn. lia.
Defined.

End AdvantagesMore.

(** ** [build_state], [compute_reward] and [MirageEnv.step] *)

Section MirageProperties.

Import Mirage.

Local Open Scope Q_scope.

(** X15. [build_state] always gives 18 entries, so [compute_reward] on the
    vector built from a profile never raises, for any integer action.  The
    reward depends on the profile's emotions only (0.25 where one is
    missing): [2*joy + anger] for action 0, [0.5 - anger] for 1,
    [sadness - 0.1] for 2, [-0.2] for 3, [fear - 0.3] for 4,
    [(joy + anger)/2 - 0.2] for 5, and 0 for every other action. *)
Theorem X15_reward_on_built_state (p : Profile.t) (action : Z) :
  let e := Profile.emotion_state_or_empty p in
  let joy := get e "joy" 0.25 in
  let anger := get e "anger" 0.25 in
  let sadness := get e "sadness" 0.25 in
  let fear := get e "fear" 0.25 in
  length (build_state p) = 18%nat
  /\ exists r,
       compute_reward p (build_state p) action = Ok r
       /\ (action = 0%Z -> r == 2 * joy + anger)
       /\ (action = 1%Z -> r == 0.5 - anger)
       /\ (action = 2%Z -> r == sadness - 0.1)
       /\ (action = 3%Z -> r == - 0.2)
       /\ (action = 4%Z -> r == fear - 0.3)
       /\ (action = 5%Z -> r == (joy + anger) / 2 - 0.2)
       /\ ((action < 0 \/ 5 < action)%Z -> r == 0).
Proof.
  cbv zeta. split; [reflexivity|].
  unfold compute_reward.
  destruct (action =? 0)%Z eqn:E0.
  { apply Z.eqb_eq in E0. eexists. split; [reflexivity|].
    repeat split; intros; try lia; ring. }
  destruct (action =? 1)%Z eqn:E1.
  { apply Z.eqb_eq in E1. eexists. split; [reflexivity|].
    repeat split; intros; try lia; ring. }
  destruct (action =? 2)%Z eqn:E2.
  { apply Z.eqb_eq in E2. eexists. split; [reflexivity|].
    repeat split; intros; try lia; ring. }
  destruct (action =? 3)%Z eqn:E3.
  { apply Z.eqb_eq in E3. eexists. split; [reflexivity|].
    repeat split; intros; try lia; ring. }
  destruct (action =? 4)%Z eqn:E4.
  { apply Z.eqb_eq in E4. eexists. split; [reflexivity|].
    repeat split; intros; try lia; ring. }
  destruct (action =? 5)%Z eqn:E5.
  { apply Z.eqb_eq in E5. eexists. split; [reflexivity|].
    repeat split; intros; try lia; field. }
  apply Z.eqb_neq in E0, E1, E2, E3, E4, E5.
  eexists. split; [reflexivity|].
  repeat split; intros; try lia; ring.
Qed.

(** The two writes of [_update_profile(1)] on a profile without
    ["emotion_state"]: the first lands, the second raises. *)
Lemma update_profile_deceive_raises (σ : nat -> Profile.t)
    (env : MirageEnv) (trust : Q) :
  Profile.attrs (σ (profile env)) !! "trust" = Some trust ->
  Profile.emotion_state (σ (profile env)) = None ->
  _update_profile 1 (σ, env)
  = ((<[profile env :=
          Profile.set_attrs
            (<["trust" := trust + - 0.1]> (Profile.attrs (σ (profile env))))
            (σ (profile env))]> σ, env),
     Raise (KeyError "emotion_state")).
Proof.
  intros Ht He. unfold _update_profile. unfold_methods.
  cbn [fst snd Z.eqb Pos.eqb]. unfold write_profile.
  unfold Profile.add_attr at 1. unfold getitem. rewrite Ht.
  unfold mbind, res_bind, Py.bind.
  rewrite fn_lookup_insert. unfold Profile.add_emotion.
  cbn [Profile.emotion_state Profile.set_attrs]. rewrite He.
  reflexivity.
Qed.

(** X16. On a profile that has ["trust"] but no ["emotion_state"] entry
    (which [build_state] accepts), [MirageEnv.step(1)] raises
    [KeyError("emotion_state")] half-way: ["trust"] has already been
    lowered by 0.1 in the caller's profile and the step counter advanced,
    while the state vector and the done flag are the stale ones; no other
    profile is touched. *)
Theorem X16_mirage_step_partial_write (σ : nat -> Profile.t)
    (env : MirageEnv) (trust : Q) :
  Profile.attrs (σ (profile env)) !! "trust" = Some trust ->
  Profile.emotion_state (σ (profile env)) = None ->
  length (state env) = 18%nat ->
  let run := MirageEnv_step 1 (σ, env) in
  run.2 = Raise (KeyError "emotion_state")
  /\ Profile.attrs (run.1.1 (profile env)) !! "trust" = Some (trust + - 0.1)
  /\ current_step run.1.2 = (current_step env + 1)%Z
  /\ state run.1.2 = state env
  /\ done run.1.2 = done env
  /\ profile run.1.2 = profile env
  /\ forall l, l <> profile env -> run.1.1 l = σ l.
Proof.
  intros Ht He Hlen. cbv zeta.
  destruct (compute_reward_long (σ (profile env)) (state env) 1 Hlen)
    as (rw & Erw).
  pose proof (update_profile_deceive_raises σ
                (set_current_step (current_step env + 1) env) trust Ht He)
    as Eup.
  cbn [profile set_current_step] in Eup.
  unfold MirageEnv_step. unfold_methods.
  cbn [fst snd profile state set_current_step].
  rewrite Erw. cbn [fst snd profile state set_current_step].
  rewrite Eup. cbn [fst snd current_step state done profile
                         set_current_step].
  split; [reflexivity|]. split.
  { rewrite fn_lookup_insert. cbn [Profile.attrs Profile.set_attrs].
    apply lookup_insert_eq. }
  repeat split; try reflexivity.
  intros l Hl. apply fn_lookup_insert_ne. congruence.
Qed.

Lemma X16_mirage_step_partial_write_witness :
  let σ : nat -> Profile.t :=
    fun _ => {| Profile.attrs := {[ "trust" := 0.5 ]};
                Profile.wuxing := None; Profile.emotion_state := None |} in
  let env := MirageEnv_init σ 0 in
  let run := MirageEnv_step 1 (σ, env) in
  run.2 = Raise (KeyError "emotion_state")
  /\ Profile.attrs (run.1.1 (profile env)) !! "trust" = Some (0.5 + - 0.1)
  /\ current_step run.1.2 = (current_step env + 1)%Z
  /\ state run.1.2 = state env
  /\ done run.1.2 = done env
  /\ profile run.1.2 = profile env
  /\ forall l, l <> profile env -> run.1.1 l = σ l.
Proof.
  cbv zeta.
  apply (X16_mirage_step_partial_write
           (fun _ => {| Profile.attrs := {[ "trust" := 0.5 ]};
                        Profile.wuxing := None;
                        Profile.emotion_state := None |})
           (MirageEnv_init _ 0) 0.5); reflexivity.
Defined.

(** The two writes of [_update_profile(0)]. *)
Lemma update_profile_cooperate (σ : nat -> Profile.t) (env : MirageEnv)
    (trust reputation : Q) :
  Profile.attrs (σ (profile env)) !! "trust" = Some trust ->
  Profile.attrs (σ (profile env)) !! "reputation" = Some reputation ->
  exists σ',
    _update_profile 0 (σ, env) = ((σ', env), Ok tt)
    /\ σ' (profile env)
       = Profile.set_attrs
           (<["reputation" := reputation + 0.05]>
              (<["trust" := trust + 0.05]>
                 (Profile.attrs (σ (profile env)))))
           (σ (profile env)).
Proof.
  intros Ht Hr. unfold _update_profile. unfold_methods.
  cbn [fst snd Z.eqb].
  rewrite (write_profile_ok _ _ _ _ _ (add_attr_ok "trust" 0.05 trust _ Ht)).
  erewrite write_profile_ok.
  2:{ rewrite fn_lookup_insert. apply add_attr_ok.
      cbn [Profile.attrs Profile.set_attrs].
      rewrite lookup_insert_ne by discriminate. exact Hr. }
  eexists. split; [reflexivity|].
  rewrite fn_lookup_insert. reflexivity.
Qed.

(** X17. [MirageEnv.step(0)] on a profile with ["trust"] and
    ["reputation"] returns.  The reward is computed from the state vector
    held before the call; the observation returned is the vector rebuilt
    from the written profile, whose entries 14 and 15 are the old
    reputation and trust plus 0.05, with no clamp to the declared [0, 1]
    box; the counter advances by one and the done flag is set as soon as
    the counter reaches [max_steps], and never cleared by [step]. *)
Theorem X17_mirage_cooperate_observation (σ : nat -> Profile.t)
    (env : MirageEnv) (trust reputation : Q) :
  Profile.attrs (σ (profile env)) !! "trust" = Some trust ->
  Profile.attrs (σ (profile env)) !! "reputation" = Some reputation ->
  length (state env) = 18%nat ->
  let run := MirageEnv_step 0 (σ, env) in
  exists obs reward,
    run.2 = Ok (obs, reward, done run.1.2)
    /\ compute_reward (σ (profile env)) (state env) 0 = Ok reward
    /\ obs = build_state (run.1.1 (profile env))
    /\ state run.1.2 = obs
    /\ index obs 14 = Ok (reputation + 0.05)
    /\ index obs 15 = Ok (trust + 0.05)
    /\ current_step run.1.2 = (current_step env + 1)%Z
    /\ done run.1.2
       = done env || (max_steps env <=? current_step env + 1)%Z.
Proof.
  intros Ht Hr Hlen. cbv zeta.
  destruct (compute_reward_long (σ (profile env)) (state env) 0 Hlen)
    as (rw & Erw).
  destruct (update_profile_cooperate σ
              (set_current_step (current_step env + 1) env) trust
              reputation Ht Hr) as (σ' & Eup & Eσ').
  cbn [profile set_current_step] in Eup, Eσ'.
  unfold MirageEnv_step. unfold_methods.
  cbn [fst snd profile state set_current_step].
  rewrite Erw. cbn [fst snd profile state set_current_step].
  rewrite Eup.
  cbn [fst snd profile state max_steps current_step set_state
       set_current_step].
  rewrite Eσ'.
  set (p' := Profile.set_attrs _ _) in *.
  assert (E14 : index (build_state p') 14 = Ok (reputation + 0.05)).
  { change (index (build_state p') 14)
      with (Ok (get (Profile.attrs p') "reputation" 0.5) : res Q).
    unfold get, p'. cbn [Profile.attrs Profile.set_attrs].
    rewrite lookup_insert_eq. reflexivity. }
  assert (E15 : index (build_state p') 15 = Ok (trust + 0.05)).
  { change (index (build_state p') 15)
      with (Ok (get (Profile.attrs p') "trust" 0.5) : res Q).
    unfold get, p'. cbn [Profile.attrs Profile.set_attrs].
    rewrite lookup_insert_ne by discriminate.
    rewrite lookup_insert_eq. reflexivity. }
  exists (build_state p'), rw.
  destruct (max_steps env <=? current_step env + 1)%Z;
    cbn [fst snd state done current_step set_done set_state
         set_current_step];
    rewrite ?Eσ', ?orb_true_r, ?orb_false_r;
    repeat split; try reflexivity; assumption.
Qed.

Lemma X17_mirage_cooperate_observation_witness :
  let run := MirageEnv_step 0 (sample_store, MirageEnv_init sample_store 0) in
  exists obs reward,
    run.2 = Ok (obs, reward, done run.1.2)
    /\ compute_reward (sample_store 0%nat)
         (state (MirageEnv_init sample_store 0)) 0 = Ok reward
    /\ obs = build_state (run.1.1 (profile (MirageEnv_init sample_store 0)))
    /\ state run.1.2 = obs
    /\ index obs 14 = Ok (0.4 + 0.05)
    /\ index obs 15 = Ok (0.6 + 0.05)
    /\ current_step run.1.2
       = (current_step (MirageEnv_init sample_store 0) + 1)%Z
    /\ done run.1.2
       = done (MirageEnv_init sample_store 0)
         || (max_steps (MirageEnv_init sample_store 0)
             <=? current_step (MirageEnv_init sample_store 0) + 1)%Z.
Proof.
  apply (X17_mirage_cooperate_observation sample_store
           (MirageEnv_init sample_store 0) 0.6 0.4); reflexivity.
Defined.

End MirageProperties.

(** ** Save and load at the default width *)

Section RoundTrip.

Import Registry.

Local Open Scope Q_scope.

(** X18. For an agent whose network has the default hidden width 64 and
    tensors of the constructor's shapes, [load_model] of the file
    [save_model] wrote returns an agent with the same network parameters,
    optimizer state and dimensions, so on every probe vector of
    [state_dim] entries the loaded network returns, and returns the same
    probabilities and value as the saved one.  No other path is written.
    The hyperparameters are not stored: whatever the saved agent was built
    with, the loaded one has the constructor's defaults (gamma 0.99, clip
    ratio 0.2, gradient norm 0.5, value coefficient 0.5, entropy
    coefficient 0.01). *)
Theorem X18_save_load_round_trip (a : PPOAgent) (path : string)
    (fs : gmap string file) (rnd : init_draw) :
  agent_dims default_hidden_dim a = true ->
  shaped_policy (policy a) = true ->
  let fs' := save_model a path fs in
  (forall p, p <> path -> fs' !! p = fs !! p)
  /\ exists a',
       load_model path fs' rnd = Ok a'
       /\ policy a' = policy a
       /\ optimizer a' = optimizer a
       /\ PPO.state_dim a' = PPO.state_dim a
       /\ PPO.action_dim a' = PPO.action_dim a
       /\ (forall probe,
             length probe = PPO.state_dim a ->
             exists action_probs state_value,
               Float32.forward32 (policy a) probe
               = Ok (action_probs, state_value)
               /\ Float32.forward32 (policy a') probe
                  = Ok (action_probs, state_value)
               /\ length action_probs = PPO.action_dim a)
       /\ PPO.gamma a' = 99 # 100
       /\ clip_ratio a' = 2 # 10
       /\ max_grad_norm a' = 5 # 10
       /\ value_coef a' = 5 # 10
       /\ entropy_coef a' = 1 # 100.
Proof.
  intros Hd Hs fs'.
  destruct (checkpoint_lookups a) as (Ls & La & Lp & Lo).
  assert (Hfs : fs' !! path = Some (Pickle (checkpoint_of a)))
    by (unfold fs', save_model; apply lookup_insert_eq).
  split; [intros p Hp; unfold fs', save_model;
          apply lookup_insert_ne; congruence|].
  unfold load_model, torch_load. rewrite Hfs.
  unfold mbind, res_bind, Py.bind, getitem.
  rewrite Ls, La, Lp, Lo. cbn [as_int as_policy as_optimizer].
  unfold PPOAgent_default, PPOAgent_init. cbn [policy].
  unfold agent_dims in Hd. rewrite (has_dims_fresh _ _ _ rnd _ Hd).
  eexists. split; [reflexivity|].
  cbn [policy optimizer PPO.state_dim PPO.action_dim PPO.gamma clip_ratio
       max_grad_norm value_coef entropy_coef set_policy set_optimizer].
  split; [reflexivity|]. split; [reflexivity|]. split; [reflexivity|].
  split; [reflexivity|]. split; [|repeat split; reflexivity].
  intros probe Hlen.
  destruct (forward32_shaped (policy a) _ _ _ probe Hs Hd Hlen)
    as (logits & value & E & L).
  exists (Float32.Softmax32 logits), value.
  split; [exact E|]. split; [exact E|].
  rewrite Softmax32_length. exact L.
Qed.

Lemma X18_save_load_round_trip_witness :
  let a := PPOAgent_init 21 10 64 (1 # 1000) (9 # 10) (1 # 10) (5 # 10)
             (5 # 10) (1 # 100) (const_init 21 10 64 0) in
  let fs' := save_model a "agent_7.pt" ∅ in
  (forall p, p <> "agent_7.pt" -> fs' !! p = (∅ : gmap string file) !! p)
  /\ exists a',
       load_model "agent_7.pt" fs' (const_init 21 10 64 1) = Ok a'
       /\ policy a' = policy a
       /\ optimizer a' = optimizer a
       /\ PPO.state_dim a' = PPO.state_dim a
       /\ PPO.action_dim a' = PPO.action_dim a
       /\ (forall probe,
             length probe = PPO.state_dim a ->
             exists action_probs state_value,
               Float32.forward32 (policy a) probe
               = Ok (action_probs, state_value)
               /\ Float32.forward32 (policy a') probe
                  = Ok (action_probs, state_value)
               /\ length action_probs = PPO.action_dim a)
       /\ PPO.gamma a' = 99 # 100
       /\ clip_ratio a' = 2 # 10
       /\ max_grad_norm a' = 5 # 10
       /\ value_coef a' = 5 # 10
       /\ entropy_coef a' = 1 # 100.
Proof.
  apply (X18_save_load_round_trip
           (PPOAgent_init 21 10 64 (1 # 1000) (9 # 10) (1 # 10) (5 # 10)
              (5 # 10) (1 # 100) (const_init 21 10 64 0))
           "agent_7.pt" ∅ (const_init 21 10 64 1)).
  - reflexivity.
  - reflexivity.
Defined.

End RoundTrip.
